(** * IceNet plotting utilities: temporal alignment of forecasts and observations

    A shallow embedding of [icenet/plotting/utils.py]:
    [get_seas_forecast_da] (with its nested hook [strip_overlapping_time]),
    [filter_ds_by_obs], [get_obs_da], [get_forecast_ds],
    [calculate_data_extents] and [calculate_proj_extents], together with
    the calendar, path, logging and array operations those functions call.

    Conventions.
    - An instant ([datetime.datetime], [pandas.Timestamp], a [datetime64]
      coordinate value) is an integer count of nanoseconds from
      1970-01-01T00:00; a [datetime.timedelta(days=n)] is [n] times the
      number of nanoseconds in a day.  A forecast date arrives as an
      instant: [pd.to_datetime] of a string is not modelled.
    - A string is a Python [str] whose characters all lie below U+0100, one
      [ascii] for each character in the order of the code points; a file
      name with any other character is not represented.  Among these
      characters the decimal digits, which are what [\d] and [strptime]
      accept, are [0] to [9] and no others.
    - A function that logs and may raise is a computation in the monad [M]:
      the log records it emitted, in order, and either the exception that
      ended it or its return value.
    - A time axis is a list of instants; label slicing on it keeps the
      positions whose label lies within the bounds (both inclusive), which is
      what pandas does on the monotonic axes these files carry.
    - Library calls are given the behaviour the libraries document:
      [xr.open_mfdataset] raises [OSError] on an empty list of paths,
      assigning [.values] raises [ValueError] on a shape mismatch, a
      reduction of an empty array raises [ValueError].  What a library does
      inside ([xarray]'s combination of datasets, [ibicus]'s fit) and the
      function [broadcast_forecast], defined in [icenet.process.forecasts]
      and only called here, are parameters ([Externals]).  Where a
      statement needs [broadcast_forecast] to return, the function is
      modelled from what the specification says of it
      ([broadcast_reindex]).

    Layout: the definitions (calendar, paths, monad, arrays, the
    functions), concrete installations to run them on, then the
    properties, function by function. *)

From Stdlib Require Import ZArith List String Ascii Bool Lia Sorted Permutation.
From Stdlib Require Import DecimalString Floats.
Import ListNotations.

Local Open Scope string_scope.
Local Open Scope list_scope.
Local Open Scope Z_scope.

(** ** Calendar: the proleptic Gregorian calendar of [datetime] *)

Module Calendar.

Definition datetime := Z.

Definition ns_per_day : Z := 86400 * 1000000000.

(** [datetime.timedelta(days=n)] *)
Definition timedelta_days (n : Z) : Z := n * ns_per_day.

Definition is_leap (y : Z) : bool :=
  ((y mod 4 =? 0) && negb (y mod 100 =? 0)) || (y mod 400 =? 0).

Definition days_in_month (y m : Z) : Z :=
  if m =? 2 then (if is_leap y then 29 else 28)
  else if (m =? 4) || (m =? 6) || (m =? 9) || (m =? 11) then 30
  else 31.

(** The fields [datetime(y, m, d)] accepts (MINYEAR = 1, MAXYEAR = 9999). *)
Definition valid_date (y m d : Z) : bool :=
  (1 <=? y) && (y <=? 9999) && (1 <=? m) && (m <=? 12)
  && (1 <=? d) && (d <=? days_in_month y m).

(** Day number of a civil date, counted from 1970-01-01. *)
Definition days_from_civil (y m d : Z) : Z :=
  let y' := if m <=? 2 then y - 1 else y in
  let era := y' / 400 in
  let yoe := y' - era * 400 in
  let mp := (m + 9) mod 12 in
  let doy := (153 * mp + 2) / 5 + d - 1 in
  let doe := yoe * 365 + yoe / 4 - yoe / 100 + doy in
  era * 146097 + doe - 719468.

(** Civil date (year, month, day) of a day number. *)
Definition civil_from_days (z : Z) : Z * Z * Z :=
  let z' := z + 719468 in
  let era := z' / 146097 in
  let doe := z' - era * 146097 in
  let yoe := (doe - doe / 1460 + doe / 36524 - doe / 146096) / 365 in
  let doy := doe - (365 * yoe + yoe / 4 - yoe / 100) in
  let mp := (5 * doy + 2) / 153 in
  let d := doy - (153 * mp + 2) / 5 + 1 in
  let m := if mp <? 10 then mp + 3 else mp - 9 in
  let y := yoe + era * 400 in
  ((if m <=? 2 then y + 1 else y), m, d).

(** [datetime(y, m, d)]: midnight at the start of the civil date. *)
Definition midnight (y m d : Z) : datetime :=
  days_from_civil y m d * ns_per_day.

(** The civil date an instant falls on. *)
Definition date_of (t : datetime) : Z * Z * Z :=
  civil_from_days (t / ns_per_day).

(** The instant with the same month, day and time of day [n] calendar
    years away: what "n years before/after" means for a date that exists
    in the target year. *)
Definition shift_years (n : Z) (t : datetime) : datetime :=
  let '(y, m, d) := date_of t in
  midnight (y + n) m d + t mod ns_per_day.

(** *** Decimal digits *)

Definition digit_char (n : Z) : ascii :=
  ascii_of_nat (48 + Z.to_nat (n mod 10)).

Definition two_digits (n : Z) : string :=
  String (digit_char (n / 10)) (String (digit_char n) EmptyString).

Definition four_digits (n : Z) : string :=
  (two_digits (n / 100) ++ two_digits (n mod 100))%string.

(** A decimal digit.  The class [\d] of [re], which the patterns of
    [strptime] use as well, is the characters of Unicode category Nd;
    below U+0100 those are [0] to [9]. *)
Definition is_digit (c : ascii) : bool :=
  let n := nat_of_ascii c in (48 <=? n)%nat && (n <=? 57)%nat.

Definition digit_val (c : ascii) : Z := Z.of_nat (nat_of_ascii c) - 48.

Fixpoint all_digits (s : string) : bool :=
  match s with
  | EmptyString => true
  | String c s' => is_digit c && all_digits s'
  end.

Fixpoint number_of_digits (acc : Z) (s : string) : Z :=
  match s with
  | EmptyString => acc
  | String c s' => number_of_digits (10 * acc + digit_val c) s'
  end.

(** [t.strftime("%D")], that is [%m/%d/%y]. *)
Definition strftime_D (t : datetime) : string :=
  let '(y, m, d) := date_of t in
  (two_digits m ++ "/" ++ two_digits d ++ "/" ++ two_digits (y mod 100))%string.

(** [t.strftime("%Y%m%d")] *)
Definition strftime_Ymd (t : datetime) : string :=
  let '(y, m, d) := date_of t in
  (four_digits y ++ two_digits m ++ two_digits d)%string.

(** [datetime.strptime(s, "%Y%m%d")] on the strings the caller passes it:
    the first eight characters of a name that matched eight digits.  Four
    digits of year, two of month, two of day; [None] stands for the
    [ValueError] raised when the fields are no date.  (On other strings
    the model answers [None] as well.)  On the strings of the model
    (characters below U+0100) the digits [strptime] reads are [0] to
    [9]. *)
Definition strptime_Ymd (s : string) : option datetime :=
  if (String.length s =? 8)%nat && all_digits s then
    let y := number_of_digits 0 (substring 0 4 s) in
    let m := number_of_digits 0 (substring 4 2 s) in
    let d := number_of_digits 0 (substring 6 2 s) in
    if valid_date y m d then Some (midnight y m d) else None
  else None.

End Calendar.

Import Calendar.

(** ** Paths: [os.path] and the two glob patterns the module uses *)

Module Path.

Definition sep : string := "/".

Definition ends_with (suffix s : string) : bool :=
  let n := String.length s in
  let k := String.length suffix in
  (k <=? n)%nat && String.eqb (substring (n - k) k s) suffix.

(** [os.path.join(a, b)] on POSIX. *)
Definition join (a b : string) : string :=
  if prefix sep b then b
  else if String.eqb a "" || ends_with sep a then (a ++ b)%string
  else (a ++ sep ++ b)%string.

(** [os.path.join(a, b, c, d)] *)
Definition join4 (a b c d : string) : string := join (join (join a b) c) d.

(** The part of [s] after its last separator, [cur] being the part read
    since the last separator seen. *)
Fixpoint basename_from (cur s : string) : string :=
  match s with
  | EmptyString => cur
  | String c s' =>
      if Ascii.eqb c "/" then basename_from "" s'
      else basename_from (cur ++ String c "")%string s'
  end.

(** [os.path.basename(p)] *)
Definition basename (p : string) : string := basename_from "" p.

(** [fnmatch(name, "*.nc")] as [glob] applies it to a directory entry: the
    name ends in [.nc], and a leading dot is not matched by the star. *)
Definition matches_star_nc (name : string) : bool :=
  ends_with ".nc" name && negb (prefix "." name).

Definition newline : string := String (ascii_of_nat 10) "".

(** [re.search(r'^\d{8}\.nc$', name)]: eight digits, then [.nc], then the
    end of the string or a single newline before it (what [$] accepts).
    On the strings of the model (characters below U+0100) the digits are
    [0] to [9]. *)
Definition matches_date_nc (name : string) : bool :=
  all_digits (substring 0 8 name)
  && (String.eqb (substring 8 (String.length name - 8) name) ".nc"
      || String.eqb (substring 8 (String.length name - 8) name)
           (".nc" ++ newline)%string)
  && (8 <=? String.length name)%nat.

End Path.

Import Path.

(** ** Log records, exceptions and the monad of logging, fallible code *)

Inductive level := DEBUG | INFO | WARNING | ERROR.

(** An argument handed to [str.format] that the model keeps as data. *)
Inductive arg :=
| AStr (s : string)
| ADate (t : datetime)
| AFloat (x : float)
| AFiles (d : list (string * datetime))
| APaths (l : list string).

(** A message: either its final text, or the format string of the source
    with the arguments it was applied to. *)
Inductive message :=
| Text (s : string)
| Fmt (template : string) (args : list arg).

(** [exc_info] is set by [logging.exception], which logs at ERROR level
    with the traceback of the exception being handled. *)
Record log_record := LogRecord {
  lvl : level;
  exc_info : bool;
  msg : message
}.

Inductive exn :=
| ValueError (m : string)
| RuntimeError (m : string)
| OSError (m : string)
| KeyError (m : string)
| IndexError (m : string)
| AttributeError (m : string)
| FileNotFoundError (m : string)
| LibraryError (m : string).

Inductive result (A : Type) :=
| Ok (a : A)
| Raise (e : exn).

Arguments Ok {A} a.
Arguments Raise {A} e.

Definition M (A : Type) : Type := list log_record * result A.

Definition ret {A} (a : A) : M A := ([], Ok a).

Definition raise {A} (e : exn) : M A := ([], Raise e).

Definition bind {A B} (m : M A) (f : A -> M B) : M B :=
  match m with
  | (l1, Ok a) => let '(l2, r) := f a in (l1 ++ l2, r)
  | (l1, Raise e) => (l1, Raise e)
  end.

Definition lift {A} (r : result A) : M A := ([], r).

Definition emit (l : level) (exc : bool) (m : message) : M unit :=
  ([LogRecord l exc m], Ok tt).

Definition logging_debug := emit DEBUG false.
Definition logging_info := emit INFO false.
Definition logging_warning := emit WARNING false.
Definition logging_exception := emit ERROR true.

Declare Scope monad_scope.
Delimit Scope monad_scope with monad.

Notation "x <- c1 ;; c2" := (bind c1 (fun x => c2))
  (at level 61, c1 at next level, right associativity) : monad_scope.
Notation "' pat <- c1 ;; c2" :=
  (bind c1 (fun x => match x with pat => c2 end))
  (at level 61, pat pattern, c1 at next level, right associativity) : monad_scope.
Notation "c1 ;; c2" := (bind c1 (fun _ => c2))
  (at level 61, right associativity) : monad_scope.

Local Open Scope monad_scope.

Fixpoint mapM {A B} (f : A -> M B) (l : list A) : M (list B) :=
  match l with
  | [] => ret []
  | a :: l' => b <- f a ;; bs <- mapM f l' ;; ret (b :: bs)
  end.

(** The log a computation emitted, and what it ended with. *)
Definition log_of {A} (m : M A) : list log_record := fst m.
Definition outcome {A} (m : M A) : result A := snd m.

(** [template.format(a1, a2, ...)] for string arguments: each [{}] is
    replaced by the next argument. *)
Fixpoint format (template : string) (args : list string) : string :=
  match template with
  | String "{" (String "}" rest) =>
      match args with
      | a :: args' => (a ++ format rest args')%string
      | [] => format rest []
      end
  | String c rest => String c (format rest args)
  | EmptyString => EmptyString
  end.

(** ** Gridded series: the part of [xarray] the module relies on *)

(** Cell values of a series, indexed by time, then [yc], then [xc]. *)
Definition ndarray := list (list (list float)).

Definition shape (a : ndarray) : nat * nat * nat :=
  (List.length a, List.length (hd [] a), List.length (hd [] (hd [] a))).

Definition shape_eqb (s1 s2 : nat * nat * nat) : bool :=
  let '(a1, b1, c1) := s1 in
  let '(a2, b2, c2) := s2 in
  (a1 =? a2)%nat && (b1 =? b2)%nat && (c1 =? c2)%nat.

(** A dataset read from a file: its coordinate axes, its data variables by
    name, and the [encoding["source"]] entry [xarray] records for it. *)
Record Dataset := mkDataset {
  encoding_source : option string;
  time : list datetime;
  yc : list float;
  xc : list float;
  data_vars : list (string * ndarray)
}.

(** One variable of a dataset with the axes it is indexed by. *)
Record DataArray := mkDataArray {
  da_time : list datetime;
  da_yc : list float;
  da_xc : list float;
  da_values : ndarray
}.

(** A forecast as the reconciler receives it: the lead-time axis (days
    from issuance) and the series it indexes. *)
Record ForecastDataset := mkForecast {
  leadtime : list Z;
  forecast_time : list datetime;
  forecast_values : list ndarray
}.

(** Keep the entries of [xs] at the positions where [keep] holds. *)
Definition mask {A} (keep : list bool) (xs : list A) : list A :=
  map snd (filter fst (combine keep xs)).

Definition in_slice (lo hi : option datetime) (t : datetime) : bool :=
  match lo with Some l => l <=? t | None => true end
  && match hi with Some h => t <=? h | None => true end.

(** [ds.sel(time=slice(lo, hi))]: label slicing keeps both bounds. *)
Definition sel_time (lo hi : option datetime) (ds : Dataset) : Dataset :=
  let keep := map (in_slice lo hi) (time ds) in
  {| encoding_source := encoding_source ds;
     time := mask keep (time ds);
     yc := yc ds;
     xc := xc ds;
     data_vars := map (fun '(n, a) => (n, mask keep a)) (data_vars ds) |}.

Fixpoint lookup_var (name : string) (vars : list (string * ndarray))
  : option ndarray :=
  match vars with
  | [] => None
  | (n, a) :: vars' => if String.eqb n name then Some a else lookup_var name vars'
  end.

(** [ds.<name>]: the variable with the dataset's axes. *)
Definition getvar (ds : Dataset) (name : string) : M DataArray :=
  match lookup_var name (data_vars ds) with
  | Some a => ret (mkDataArray (time ds) (yc ds) (xc ds) a)
  | None => raise (AttributeError name)
  end.

(** [da.values = a]: the replacement must have the shape of the array. *)
Definition set_values (da : DataArray) (a : ndarray) : M DataArray :=
  if shape_eqb (shape a) (shape (da_values da)) then
    ret (mkDataArray (da_time da) (da_yc da) (da_xc da) a)
  else raise (ValueError "replacement data must match the Variable's shape").

Definition flatten (a : ndarray) : list float := List.concat (List.concat a).

Definition nanmin2 (a b : float) : float :=
  if PrimFloat.is_nan a then b
  else if PrimFloat.is_nan b then a
  else if PrimFloat.ltb b a then b else a.

Definition nanmax2 (a b : float) : float :=
  if PrimFloat.is_nan a then b
  else if PrimFloat.is_nan b then a
  else if PrimFloat.ltb a b then b else a.

(** [float(da.min())] and [float(da.max())]: NaN cells are skipped, and an
    array with no cell at all has no minimum. *)
Definition da_min (da : DataArray) : M float :=
  match flatten (da_values da) with
  | [] => raise (ValueError "zero-size array to reduction operation")
  | x :: xs => ret (fold_left nanmin2 xs x)
  end.

Definition da_max (da : DataArray) : M float :=
  match flatten (da_values da) with
  | [] => raise (ValueError "zero-size array to reduction operation")
  | x :: xs => ret (fold_left nanmax2 xs x)
  end.

(** [int(ds.leadtime.min())] and [int(ds.leadtime.max())] *)
Definition leadtime_min (l : list Z) : M Z :=
  match l with
  | [] => raise (ValueError "zero-size array to reduction operation")
  | x :: xs => ret (fold_left Z.min xs x)
  end.

Definition leadtime_max (l : list Z) : M Z :=
  match l with
  | [] => raise (ValueError "zero-size array to reduction operation")
  | x :: xs => ret (fold_left Z.max xs x)
  end.

(** [s.to_series()[0]] and [s.to_series()[-1]] *)
Definition series_first (s : list datetime) : M datetime :=
  match s with
  | [] => raise (IndexError "index 0 is out of bounds")
  | t :: _ => ret t
  end.

Definition series_last (s : list datetime) : M datetime :=
  match s with
  | [] => raise (IndexError "index -1 is out of bounds")
  | t :: s' => ret (last s' t)
  end.

(** ** What the module takes from its surroundings

    The file system ([abspath] depends on the working directory), the two
    library steps whose results the module only passes on ([xarray]'s
    combination of several datasets into one and [ibicus]'s
    [LinearScaling.apply]), and [broadcast_forecast] of
    [icenet.process.forecasts]. *)
Class Externals := {
  abspath : string -> string;
  listdir : string -> list string;
  open_file : string -> option Dataset;
  combine_by_coords : list (option Dataset) -> result Dataset;
  debiaser_apply : ndarray -> ndarray -> ndarray -> result ndarray;
  broadcast_forecast : datetime -> datetime -> ForecastDataset -> M Dataset
}.

(** [glob.glob(os.path.join(dir, "*.nc"))] *)
Definition glob_star_nc `{Externals} (dir : string) : list string :=
  map (join dir) (filter matches_star_nc (listdir dir)).

(** [glob.glob(p)] for a pattern without wildcards. *)
Definition glob_literal `{Externals} (p : string) : list string :=
  match open_file p with
  | Some _ => [p]
  | None => []
  end.

(** [xr.open_dataset(p)]: the dataset remembers the normalised path it was
    read from. *)
Definition open_dataset `{Externals} (p : string) : M Dataset :=
  match open_file p with
  | Some ds =>
      ret {| encoding_source := Some (abspath p);
             time := time ds; yc := yc ds; xc := xc ds;
             data_vars := data_vars ds |}
  | None => raise (FileNotFoundError p)
  end.

(** [xr.open_mfdataset(paths, preprocess=f)]: refuses an empty list of
    paths, opens every file, hands each dataset to the hook when there is
    one, and combines what the hook returned. *)
Definition open_mfdataset `{Externals} (paths : list string)
    (preprocess : option (Dataset -> M (option Dataset))) : M Dataset :=
  match paths with
  | [] => raise (OSError "no files to open")
  | _ =>
      datasets <- mapM open_dataset paths ;;
      datasets' <- match preprocess with
                   | Some f => mapM f datasets
                   | None => ret (map Some datasets)
                   end ;;
      lift (combine_by_coords datasets')
  end.

(** ** Python dictionaries keyed by path, in insertion order *)

Definition dict := list (string * datetime).

Definition keys (d : dict) : list string := map fst d.

(** [d[k] = v]: an existing key keeps its place and takes the new value. *)
Fixpoint dict_set (k : string) (v : datetime) (d : dict) : dict :=
  match d with
  | [] => [(k, v)]
  | (k', v') :: d' =>
      if String.eqb k k' then (k, v) :: d' else (k', v') :: dict_set k v d'
  end.

(** [d[k]] *)
Fixpoint dict_get (k : string) (d : dict) : option datetime :=
  match d with
  | [] => None
  | (k', v) :: d' => if String.eqb k k' then Some v else dict_get k d'
  end.

(** [dict(items)] *)
Definition dict_of_items (items : list (string * datetime)) : dict :=
  fold_left (fun d kv => dict_set (fst kv) (snd kv) d) items [].

(** Tuple comparison [a < b] of two [(path, date)] items. *)
Definition item_ltb (a b : string * datetime) : bool :=
  match String.compare (fst a) (fst b) with
  | Lt => true
  | Gt => false
  | Eq => snd a <? snd b
  end.

Fixpoint insert_item (x : string * datetime) (l : list (string * datetime))
  : list (string * datetime) :=
  match l with
  | [] => [x]
  | y :: l' => if item_ltb x y then x :: y :: l' else y :: insert_item x l'
  end.

(** [sorted(items)]: ascending and stable. *)
Definition sorted (items : list (string * datetime)) : list (string * datetime) :=
  fold_left (fun acc x => insert_item x acc) items [].

(** [l.index(x)]; [None] stands for the [ValueError] of a missing value. *)
Fixpoint index_of (x : string) (l : list string) : option nat :=
  match l with
  | [] => None
  | y :: l' =>
      if String.eqb y x then Some O
      else match index_of x l' with
           | Some i => Some (S i)
           | None => None
           end
  end.

(** ** [get_obs_da] *)

(** [pd.date_range(start, end)]: daily steps from [start] not beyond [end]. *)
Definition date_range (start_date end_date : datetime) : list datetime :=
  if start_date <=? end_date then
    map (fun k => start_date + Z.of_nat k * ns_per_day)
        (seq 0 (Z.to_nat ((end_date - start_date) / ns_per_day + 1)))
  else [].

Definition year_of (t : datetime) : Z := fst (fst (date_of t)).

(** [s.unique()]: the distinct values in order of first appearance. *)
Definition unique (l : list Z) : list Z :=
  fold_left (fun acc y => if existsb (Z.eqb y) acc then acc else acc ++ [y]) l [].

(** ["{}".format(yr)] *)
Definition str_of_int (z : Z) : string := NilZero.string_of_int (Z.to_int z).

Definition default_obs_source : string := join (join "." "data") "osisaf".

Definition obs_years (start_date end_date : datetime) : list Z :=
  unique (map year_of (date_range start_date end_date)).

Definition obs_year_file (obs_source hemisphere : string) (yr : Z) : string :=
  join4 obs_source hemisphere "siconca" (str_of_int yr ++ ".nc")%string.

Definition get_obs_da `{Externals} (hemisphere : string)
    (start_date end_date : datetime) (obs_source : string) : M DataArray :=
  let obs_years := obs_years start_date end_date in
  let obs_dfs :=
    flat_map (fun yr => glob_literal (obs_year_file obs_source hemisphere yr))
             obs_years in
  (if (List.length obs_dfs <? List.length obs_years)%nat then
     logging_warning
       (Fmt "Cannot find all obs source files for {} - {} in {}"
            [ADate start_date; ADate end_date; AStr obs_source])
   else ret tt) ;;
  logging_info (Fmt "Got files: {}" [APaths obs_dfs]) ;;
  obs_ds <- open_mfdataset obs_dfs None ;;
  let obs_ds := sel_time (Some start_date) (Some end_date) obs_ds in
  getvar obs_ds "ice_conc".

(** ** [get_seas_forecast_da] and its hook [strip_overlapping_time] *)

Definition default_source_path : string := join (join "." "data") "mars.seas".

Definition seas_file_of (source_path hemisphere : string) (date : datetime)
  : string :=
  join4 source_path hemisphere "siconca" (strftime_Ymd date ++ ".nc")%string.

(** The range of observations the correction is fitted on: the tuple
    assigned to [(start_date, end_date)]. *)
Definition bias_correct_window (date : datetime) : datetime * datetime :=
  (date - timedelta_days (10 * 365), date + timedelta_days (10 * 365)).

(** The dictionary comprehension over the glob results: the items are
    visited in order, the filter is tested before key and value are built,
    and a name that is no date ends the whole comprehension. *)
Fixpoint hist_comprehension `{Externals} (seas_file : string)
    (els : list string) (acc : dict) : M dict :=
  match els with
  | [] => ret acc
  | el :: els' =>
      if matches_date_nc (basename el) && negb (String.eqb el seas_file) then
        match strptime_Ymd (substring 0 8 (basename el)) with
        | Some d => hist_comprehension seas_file els' (dict_set (abspath el) d acc)
        | None => raise (ValueError "time data does not match format '%Y%m%d'")
        end
      else hist_comprehension seas_file els' acc
  end.

(** [seas_hist_files]: the sibling files with their issuance dates, as a
    dictionary built from the sorted items of the comprehension. *)
Definition seas_hist_files_of `{Externals} (source_path hemisphere : string)
    (seas_file : string) : M dict :=
  d <- hist_comprehension seas_file
         (glob_star_nc (join (join source_path hemisphere) "siconca")) [] ;;
  ret (dict_of_items (sorted d)).

Definition not_in_template : string :=
  (newline ++ "{} not in " ++ newline ++ newline ++ "{}")%string.

Definition strip_overlapping_time `{Externals} (seas_hist_files : dict)
    (ds : Dataset) : M (option Dataset) :=
  source <- match encoding_source ds with
            | Some s => ret s
            | None => raise (KeyError "source")
            end ;;
  let data_file := abspath source in
  match index_of data_file (keys seas_hist_files) with
  | None =>
      logging_exception
        (Fmt not_in_template [AStr data_file; AFiles seas_hist_files]) ;;
      ret None
  | Some idx =>
      if Z.of_nat idx <? Z.of_nat (List.length seas_hist_files) - 1 then
        next_key <- match nth_error (keys seas_hist_files) (idx + 1) with
                    | Some k => ret k
                    | None => raise (IndexError "list index out of range")
                    end ;;
        next_date <- match dict_get next_key seas_hist_files with
                     | Some d => ret d
                     | None => raise (KeyError next_key)
                     end ;;
        let max_date := next_date - timedelta_days 1 in
        logging_debug
          (Fmt "Stripping {} to {}" [AStr data_file; ADate max_date]) ;;
        ret (Some (sel_time None (Some max_date) ds))
      else
        logging_debug (Fmt "Not stripping {}" [AStr data_file]) ;;
        ret (Some ds)
  end.

Definition get_seas_forecast_da `{Externals} (hemisphere : string)
    (date : datetime) (bias_correct : bool) (source_path : string)
  : M DataArray :=
  let seas_file := seas_file_of source_path hemisphere date in
  seas_ds <- open_dataset seas_file ;;
  seas_da <- getvar seas_ds "siconc" ;;
  if bias_correct then
    let '(start_date, end_date) := bias_correct_window date in
    obs_da <- get_obs_da hemisphere start_date end_date default_obs_source ;;
    seas_hist_files <- seas_hist_files_of source_path hemisphere seas_file ;;
    hist_ds <- open_mfdataset (keys seas_hist_files)
                 (Some (strip_overlapping_time seas_hist_files)) ;;
    hist_da <- getvar hist_ds "siconc" ;;
    obs_min <- da_min obs_da ;;
    obs_max <- da_max obs_da ;;
    hist_min <- da_min hist_da ;;
    hist_max <- da_max hist_da ;;
    seas_min <- da_min seas_da ;;
    seas_max <- da_max seas_da ;;
    logging_info
      (Fmt ("Debiaser input ranges: obs {:.2f} - {:.2f}, "
            ++ "hist {:.2f} - {:.2f}, fut {:.2f} - {:.2f}")%string
           [AFloat obs_min; AFloat obs_max; AFloat hist_min; AFloat hist_max;
            AFloat seas_min; AFloat seas_max]) ;;
    seas_array <- lift (debiaser_apply (da_values obs_da) (da_values hist_da)
                                       (da_values seas_da)) ;;
    seas_da <- set_values seas_da seas_array ;;
    out_min <- da_min seas_da ;;
    out_max <- da_max seas_da ;;
    logging_info
      (Fmt "Debiaser output range: {:.2f} - {:.2f}"
           [AFloat out_min; AFloat out_max]) ;;
    ret seas_da
  else ret seas_da.

(** ** [filter_ds_by_obs] *)

(** The window implied by the forecast date and the extreme lead times. *)
Definition nominal_window (ds : ForecastDataset) (forecast_date : datetime)
  : M (datetime * datetime) :=
  lo <- leadtime_min (leadtime ds) ;;
  hi <- leadtime_max (leadtime ds) ;;
  ret (forecast_date + timedelta_days lo, forecast_date + timedelta_days hi).

Definition no_obs_message (start_date end_date : datetime) : string :=
  format "No observational data available between {} and {}"
         [strftime_D start_date; strftime_D end_date].

Definition shortfall_message (obs_first obs_last start_date end_date : datetime)
  : string :=
  format ("Observational data not available for full range of "
          ++ "forecast lead times: {}-{} vs {}-{}")%string
         [strftime_D obs_first; strftime_D obs_last;
          strftime_D start_date; strftime_D end_date].

(** The value of [(start_date, end_date)] when [broadcast_forecast] is
    reached: everything [filter_ds_by_obs] does before its last call. *)
Definition resolved_window (ds : ForecastDataset) (obs_da : DataArray)
    (forecast_date : datetime) : M (datetime * datetime) :=
  ' (start_date, end_date) <- nominal_window ds forecast_date ;;
  if (List.length (da_time obs_da) <? List.length (leadtime ds))%nat then
    (if (List.length (da_time obs_da) <? 1)%nat then
       raise (RuntimeError (no_obs_message start_date end_date))
     else ret tt) ;;
    obs_first <- series_first (da_time obs_da) ;;
    obs_last <- series_last (da_time obs_da) ;;
    logging_warning
      (Text (shortfall_message obs_first obs_last start_date end_date)) ;;
    ret (obs_first, obs_last)
  else ret (start_date, end_date).

Definition filter_ds_by_obs `{Externals} (ds : ForecastDataset)
    (obs_da : DataArray) (forecast_date : datetime) : M Dataset :=
  ' (start_date, end_date) <- resolved_window ds obs_da forecast_date ;;
  broadcast_forecast start_date end_date ds.

(** ** Vocabulary of the statements *)

(** The extreme lead times of a forecast that has at least one. *)
Definition lead_lo (ds : ForecastDataset) : Z :=
  match leadtime ds with
  | [] => 0
  | x :: xs => fold_left Z.min xs x
  end.

Definition lead_hi (ds : ForecastDataset) : Z :=
  match leadtime ds with
  | [] => 0
  | x :: xs => fold_left Z.max xs x
  end.

Definition nominal_start (ds : ForecastDataset) (forecast_date : datetime)
  : datetime := forecast_date + timedelta_days (lead_lo ds).

Definition nominal_end (ds : ForecastDataset) (forecast_date : datetime)
  : datetime := forecast_date + timedelta_days (lead_hi ds).

(** A window is the closed interval between its two bounds. *)
Definition in_window (w : datetime * datetime) (t : datetime) : Prop :=
  fst w <= t <= snd w.


(** The three ways the reconciler can resolve a window, read off what it
    did: it raised the no-data error, it warned, or it did neither. *)
Inductive coverage := FullCoverage | PartialCoverage | NoData.

Definition branch_taken (m : M (datetime * datetime)) : option coverage :=
  match m with
  | (_, Raise (RuntimeError _)) => Some NoData
  | (_, Raise _) => None
  | ([], Ok _) => Some FullCoverage
  | (_ :: _, Ok _) => Some PartialCoverage
  end.

(** The branch as a function of the two counts alone: the number of
    observation timesteps and the number of lead times (with no lead time
    the extremes cannot be taken and no branch is reached). *)
Definition coverage_of_counts (n_obs n_lead : nat) : option coverage :=
  if (n_lead =? 0)%nat then None
  else if (n_obs <? n_lead)%nat then
    (if (n_obs <? 1)%nat then Some NoData else Some PartialCoverage)
  else Some FullCoverage.

(** The issuance dates of a mapping increase strictly along its order. *)
Definition sorted_by_date (d : dict) : Prop :=
  StronglySorted Z.lt (map snd d).

(** Eight characters followed by [rest]. *)
Definition name_of (a1 a2 a3 a4 a5 a6 a7 a8 : ascii) (rest : string) : string :=
  String a1 (String a2 (String a3 (String a4
    (String a5 (String a6 (String a7 (String a8 rest))))))).

(** An item of the mapping made from a directory entry: the key is the
    entry under the absolute directory, the value the date its first
    eight characters spell. *)
Definition dated_entry (absdir : string) (kv : string * datetime) : Prop :=
  exists name : string,
    matches_star_nc name = true /\ matches_date_nc name = true
    /\ fst kv = (absdir ++ name)%string
    /\ strptime_Ymd (substring 0 8 name) = Some (snd kv).

(** ** A concrete installation, for running the functions

    Working directory [/srv/icenet].  Four seasonal forecast files issued
    2022-03-01, 2022-04-01, 2022-05-01 and 2022-06-01, each with a time
    axis of 40 days from its issuance date on a grid of one cell, and one
    yearly observation archive, 2022, with the days 2022-01-01 to
    2022-01-20. *)

Module Scenario.

Definition cwd : string := "/srv/icenet".

(** [os.path.abspath] for the paths that occur here: an absolute path is
    kept, a relative one loses a leading [./] and is joined to [cwd]. *)
Definition abspath_in (cwd p : string) : string :=
  if prefix "/" p then p
  else if prefix "./" p then join cwd (substring 2 (String.length p - 2) p)
  else join cwd p.

Definition days_from (start : datetime) (n : nat) : list datetime :=
  map (fun k => start + timedelta_days (Z.of_nat k)) (seq 0 n).

Definition constant_cells (x : float) (n : nat) : ndarray :=
  repeat [[x]] n.

Definition seas_dataset (start : datetime) (x : float) : Dataset :=
  {| encoding_source := None;
     time := days_from start 40;
     yc := [0%float];
     xc := [0%float];
     data_vars := [("siconc", constant_cells x 40)] |}.

Definition obs_dataset : Dataset :=
  {| encoding_source := None;
     time := days_from (midnight 2022 1 1) 20;
     yc := [0%float];
     xc := [0%float];
     data_vars := [("ice_conc", constant_cells 0.75%float 20)] |}.

Definition seas_dir : string := "/srv/icenet/data/mars.seas/north/siconca".

Definition files : list (string * Dataset) :=
  [ ("/srv/icenet/data/mars.seas/north/siconca/20220501.nc",
     seas_dataset (midnight 2022 5 1) 0.5%float);
    ("/srv/icenet/data/mars.seas/north/siconca/20220301.nc",
     seas_dataset (midnight 2022 3 1) 0.25%float);
    ("/srv/icenet/data/mars.seas/north/siconca/20220601.nc",
     seas_dataset (midnight 2022 6 1) 0.625%float);
    ("/srv/icenet/data/mars.seas/north/siconca/20220401.nc",
     seas_dataset (midnight 2022 4 1) 0.375%float);
    ("/srv/icenet/data/osisaf/north/siconca/2022.nc", obs_dataset) ].

Fixpoint assoc (p : string) (l : list (string * Dataset)) : option Dataset :=
  match l with
  | [] => None
  | (q, ds) :: l' => if String.eqb p q then Some ds else assoc p l'
  end.

Definition entries_of (dir : string) : list string :=
  if String.eqb (abspath_in cwd dir) seas_dir
  then ["20220501.nc"; "20220301.nc"; "README"; "20220601.nc"; "20220401.nc"]
  else if String.eqb (abspath_in cwd dir) "/srv/icenet/data/osisaf/north/siconca"
  then ["2022.nc"]
  else [].

(** Concatenation along time of the datasets handed over, in the order
    given; a missing dataset is refused. *)
Fixpoint concat_time (l : list (option Dataset)) : result Dataset :=
  match l with
  | [] => Raise (ValueError "no datasets to combine")
  | None :: _ => Raise (LibraryError "NoneType object is not iterable")
  | Some ds :: [] => Ok ds
  | Some ds :: l' =>
      match concat_time l' with
      | Ok ds' =>
          Ok {| encoding_source := None;
                time := time ds ++ time ds';
                yc := yc ds;
                xc := xc ds;
                data_vars :=
                  map (fun '(n, a) =>
                         (n, a ++ match lookup_var n (data_vars ds') with
                                  | Some a' => a'
                                  | None => []
                                  end))
                      (data_vars ds) |}
      | Raise e => Raise e
      end
  end.

(** A stand-in for the fitted correction: every cell moved by an eighth. *)
Definition shift_cells (obs hist fut : ndarray) : result ndarray :=
  Ok (map (map (map (fun x => (x + 0.125)%float))) fut).

(** A stand-in for [broadcast_forecast]: an empty dataset on the daily
    axis from [start_date] to [end_date]. *)
Definition broadcast_daily (start_date end_date : datetime)
    (ds : ForecastDataset) : M Dataset :=
  ret {| encoding_source := None;
         time := date_range start_date end_date;
         yc := [];
         xc := [];
         data_vars := [] |}.

#[export] Instance world : Externals := {|
  abspath := abspath_in cwd;
  listdir := entries_of;
  open_file := fun p => assoc (abspath_in cwd p) files;
  combine_by_coords := concat_time;
  debiaser_apply := shift_cells;
  broadcast_forecast := broadcast_daily
|}.

(** The historical mapping Scenario D starts from. *)
Definition scenario_d_files : dict :=
  [ ("/srv/icenet/data/mars.seas/north/siconca/20220301.nc", midnight 2022 3 1);
    ("/srv/icenet/data/mars.seas/north/siconca/20220401.nc", midnight 2022 4 1);
    ("/srv/icenet/data/mars.seas/north/siconca/20220501.nc", midnight 2022 5 1) ].

(** The dataset [open_dataset] returns for the forecast issued on a date. *)
Definition opened_seas (issued : datetime) (x : float) : Dataset :=
  {| encoding_source := Some (seas_dir ++ "/" ++ strftime_Ymd issued ++ ".nc")%string;
     time := days_from issued 40;
     yc := [0%float];
     xc := [0%float];
     data_vars := [("siconc", constant_cells x 40)] |}.

(** What the run for the forecast issued 2022-06-01 returns: the raw
    series with every cell moved from 0.625 to 0.75. *)
Definition corrected_june : DataArray :=
  {| da_time := days_from (midnight 2022 6 1) 40;
     da_yc := [0%float];
     da_xc := [0%float];
     da_values := constant_cells 0.75%float 40 |}.

(** A forecast with lead times 0 to 14 days. *)
Definition forecast_0_14 : ForecastDataset :=
  {| leadtime := map Z.of_nat (seq 0 15);
     forecast_time := [midnight 2022 4 1];
     forecast_values := [] |}.

Definition obs_on (dates : list datetime) : DataArray :=
  {| da_time := dates;
     da_yc := [0%float];
     da_xc := [0%float];
     da_values := constant_cells 0.75%float (List.length dates) |}.

End Scenario.

(** ** [broadcast_forecast], from the specification

    [broadcast_forecast] is defined in [icenet.process.forecasts], which
    is not among the sources; the module only calls it.  The
    specification says of it that it reindexes the forecast dataset onto
    the resolved window, so that forecast and observation series share an
    aligned date axis, and names no failure of that step. *)

(** Modelled from the spec: the position of a lead time on the lead-time
    axis of the forecast that [broadcast_forecast] reindexes. *)
Fixpoint lead_position (k : Z) (leads : list Z) : option nat :=
  match leads with
  | [] => None
  | l :: leads' =>
      if l =? k then Some O
      else match lead_position k leads' with
           | Some i => Some (S i)
           | None => None
           end
  end.

(** Modelled from the spec: what the forecast reindexed by
    [broadcast_forecast] holds for one day of the target axis.  The day
    that lies a lead time of the forecast after its issuance carries the
    values the forecast has for that lead time; any other day has no
    forecast value, which reindexing marks as missing (NaN) in every
    cell.  A forecast with no time step or no values has no cells. *)
Definition values_on (ds : ForecastDataset) (d : datetime) : list (list float) :=
  match forecast_time ds, forecast_values ds with
  | t :: _, a :: _ =>
      match (if (d - t) mod ns_per_day =? 0
             then lead_position ((d - t) / ns_per_day) (leadtime ds)
             else None) with
      | Some i => map (map (fun cell => nth i cell PrimFloat.nan)) a
      | None => map (map (fun _ => PrimFloat.nan)) a
      end
  | _, _ => []
  end.

(** Modelled from the spec: [broadcast_forecast] of
    [icenet.process.forecasts], the step that reindexes the forecast
    dataset onto the resolved window so that forecast and observation
    series share an aligned date axis.  The result has one time step for
    every day from [start_date] to [end_date] and holds for each the
    values of the forecast for that day; the step logs nothing and does
    not fail.  (The forecast record of the model carries no grid
    coordinates, so the result has none.) *)
Definition broadcast_reindex (start_date end_date : datetime)
    (ds : ForecastDataset) : M Dataset :=
  ret {| encoding_source := None;
         time := date_range start_date end_date;
         yc := [];
         xc := [];
         data_vars :=
           [("forecast",
             map (values_on ds) (date_range start_date end_date))] |}.

(** The concrete installation with [broadcast_forecast] as the
    specification describes it. *)
Definition reindexing_world : Externals := {|
  abspath := Scenario.abspath_in Scenario.cwd;
  listdir := Scenario.entries_of;
  open_file := fun p =>
    Scenario.assoc (Scenario.abspath_in Scenario.cwd p) Scenario.files;
  combine_by_coords := Scenario.concat_time;
  debiaser_apply := Scenario.shift_cells;
  broadcast_forecast := broadcast_reindex
|}.

(** A forecast issued 2022-04-01 with lead times 0 to 14 days on a grid
    of one cell, the value for lead time [k] being [k] eighths. *)
Definition forecast_april : ForecastDataset :=
  {| leadtime := map Z.of_nat (seq 0 15);
     forecast_time := [midnight 2022 4 1];
     forecast_values :=
       [[[ [0; 0.125; 0.25; 0.375; 0.5; 0.625; 0.75; 0.875; 1; 1.125; 1.25;
            1.375; 1.5; 1.625; 1.75]%float ]]] |}.

(** ** [get_forecast_ds] *)

(** A forecast file: its time axis (the issuance dates it holds), its
    lead-time axis, and its variables, each indexed by time first and
    holding for every time an array over [yc], [xc] and lead time. *)
Record ForecastFile := mkForecastFile {
  ff_time : list datetime;
  ff_leadtime : list Z;
  ff_vars : list (string * list ndarray)
}.

(** The forecast files at hand, by path. *)
Class ForecastStore := {
  open_forecast_file : string -> option ForecastFile
}.

Fixpoint lookup_forecast_var (name : string) (vars : list (string * list ndarray))
  : option (list ndarray) :=
  match vars with
  | [] => None
  | (n, a) :: vars' =>
      if String.eqb n name then Some a else lookup_forecast_var name vars'
  end.

(** [forecast_ds.sel(time=slice(lo, hi))] on a forecast file: the
    lead-time axis is left alone. *)
Definition sel_forecast_time (lo hi : option datetime) (f : ForecastFile)
  : ForecastFile :=
  let keep := map (in_slice lo hi) (ff_time f) in
  {| ff_time := mask keep (ff_time f);
     ff_leadtime := ff_leadtime f;
     ff_vars := map (fun '(n, a) => (n, mask keep a)) (ff_vars f) |}.

Definition get_forecast_ds `{ForecastStore} (forecast_file : string)
    (forecast_date : datetime) (stddev : bool) : M ForecastDataset :=
  match open_forecast_file forecast_file with
  | None => raise (FileNotFoundError forecast_file)
  | Some forecast_ds =>
      let get_key := if negb stddev then "sic_mean" else "sic_stddev" in
      let sliced :=
        sel_forecast_time (Some forecast_date) (Some forecast_date) forecast_ds in
      match lookup_forecast_var get_key (ff_vars sliced) with
      | Some values =>
          ret {| leadtime := ff_leadtime sliced;
                 forecast_time := ff_time sliced;
                 forecast_values := values |}
      | None => raise (AttributeError get_key)
      end
  end.

(** ** [calculate_data_extents] and [calculate_proj_extents]

    The grid has 432 cells of 25000 metres a side.  The functions add
    whole numbers to the float [5400000.0], so what they return are floats
    with whole values; the model gives those values, which is exact as
    long as the cell indices stay far below the 2^53 / 25000 at which a
    double stops holding every whole number. *)

Definition data_extent_estimate : Z := 5400000.

Definition calculate_data_extents (x1 x2 y1 y2 : Z) : list Z :=
  [ - data_extent_estimate + x1 * 25000;
    data_extent_estimate - (432 - x2) * 25000;
    - data_extent_estimate + (432 - y2) * 25000;
    data_extent_estimate - y1 * 25000 ].

Definition calculate_proj_extents (x1 x2 y1 y2 : Z) : list Z :=
  [ - data_extent_estimate + y1 * 25000;
    data_extent_estimate - (432 - y2) * 25000;
    - data_extent_estimate + x1 * 25000;
    data_extent_estimate - (432 - x2) * 25000 ].

(** ** Further installations

    [wider_world]: the installation above with two more source
    directories for seasonal forecasts of the northern hemisphere:
    [./data/lone], which holds a single forecast, issued 2022-06-01,
    beside a text file, and [./data/misnamed], which holds the forecast
    of 2022-06-01 beside a file whose eight digits are no date.  Then a
    forecast file as [get_forecast_ds] reads it. *)

Module Cases.

Import Scenario.

Definition lone_path : string := join (join "." "data") "lone".

Definition misnamed_path : string := join (join "." "data") "misnamed".

Definition lone_dir : string := "/srv/icenet/data/lone/north/siconca".

Definition misnamed_dir : string := "/srv/icenet/data/misnamed/north/siconca".

Definition more_files : list (string * Dataset) :=
  [ ("/srv/icenet/data/lone/north/siconca/20220601.nc",
     seas_dataset (midnight 2022 6 1) 0.625%float);
    ("/srv/icenet/data/misnamed/north/siconca/20220601.nc",
     seas_dataset (midnight 2022 6 1) 0.625%float);
    ("/srv/icenet/data/misnamed/north/siconca/20220230.nc",
     seas_dataset (midnight 2022 3 1) 0.25%float) ].

Definition more_entries (dir : string) : list string :=
  if String.eqb (abspath_in cwd dir) lone_dir then ["20220601.nc"; "notes.txt"]
  else if String.eqb (abspath_in cwd dir) misnamed_dir
  then ["20220601.nc"; "20220230.nc"]
  else entries_of dir.

Definition wider_world : Externals := {|
  abspath := abspath_in cwd;
  listdir := more_entries;
  open_file := fun p => assoc (abspath_in cwd p) (more_files ++ files);
  combine_by_coords := concat_time;
  debiaser_apply := shift_cells;
  broadcast_forecast := broadcast_daily
|}.

(** A forecast file with two issuance dates, lead times 1 to 3, and both
    variables on a grid of one cell. *)
Definition forecast_file : ForecastFile :=
  {| ff_time := [midnight 2022 4 1; midnight 2022 4 2];
     ff_leadtime := [1; 2; 3];
     ff_vars :=
       [ ("sic_mean", [[[[0.5; 0.5; 0.25]]]; [[[0.75; 0.5; 0.5]]]]%float);
         ("sic_stddev", [[[[0.125; 0.125; 0.25]]]; [[[0.25; 0.25; 0.25]]]]%float) ] |}.

Definition forecast_store : ForecastStore := {|
  open_forecast_file := fun p =>
    if String.eqb p "results/predict/fc.nc" then Some forecast_file else None
|}.

(** A forecast issued 2022-01-05 with lead times 0 to 30 days. *)
Definition forecast_january : ForecastDataset :=
  {| leadtime := map Z.of_nat (seq 0 31);
     forecast_time := [midnight 2022 1 5];
     forecast_values := [] |}.

(** The datasets [open_dataset] returns for the keys of the mapping of
    Scenario D. *)
Definition opened_history : list Dataset :=
  [ opened_seas (midnight 2022 3 1) 0.25%float;
    opened_seas (midnight 2022 4 1) 0.375%float;
    opened_seas (midnight 2022 5 1) 0.5%float ].

(** The dataset [open_dataset] returns for a forecast file at [path]. *)
Definition opened_from (path : string) (issued : datetime) (x : float) : Dataset :=
  {| encoding_source := Some path;
     time := days_from issued 40;
     yc := [0%float];
     xc := [0%float];
     data_vars := [("siconc", constant_cells x 40)] |}.

(** The raw series of a forecast file. *)
Definition raw_series (issued : datetime) (x : float) : DataArray :=
  {| da_time := days_from issued 40;
     da_yc := [0%float];
     da_xc := [0%float];
     da_values := constant_cells x 40 |}.

(** What the loader logs for the twenty years around 2022-06-01, of
    which the archive of 2022 alone exists. *)
Definition obs_log_june : list log_record :=
  [ LogRecord WARNING false
      (Fmt "Cannot find all obs source files for {} - {} in {}"
         [ADate (midnight 2022 6 1 - timedelta_days (10 * 365));
          ADate (midnight 2022 6 1 + timedelta_days (10 * 365));
          AStr default_obs_source]);
    LogRecord INFO false
      (Fmt "Got files: {}" [APaths ["./data/osisaf/north/siconca/2022.nc"]]) ].

(** What the correction of the forecast issued 2022-06-01 logs: the
    three records of the hook and the two range reports. *)
Definition correction_log_june : list log_record :=
  [ LogRecord DEBUG false
      (Fmt "Stripping {} to {}"
         [AStr "/srv/icenet/data/mars.seas/north/siconca/20220301.nc";
          ADate (midnight 2022 3 31)]);
    LogRecord DEBUG false
      (Fmt "Stripping {} to {}"
         [AStr "/srv/icenet/data/mars.seas/north/siconca/20220401.nc";
          ADate (midnight 2022 4 30)]);
    LogRecord DEBUG false
      (Fmt "Not stripping {}"
         [AStr "/srv/icenet/data/mars.seas/north/siconca/20220501.nc"]);
    LogRecord INFO false
      (Fmt ("Debiaser input ranges: obs {:.2f} - {:.2f}, "
            ++ "hist {:.2f} - {:.2f}, fut {:.2f} - {:.2f}")%string
         [AFloat 0.75; AFloat 0.75; AFloat 0.25; AFloat 0.5;
          AFloat 0.625; AFloat 0.625]);
    LogRecord INFO false
      (Fmt "Debiaser output range: {:.2f} - {:.2f}"
         [AFloat 0.75; AFloat 0.75]) ].

(** The log of the whole bias-corrected run. *)
Definition run_log_june : list log_record :=
  obs_log_june ++ correction_log_june.

End Cases.

(** ** Vocabulary of the further statements *)

(** [glob.glob] finds a path without wildcards when the file exists. *)
Definition file_exists `{Externals} (p : string) : bool :=
  match open_file p with
  | Some _ => true
  | None => false
  end.

(** The filter of the comprehension: the name is eight digits and [.nc],
    and the path is not the one of the forecast asked for. *)
Definition kept_by_filter (seas_file el : string) : bool :=
  matches_date_nc (basename el) && negb (String.eqb el seas_file).

(** A name written in ASCII: every character lies below U+0080. *)
Fixpoint ascii_text (s : string) : bool :=
  match s with
  | EmptyString => true
  | String c s' => (nat_of_ascii c <? 128)%nat && ascii_text s'
  end.

(** A path the filter keeps whose eight digits are no date. *)
Definition undatable (seas_file el : string) : bool :=
  kept_by_filter seas_file el
  && match strptime_Ymd (substring 0 8 (basename el)) with
     | Some _ => false
     | None => true
     end.

(** * Properties *)

Import Scenario.

(** ** The monad *)

Lemma bind_ret_l {A B} (a : A) (f : A -> M B) : bind (ret a) f = f a.
Proof. unfold bind, ret. destruct (f a) as [l r]. reflexivity. Qed.

Lemma bind_raise_l {A B} (e : exn) (f : A -> M B) : bind (raise e) f = raise e.
Proof. reflexivity. Qed.

Lemma bind_ok_inv {A B} (m : M A) (f : A -> M B) (l : list log_record) (b : B) :
  bind m f = (l, Ok b) ->
  exists l1 a l2, m = (l1, Ok a) /\ f a = (l2, Ok b) /\ l = l1 ++ l2.
Proof.
  unfold bind. destruct m as [l1 [a | e]]; [| discriminate].
  destruct (f a) as [l2 r] eqn:Hf. intros H. inversion H; subst.
  exists l1, a, l2. auto.
Qed.

(** ** The lead-time extremes *)

Lemma fold_min_le_init (xs : list Z) (x : Z) : fold_left Z.min xs x <= x.
Proof.
  revert x. induction xs as [| y ys IH]; intros x; simpl; [lia |].
  specialize (IH (Z.min x y)). lia.
Qed.

Lemma fold_min_le (xs : list Z) (x y : Z) : In y xs -> fold_left Z.min xs x <= y.
Proof.
  revert x. induction xs as [| z zs IH]; intros x; simpl; [tauto |].
  intros [-> | Hin].
  - pose proof (fold_min_le_init zs (Z.min x y)). lia.
  - apply IH, Hin.
Qed.

Lemma fold_max_ge_init (xs : list Z) (x : Z) : x <= fold_left Z.max xs x.
Proof.
  revert x. induction xs as [| y ys IH]; intros x; simpl; [lia |].
  specialize (IH (Z.max x y)). lia.
Qed.

Lemma fold_max_ge (xs : list Z) (x y : Z) : In y xs -> y <= fold_left Z.max xs x.
Proof.
  revert x. induction xs as [| z zs IH]; intros x; simpl; [tauto |].
  intros [-> | Hin].
  - pose proof (fold_max_ge_init zs (Z.max x y)). lia.
  - apply IH, Hin.
Qed.

(** [lead_lo] and [lead_hi] bound every lead time of the forecast. *)
Lemma lead_lo_hi_bounds (ds : ForecastDataset) (k : Z) :
  In k (leadtime ds) -> lead_lo ds <= k <= lead_hi ds.
Proof.
  unfold lead_lo, lead_hi. destruct (leadtime ds) as [| x xs]; [intros [] |].
  intros [-> | Hin].
  - split; [apply fold_min_le_init | apply fold_max_ge_init].
  - split; [apply fold_min_le | apply fold_max_ge]; assumption.
Qed.

Lemma timedelta_days_mono (a b : Z) : a <= b -> timedelta_days a <= timedelta_days b.
Proof. unfold timedelta_days, ns_per_day. lia. Qed.

(** The nominal window is never empty. *)
Lemma nominal_window_ordered (ds : ForecastDataset) (fd : datetime) :
  nominal_start ds fd <= nominal_end ds fd.
Proof.
  unfold nominal_start, nominal_end.
  assert (lead_lo ds <= lead_hi ds).
  { unfold lead_lo, lead_hi. destruct (leadtime ds) as [| x xs]; [lia |].
    pose proof (fold_min_le_init xs x). pose proof (fold_max_ge_init xs x). lia. }
  pose proof (timedelta_days_mono _ _ H). lia.
Qed.

(** With at least one lead time the nominal window is computed silently. *)
Lemma nominal_window_value (ds : ForecastDataset) (fd : datetime) :
  leadtime ds <> [] ->
  nominal_window ds fd = ret (nominal_start ds fd, nominal_end ds fd).
Proof.
  unfold nominal_window, nominal_start, nominal_end, lead_lo, lead_hi,
    leadtime_min, leadtime_max.
  destruct (leadtime ds) as [| x xs]; [congruence |]. reflexivity.
Qed.

(** Without any lead time the reconciler ends in the reduction's
    [ValueError], whatever the observations are. *)
Lemma filter_ds_by_obs_no_leadtime `{Externals} (ds : ForecastDataset)
    (obs_da : DataArray) (fd : datetime) :
  leadtime ds = [] ->
  filter_ds_by_obs ds obs_da fd
  = ([], Raise (ValueError "zero-size array to reduction operation")).
Proof.
  intros Hl. unfold filter_ds_by_obs, resolved_window, nominal_window,
    leadtime_min. rewrite Hl. reflexivity.
Qed.

(** ** The reconciler, [filter_ds_by_obs] *)

Lemma string_append_empty_r (s : string) : (s ++ "")%string = s.
Proof. induction s as [| c s IH]; simpl; [reflexivity | now rewrite IH]. Qed.

(** The text of the no-data error: the two bounds in [%D] form. *)
Lemma no_obs_message_text (s e : datetime) :
  no_obs_message s e
  = ("No observational data available between " ++ strftime_D s
     ++ " and " ++ strftime_D e)%string.
Proof.
  unfold no_obs_message. cbn [format]. rewrite string_append_empty_r. reflexivity.
Qed.

(** The text of the shortfall warning: the available window, then the
    nominal one. *)
Lemma shortfall_message_text (a b s e : datetime) :
  shortfall_message a b s e
  = ("Observational data not available for full range of forecast lead times: "
     ++ strftime_D a ++ "-" ++ strftime_D b ++ " vs "
     ++ strftime_D s ++ "-" ++ strftime_D e)%string.
Proof.
  unfold shortfall_message. cbn [format append].
  rewrite string_append_empty_r. reflexivity.
Qed.

Lemma series_first_hd (s : list datetime) :
  s <> [] -> series_first s = ret (hd 0 s).
Proof. destruct s; [congruence | reflexivity]. Qed.

Lemma series_last_last (s : list datetime) :
  s <> [] -> series_last s = ret (last s 0).
Proof.
  destruct s as [| t s]; [congruence |]. intros _. unfold series_last.
  f_equal. revert t. induction s as [| u s IH]; intros t; [reflexivity |].
  simpl in *. destruct s; [reflexivity | apply IH].
Qed.

(** The resolved window under full coverage. *)
Lemma resolved_window_full (ds : ForecastDataset) (obs_da : DataArray)
    (fd : datetime) :
  leadtime ds <> [] ->
  (List.length (leadtime ds) <= List.length (da_time obs_da))%nat ->
  resolved_window ds obs_da fd
  = ([], Ok (nominal_start ds fd, nominal_end ds fd)).
Proof.
  intros Hne Hlen. unfold resolved_window.
  rewrite (nominal_window_value ds fd Hne), bind_ret_l.
  destruct (Nat.ltb_spec (List.length (da_time obs_da)) (List.length (leadtime ds)));
    [lia | reflexivity].
Qed.

(** The resolved window under partial coverage. *)
Lemma resolved_window_partial (ds : ForecastDataset) (obs_da : DataArray)
    (fd : datetime) :
  (1 <= List.length (da_time obs_da) < List.length (leadtime ds))%nat ->
  resolved_window ds obs_da fd
  = ([LogRecord WARNING false
        (Text (shortfall_message (hd 0 (da_time obs_da)) (last (da_time obs_da) 0)
                 (nominal_start ds fd) (nominal_end ds fd)))],
     Ok (hd 0 (da_time obs_da), last (da_time obs_da) 0)).
Proof.
  intros [H1 H2]. unfold resolved_window.
  assert (Hne : leadtime ds <> []) by (destruct (leadtime ds); simpl in *; [lia | congruence]).
  assert (Hobs : da_time obs_da <> []) by (destruct (da_time obs_da); simpl in *; [lia | congruence]).
  rewrite (nominal_window_value ds fd Hne), bind_ret_l.
  destruct (Nat.ltb_spec (List.length (da_time obs_da)) (List.length (leadtime ds))); [| lia].
  destruct (Nat.ltb_spec (List.length (da_time obs_da)) 1); [lia |].
  rewrite bind_ret_l, (series_first_hd _ Hobs), bind_ret_l,
    (series_last_last _ Hobs), bind_ret_l.
  reflexivity.
Qed.

(** The resolved window without observations. *)
Lemma resolved_window_no_obs (ds : ForecastDataset) (obs_da : DataArray)
    (fd : datetime) :
  leadtime ds <> [] ->
  List.length (da_time obs_da) = 0%nat ->
  resolved_window ds obs_da fd
  = ([], Raise (RuntimeError
                  (no_obs_message (nominal_start ds fd) (nominal_end ds fd)))).
Proof.
  intros Hne H0. unfold resolved_window.
  rewrite (nominal_window_value ds fd Hne), bind_ret_l, H0.
  destruct (leadtime ds) as [| x xs]; [congruence |]. reflexivity.
Qed.

(** Under full coverage the call is the broadcast onto the nominal window. *)
Lemma filter_ds_by_obs_full `{Externals} (ds : ForecastDataset)
    (obs_da : DataArray) (fd : datetime) :
  leadtime ds <> [] ->
  (List.length (leadtime ds) <= List.length (da_time obs_da))%nat ->
  filter_ds_by_obs ds obs_da fd
  = broadcast_forecast (nominal_start ds fd) (nominal_end ds fd) ds.
Proof.
  intros Hne Hlen. unfold filter_ds_by_obs.
  rewrite (resolved_window_full ds obs_da fd Hne Hlen). unfold bind.
  destruct (broadcast_forecast _ _ ds) as [l r]. reflexivity.
Qed.

(** C2. When the observation series has no timestep (and the forecast has
    a lead-time axis to take the nominal window from), [filter_ds_by_obs]
    logs nothing and raises the [RuntimeError] whose message is the
    no-data text built from the nominal bounds: forecast date plus the
    least lead time, and forecast date plus the greatest. *)
Theorem filter_ds_by_obs_no_observations `{Externals} (ds : ForecastDataset)
    (obs_da : DataArray) (fd : datetime) :
  leadtime ds <> [] ->
  List.length (da_time obs_da) = 0%nat ->
  filter_ds_by_obs ds obs_da fd
  = ([], Raise (RuntimeError
                  ("No observational data available between "
                   ++ strftime_D (fd + timedelta_days (lead_lo ds))
                   ++ " and "
                   ++ strftime_D (fd + timedelta_days (lead_hi ds)))%string)).
Proof.
  intros Hne H0. unfold filter_ds_by_obs.
  rewrite (resolved_window_no_obs ds obs_da fd Hne H0), no_obs_message_text.
  reflexivity.
Qed.

(** Scenario C: lead times 0 to 14 from 2022-04-01 and no observation. *)
Lemma filter_ds_by_obs_no_observations_witness :
  leadtime forecast_0_14 <> []
  /\ List.length (da_time (obs_on [])) = 0%nat
  /\ filter_ds_by_obs forecast_0_14 (obs_on []) (midnight 2022 4 1)
     = ([], Raise (RuntimeError
           "No observational data available between 04/01/22 and 04/15/22")).
Proof.
  split; [discriminate |]. split; [reflexivity |].
  refine (eq_trans
            (@filter_ds_by_obs_no_observations world forecast_0_14 (obs_on [])
               (midnight 2022 4 1) _ eq_refl) _).
  - discriminate.
  - vm_compute. reflexivity.
Defined.

(** C3. When the observation series has at least one timestep and fewer
    than the forecast has lead times, the reconciler itself logs one
    record, a warning whose text names both windows (the first and last
    date of the observation series, then the nominal bounds: forecast
    date plus the least lead time and forecast date plus the greatest,
    each date in [%D] form), takes the first and the last date of the
    observation series as the window, and calls [broadcast_forecast] on
    that window: the log of the call is the warning followed by what the
    broadcast logs, and its outcome is the broadcast's. *)
Theorem filter_ds_by_obs_partial_coverage `{Externals} (ds : ForecastDataset)
    (obs_da : DataArray) (fd : datetime) :
  (1 <= List.length (da_time obs_da) < List.length (leadtime ds))%nat ->
  resolved_window ds obs_da fd
  = ([LogRecord WARNING false
        (Text ("Observational data not available for full range of "
               ++ "forecast lead times: "
               ++ strftime_D (hd 0 (da_time obs_da)) ++ "-"
               ++ strftime_D (last (da_time obs_da) 0) ++ " vs "
               ++ strftime_D (fd + timedelta_days (lead_lo ds)) ++ "-"
               ++ strftime_D (fd + timedelta_days (lead_hi ds)))%string)],
     Ok (hd 0 (da_time obs_da), last (da_time obs_da) 0))
  /\ filter_ds_by_obs ds obs_da fd
     = (LogRecord WARNING false
          (Text ("Observational data not available for full range of "
                 ++ "forecast lead times: "
                 ++ strftime_D (hd 0 (da_time obs_da)) ++ "-"
                 ++ strftime_D (last (da_time obs_da) 0) ++ " vs "
                 ++ strftime_D (fd + timedelta_days (lead_lo ds)) ++ "-"
                 ++ strftime_D (fd + timedelta_days (lead_hi ds)))%string)
        :: log_of (broadcast_forecast (hd 0 (da_time obs_da))
                     (last (da_time obs_da) 0) ds),
        outcome (broadcast_forecast (hd 0 (da_time obs_da))
                   (last (da_time obs_da) 0) ds)).
Proof.
  intros Hlen. pose proof (resolved_window_partial ds obs_da fd Hlen) as Hw.
  rewrite shortfall_message_text in Hw. unfold nominal_start, nominal_end in Hw.
  split; [exact Hw |].
  unfold filter_ds_by_obs. rewrite Hw. unfold bind, log_of, outcome.
  destruct (broadcast_forecast _ _ ds) as [l r]. reflexivity.
Qed.

(** Scenario B: lead times 0 to 14 from 2022-04-01, observations for
    2022-04-01 to 2022-04-10. *)
Lemma filter_ds_by_obs_partial_coverage_witness :
  (1 <= List.length (da_time (obs_on (days_from (midnight 2022 4 1) 10)))
   < List.length (leadtime forecast_0_14))%nat
  /\ resolved_window forecast_0_14 (obs_on (days_from (midnight 2022 4 1) 10))
       (midnight 2022 4 1)
     = ([LogRecord WARNING false
           (Text ("Observational data not available for full range of "
                  ++ "forecast lead times: 04/01/22-04/10/22 vs 04/01/22-04/15/22"))],
        Ok (midnight 2022 4 1, midnight 2022 4 10)).
Proof.
  split; [simpl; lia |].
  refine (eq_trans
            (proj1 (@filter_ds_by_obs_partial_coverage world forecast_0_14
                      (obs_on (days_from (midnight 2022 4 1) 10))
                      (midnight 2022 4 1) _)) _).
  - simpl; lia.
  - vm_compute. reflexivity.
Defined.

(** C4. When the observation series has at least as many timesteps as the
    forecast has lead times, the reconciler logs nothing of its own, the
    window it resolves is the nominal window, and the call is the
    broadcast of the forecast onto that window. *)
Theorem filter_ds_by_obs_full_coverage `{Externals} (ds : ForecastDataset)
    (obs_da : DataArray) (fd : datetime) :
  leadtime ds <> [] ->
  (List.length (leadtime ds) <= List.length (da_time obs_da))%nat ->
  resolved_window ds obs_da fd
  = ([], Ok (fd + timedelta_days (lead_lo ds), fd + timedelta_days (lead_hi ds)))
  /\ filter_ds_by_obs ds obs_da fd
     = broadcast_forecast (fd + timedelta_days (lead_lo ds))
         (fd + timedelta_days (lead_hi ds)) ds.
Proof.
  intros Hne Hlen. split.
  - exact (resolved_window_full ds obs_da fd Hne Hlen).
  - exact (filter_ds_by_obs_full ds obs_da fd Hne Hlen).
Qed.

(** Scenario A: lead times 0 to 14 from 2022-04-01, observations for
    2022-04-01 to 2022-04-15. *)
Lemma filter_ds_by_obs_full_coverage_witness :
  leadtime forecast_0_14 <> []
  /\ (List.length (leadtime forecast_0_14)
      <= List.length (da_time (obs_on (days_from (midnight 2022 4 1) 15))))%nat
  /\ resolved_window forecast_0_14 (obs_on (days_from (midnight 2022 4 1) 15))
       (midnight 2022 4 1)
     = ([], Ok (midnight 2022 4 1, midnight 2022 4 15)).
Proof.
  split; [discriminate |]. split; [simpl; lia |].
  refine (eq_trans
            (proj1 (@filter_ds_by_obs_full_coverage world forecast_0_14
                      (obs_on (days_from (midnight 2022 4 1) 15))
                      (midnight 2022 4 1) _ _)) _).
  - discriminate.
  - simpl; lia.
  - vm_compute. reflexivity.
Defined.

(** Whatever the reconciler resolves without raising is either the nominal
    window or the first and last date of the observation series. *)
Lemma resolved_window_cases (ds : ForecastDataset) (obs_da : DataArray)
    (fd : datetime) (l : list log_record) (s e : datetime) :
  resolved_window ds obs_da fd = (l, Ok (s, e)) ->
  (s, e) = (nominal_start ds fd, nominal_end ds fd)
  \/ (da_time obs_da <> []
      /\ (s, e) = (hd 0 (da_time obs_da), last (da_time obs_da) 0)).
Proof.
  intros Hr.
  destruct (leadtime ds) as [| x xs] eqn:Hl.
  - unfold resolved_window, nominal_window, leadtime_min in Hr.
    rewrite Hl in Hr. discriminate.
  - assert (Hne : leadtime ds <> []) by (rewrite Hl; discriminate).
    destruct (Nat.ltb_spec (List.length (da_time obs_da)) (List.length (leadtime ds)))
      as [Hlt | Hge].
    + destruct (da_time obs_da) as [| t ts] eqn:Ht.
      * rewrite (resolved_window_no_obs ds obs_da fd Hne) in Hr
          by (rewrite Ht; reflexivity).
        discriminate.
      * rewrite <- Ht in *.
        rewrite (resolved_window_partial ds obs_da fd) in Hr
          by (split; [rewrite Ht; simpl; lia | exact Hlt]).
        inversion Hr; subst. right. split; [rewrite Ht; discriminate | reflexivity].
    + rewrite (resolved_window_full ds obs_da fd Hne Hge) in Hr.
      inversion Hr; subst. left. reflexivity.
Qed.

Lemma last_In {A} (l : list A) (d : A) : l <> [] -> In (last l d) l.
Proof.
  induction l as [| a l IH]; [congruence |]. intros _.
  destruct l as [| b l]; [left; reflexivity |].
  right. apply IH. discriminate.
Qed.

Lemma hd_In {A} (l : list A) (d : A) : l <> [] -> In (hd d l) l.
Proof. destruct l; [congruence | left; reflexivity]. Qed.




(** The same forecast reindexed onto its nominal window carries its own
    values, day by day. *)
Example broadcast_reindex_nominal :
  outcome (@filter_ds_by_obs reindexing_world forecast_april
             (obs_on (days_from (midnight 2022 4 1) 15)) (midnight 2022 4 1))
  = Ok {| encoding_source := None;
          time := days_from (midnight 2022 4 1) 15;
          yc := []; xc := [];
          data_vars :=
            [("forecast",
              [ [[0]]; [[0.125]]; [[0.25]]; [[0.375]]; [[0.5]]; [[0.625]];
                [[0.75]]; [[0.875]]; [[1]]; [[1.125]]; [[1.25]]; [[1.375]];
                [[1.5]]; [[1.625]]; [[1.75]] ]%float)] |}.
Proof. vm_compute. reflexivity. Qed.

(** C10. Which way the reconciler goes is a function of two counts, the
    number of observation timesteps and the number of lead times, and of
    nothing else of the observation series; and any two series with at
    least as many timesteps as there are lead times give the very same
    call, the broadcast onto the nominal window, whatever dates they
    carry. *)
Theorem filter_ds_by_obs_decides_by_count `{Externals} (ds : ForecastDataset)
    (fd : datetime) :
  (forall obs : DataArray,
      branch_taken (resolved_window ds obs fd)
      = coverage_of_counts (List.length (da_time obs)) (List.length (leadtime ds)))
  /\ (forall obs1 obs2 : DataArray,
         (List.length (leadtime ds) <= List.length (da_time obs1))%nat ->
         (List.length (leadtime ds) <= List.length (da_time obs2))%nat ->
         filter_ds_by_obs ds obs1 fd = filter_ds_by_obs ds obs2 fd)
  /\ (forall obs : DataArray,
         leadtime ds <> [] ->
         (List.length (leadtime ds) <= List.length (da_time obs))%nat ->
         filter_ds_by_obs ds obs fd
         = broadcast_forecast (nominal_start ds fd) (nominal_end ds fd) ds).
Proof.
  split; [| split].
  - intros obs. unfold coverage_of_counts.
    destruct (leadtime ds) as [| x xs] eqn:Hl.
    + unfold resolved_window, nominal_window, leadtime_min. rewrite Hl. reflexivity.
    + assert (Hne : leadtime ds <> []) by (rewrite Hl; discriminate).
      rewrite <- Hl.
      assert (Hpos : (List.length (leadtime ds) =? 0)%nat = false)
        by (rewrite Hl; reflexivity).
      rewrite Hpos.
      destruct (Nat.ltb_spec (List.length (da_time obs)) (List.length (leadtime ds)))
        as [Hlt | Hge].
      * destruct (Nat.ltb_spec (List.length (da_time obs)) 1) as [H0 | H1].
        -- rewrite (resolved_window_no_obs ds obs fd Hne) by lia. reflexivity.
        -- rewrite (resolved_window_partial ds obs fd) by lia. reflexivity.
      * rewrite (resolved_window_full ds obs fd Hne Hge). reflexivity.
  - intros obs1 obs2 H1 H2.
    destruct (leadtime ds) as [| x xs] eqn:Hl.
    + rewrite !filter_ds_by_obs_no_leadtime by exact Hl. reflexivity.
    + assert (Hne : leadtime ds <> []) by (rewrite Hl; discriminate).
      rewrite <- Hl in H1, H2.
      rewrite (filter_ds_by_obs_full ds obs1 fd Hne H1).
      rewrite (filter_ds_by_obs_full ds obs2 fd Hne H2).
      reflexivity.
  - intros obs Hne Hlen. exact (filter_ds_by_obs_full ds obs fd Hne Hlen).
Qed.

(** ** The corpus hook, [strip_overlapping_time] *)

Lemma mask_map_filter {A} (f : A -> bool) (xs : list A) :
  mask (map f xs) xs = filter f xs.
Proof.
  unfold mask. induction xs as [| x xs IH]; [reflexivity |].
  simpl. destruct (f x); simpl; now rewrite IH.
Qed.

(** Label slicing on the time axis is a filter on its labels. *)
Lemma time_sel_time (lo hi : option datetime) (ds : Dataset) :
  time (sel_time lo hi ds) = filter (in_slice lo hi) (time ds).
Proof. unfold sel_time. simpl. apply mask_map_filter. Qed.

Lemma index_of_nth (l : list string) (i : nat) (p : string) :
  NoDup l -> nth_error l i = Some p -> index_of p l = Some i.
Proof.
  revert i. induction l as [| q l IH]; intros i Hnd Hn.
  - destruct i; discriminate.
  - inversion Hnd as [| ? ? Hnotin Hnd']; subst. destruct i as [| i]; simpl in *.
    + inversion Hn; subst. now rewrite String.eqb_refl.
    + destruct (String.eqb_spec q p) as [-> | Hneq].
      * exfalso. apply Hnotin. eapply nth_error_In, Hn.
      * now rewrite (IH i Hnd' Hn).
Qed.

Lemma index_of_none (l : list string) (p : string) :
  ~ In p l -> index_of p l = None.
Proof.
  induction l as [| q l IH]; intros Hnotin; [reflexivity |]. simpl.
  destruct (String.eqb_spec q p) as [-> | Hneq].
  - exfalso. apply Hnotin. left. reflexivity.
  - rewrite IH; [reflexivity |]. intros Hin. apply Hnotin. right. exact Hin.
Qed.

Lemma index_of_some_In (l : list string) (p : string) (i : nat) :
  index_of p l = Some i -> In p l.
Proof.
  revert i. induction l as [| q l IH]; intros i; simpl; [discriminate |].
  destruct (String.eqb_spec q p) as [-> | Hneq]; [now left |].
  destruct (index_of p l) as [j |] eqn:Hj; [| discriminate].
  intros _. right. eapply IH. reflexivity.
Qed.

Lemma dict_get_nth (d : dict) (j : nat) (k : string) (v : datetime) :
  NoDup (keys d) -> nth_error d j = Some (k, v) -> dict_get k d = Some v.
Proof.
  revert j. induction d as [| [k' v'] d IH]; intros j Hnd Hn.
  - destruct j; discriminate.
  - simpl in Hnd. inversion Hnd as [| ? ? Hnotin Hnd']; subst.
    destruct j as [| j]; simpl in *.
    + inversion Hn; subst. now rewrite String.eqb_refl.
    + destruct (String.eqb_spec k k') as [-> | Hneq].
      * exfalso. apply Hnotin. apply nth_error_In in Hn.
        change k' with (fst (k', v)). apply in_map, Hn.
      * eapply IH; eassumption.
Qed.

(** In a strictly increasing list the entry after position [i] is the
    least entry above the one at [i]. *)
Lemma sorted_next_later (l : list Z) (i : nat) (d d' : Z) :
  StronglySorted Z.lt l ->
  nth_error l i = Some d -> nth_error l (S i) = Some d' ->
  d < d' /\ forall e, In e l -> d < e -> d' <= e.
Proof.
  intros Hs. revert i. induction Hs as [| a l Hs IH Hall]; intros i Hi Hi'.
  - destruct i; discriminate.
  - rewrite Forall_forall in Hall. destruct i as [| i]; simpl in Hi, Hi'.
    + inversion Hi; subst. destruct l as [| b l]; [discriminate |].
      simpl in Hi'. inversion Hi'; subst. split.
      * apply Hall. left. reflexivity.
      * intros e [-> | [-> | Hin]] Hlt; [lia | lia |].
        inversion Hs as [| ? ? _ Hall']; subst.
        rewrite Forall_forall in Hall'. specialize (Hall' e Hin). lia.
    + destruct (IH i Hi Hi') as [Hlt Hleast]. split; [exact Hlt |].
      intros e [-> | Hin] He.
      * apply nth_error_In in Hi. specialize (Hall d Hi). lia.
      * apply Hleast; assumption.
Qed.

Lemma timedelta_day_positive : 0 < timedelta_days 1.
Proof. reflexivity. Qed.

(** What the hook does with a dataset that is entry [i] of the mapping and
    has an entry after it. *)
Lemma strip_overlapping_time_clipped `{Externals} (files : dict) (ds : Dataset)
    (source : string) (i : nat) (p p' : string) (d d' : datetime) :
  NoDup (keys files) ->
  encoding_source ds = Some source ->
  abspath source = p ->
  nth_error files i = Some (p, d) ->
  nth_error files (S i) = Some (p', d') ->
  strip_overlapping_time files ds
  = ([LogRecord DEBUG false
        (Fmt "Stripping {} to {}" [AStr p; ADate (d' - timedelta_days 1)])],
     Ok (Some (sel_time None (Some (d' - timedelta_days 1)) ds))).
Proof.
  intros Hnd Hsrc Habs Hi Hi'. unfold strip_overlapping_time.
  rewrite Hsrc, bind_ret_l, Habs.
  assert (Hk : nth_error (keys files) i = Some p).
  { unfold keys. rewrite nth_error_map, Hi. reflexivity. }
  assert (Hk' : nth_error (keys files) (i + 1) = Some p').
  { unfold keys. rewrite Nat.add_1_r, nth_error_map, Hi'. reflexivity. }
  rewrite (index_of_nth _ _ _ Hnd Hk).
  assert (Hlen : (S i < List.length files)%nat).
  { apply nth_error_Some. rewrite Hi'. discriminate. }
  destruct (Z.ltb_spec (Z.of_nat i) (Z.of_nat (List.length files) - 1)); [| lia].
  rewrite Hk', bind_ret_l, (dict_get_nth _ _ _ _ Hnd Hi'), bind_ret_l.
  reflexivity.
Qed.

(** What the hook does with the dataset of the last entry. *)
Lemma strip_overlapping_time_last `{Externals} (files : dict) (ds : Dataset)
    (source : string) (i : nat) (p : string) (d : datetime) :
  NoDup (keys files) ->
  encoding_source ds = Some source ->
  abspath source = p ->
  nth_error files i = Some (p, d) ->
  nth_error files (S i) = None ->
  strip_overlapping_time files ds
  = ([LogRecord DEBUG false (Fmt "Not stripping {}" [AStr p])], Ok (Some ds)).
Proof.
  intros Hnd Hsrc Habs Hi Hi'. unfold strip_overlapping_time.
  rewrite Hsrc, bind_ret_l, Habs.
  assert (Hk : nth_error (keys files) i = Some p).
  { unfold keys. rewrite nth_error_map, Hi. reflexivity. }
  rewrite (index_of_nth _ _ _ Hnd Hk).
  apply nth_error_None in Hi'.
  destruct (Z.ltb_spec (Z.of_nat i) (Z.of_nat (List.length files) - 1)); [lia |].
  reflexivity.
Qed.

(** What the hook does with a dataset whose source is no key of the
    mapping: one record at ERROR level with the traceback, and [None]
    returned; nothing is raised. *)
Lemma strip_overlapping_time_unmatched `{Externals} (files : dict) (ds : Dataset)
    (source : string) :
  encoding_source ds = Some source ->
  ~ In (abspath source) (keys files) ->
  strip_overlapping_time files ds
  = ([LogRecord ERROR true
        (Fmt not_in_template [AStr (abspath source); AFiles files])],
     Ok None).
Proof.
  intros Hsrc Hnotin. unfold strip_overlapping_time.
  rewrite Hsrc, bind_ret_l, (index_of_none _ _ Hnotin). reflexivity.
Qed.

(** C1. In a mapping sorted by issuance date, the hook clips the dataset
    of every entry that has a successor to the times up to the successor's
    issuance date minus one day, testing no lower bound, and returns the
    dataset of the last entry as it is.  The successor's date is the next
    later issuance date, so the window of an entry ends one day before the
    window of the next entry starts, and no time kept for an entry reaches
    the next issuance date. *)
Theorem strip_overlapping_time_valid_windows `{Externals} (files : dict)
    (ds : Dataset) (source : string) (i : nat) (p : string) (d : datetime) :
  NoDup (keys files) ->
  sorted_by_date files ->
  encoding_source ds = Some source ->
  abspath source = p ->
  nth_error files i = Some (p, d) ->
  match nth_error files (S i) with
  | Some (_, d') =>
      outcome (strip_overlapping_time files ds)
      = Ok (Some (sel_time None (Some (d' - timedelta_days 1)) ds))
      /\ time (sel_time None (Some (d' - timedelta_days 1)) ds)
         = filter (fun t => t <=? d' - timedelta_days 1) (time ds)
      /\ d < d'
      /\ (forall q e, In (q, e) files -> d < e -> d' <= e)
      /\ (d' - timedelta_days 1) + timedelta_days 1 = d'
      /\ (forall t, In t (time (sel_time None (Some (d' - timedelta_days 1)) ds)) ->
                    t < d')
  | None => outcome (strip_overlapping_time files ds) = Ok (Some ds)
  end.
Proof.
  intros Hnd Hsorted Hsrc Habs Hi.
  destruct (nth_error files (S i)) as [[p' d'] |] eqn:Hi'.
  - assert (Hd : nth_error (map snd files) i = Some d)
      by (rewrite nth_error_map, Hi; reflexivity).
    assert (Hd' : nth_error (map snd files) (S i) = Some d')
      by (rewrite nth_error_map, Hi'; reflexivity).
    destruct (sorted_next_later _ _ _ _ Hsorted Hd Hd') as [Hlt Hleast].
    split; [| split; [| split; [| split; [| split]]]].
    + rewrite (strip_overlapping_time_clipped files ds source i p p' d d');
        auto.
    + rewrite time_sel_time. reflexivity.
    + exact Hlt.
    + intros q e Hin He. apply Hleast; [| exact He].
      change e with (snd (q, e)). apply in_map, Hin.
    + lia.
    + intros t Ht. rewrite time_sel_time in Ht. apply filter_In in Ht.
      destruct Ht as [_ Ht]. unfold in_slice in Ht. simpl in Ht.
      apply Z.leb_le in Ht. pose proof timedelta_day_positive. lia.
  - rewrite (strip_overlapping_time_last files ds source i p d); auto.
Qed.

Lemma scenario_d_files_nodup : NoDup (keys scenario_d_files).
Proof.
  repeat constructor; simpl; intros Hin;
    repeat (destruct Hin as [Hin | Hin]; [discriminate Hin |]); exact Hin.
Qed.

Lemma scenario_d_files_sorted : sorted_by_date scenario_d_files.
Proof. repeat constructor. Qed.

(** Scenario D, first entry: the forecast issued 2022-03-01, followed in
    the mapping by the one issued 2022-04-01. *)
Lemma strip_overlapping_time_valid_windows_witness :
  NoDup (keys scenario_d_files)
  /\ sorted_by_date scenario_d_files
  /\ encoding_source (opened_seas (midnight 2022 3 1) 0.25%float)
     = Some "/srv/icenet/data/mars.seas/north/siconca/20220301.nc"
  /\ abspath "/srv/icenet/data/mars.seas/north/siconca/20220301.nc"
     = "/srv/icenet/data/mars.seas/north/siconca/20220301.nc"
  /\ nth_error scenario_d_files 0
     = Some ("/srv/icenet/data/mars.seas/north/siconca/20220301.nc",
             midnight 2022 3 1)
  /\ outcome (strip_overlapping_time scenario_d_files
                (opened_seas (midnight 2022 3 1) 0.25%float))
     = Ok (Some (sel_time None (Some (midnight 2022 3 31))
                   (opened_seas (midnight 2022 3 1) 0.25%float))).
Proof.
  split; [exact scenario_d_files_nodup |].
  split; [exact scenario_d_files_sorted |].
  split; [reflexivity |]. split; [reflexivity |]. split; [reflexivity |].
  exact (proj1 (@strip_overlapping_time_valid_windows world scenario_d_files
                  (opened_seas (midnight 2022 3 1) 0.25%float)
                  "/srv/icenet/data/mars.seas/north/siconca/20220301.nc" 0
                  "/srv/icenet/data/mars.seas/north/siconca/20220301.nc"
                  (midnight 2022 3 1)
                  scenario_d_files_nodup scenario_d_files_sorted
                  eq_refl eq_refl eq_refl)).
Defined.

(** Scenario D, run: the time axes the hook leaves end on 2022-03-31 and
    2022-04-30, and the latest forecast keeps all of its forty days. *)
Example scenario_d_march :
  option_map (fun ds => (date_of (hd 0 (time ds)), date_of (last (time ds) 0)))
    (match outcome (strip_overlapping_time scenario_d_files
                      (opened_seas (midnight 2022 3 1) 0.25%float)) with
     | Ok r => r
     | Raise _ => None
     end)
  = Some ((2022, 3, 1), (2022, 3, 31)).
Proof. vm_compute. reflexivity. Qed.

Example scenario_d_april :
  option_map (fun ds => (date_of (hd 0 (time ds)), date_of (last (time ds) 0)))
    (match outcome (strip_overlapping_time scenario_d_files
                      (opened_seas (midnight 2022 4 1) 0.375%float)) with
     | Ok r => r
     | Raise _ => None
     end)
  = Some ((2022, 4, 1), (2022, 4, 30)).
Proof. vm_compute. reflexivity. Qed.

Example scenario_d_may :
  strip_overlapping_time scenario_d_files (opened_seas (midnight 2022 5 1) 0.5%float)
  = ([LogRecord DEBUG false
        (Fmt "Not stripping {}"
           [AStr "/srv/icenet/data/mars.seas/north/siconca/20220501.nc"])],
     Ok (Some (opened_seas (midnight 2022 5 1) 0.5%float))).
Proof. vm_compute. reflexivity. Qed.

(** ** The observation loader, [get_obs_da] *)

Lemma glob_none_found `{Externals} (obs_source hemisphere : string) (years : list Z) :
  (forall yr, In yr years ->
              open_file (obs_year_file obs_source hemisphere yr) = None) ->
  flat_map (fun yr => glob_literal (obs_year_file obs_source hemisphere yr)) years
  = [].
Proof.
  induction years as [| y ys IH]; intros Hnone; [reflexivity |].
  simpl. unfold glob_literal at 1. rewrite (Hnone y (or_introl eq_refl)).
  apply IH. intros yr Hin. apply Hnone. right. exact Hin.
Qed.

(** Every time a label slice keeps lies within the bounds given. *)
Lemma sel_time_within (lo hi : datetime) (ds : Dataset) (t : datetime) :
  In t (time (sel_time (Some lo) (Some hi) ds)) -> lo <= t <= hi.
Proof.
  rewrite time_sel_time. intros Hin. apply filter_In in Hin.
  destruct Hin as [_ Hin]. unfold in_slice in Hin.
  apply andb_true_iff in Hin. destruct Hin as [H1 H2].
  apply Z.leb_le in H1. apply Z.leb_le in H2. lia.
Qed.

Lemma getvar_ok_inv (ds : Dataset) (name : string) (l : list log_record)
    (da : DataArray) :
  getvar ds name = (l, Ok da) ->
  exists a, lookup_var name (data_vars ds) = Some a
            /\ da = mkDataArray (time ds) (yc ds) (xc ds) a /\ l = [].
Proof.
  unfold getvar. destruct (lookup_var name (data_vars ds)) as [a |]; [| discriminate].
  intros Heq. inversion Heq; subst. exists a. auto.
Qed.

(** A series the loader returns has all its times within the range asked
    for. *)
Lemma get_obs_da_within_range `{Externals} (hemisphere : string)
    (start_date end_date : datetime) (obs_source : string)
    (l : list log_record) (da : DataArray) :
  get_obs_da hemisphere start_date end_date obs_source = (l, Ok da) ->
  forall t, In t (da_time da) -> start_date <= t <= end_date.
Proof.
  unfold get_obs_da. intros Hrun.
  apply bind_ok_inv in Hrun. destruct Hrun as (l1 & [] & l2 & _ & Hrun & _).
  apply bind_ok_inv in Hrun. destruct Hrun as (l3 & [] & l4 & _ & Hrun & _).
  apply bind_ok_inv in Hrun. destruct Hrun as (l5 & obs_ds & l6 & _ & Hrun & _).
  apply getvar_ok_inv in Hrun. destruct Hrun as (a & _ & -> & _).
  intros t Ht. simpl in Ht. exact (sel_time_within _ _ _ _ Ht).
Qed.

(** C7 against the code. When none of the yearly files of the requested
    range exists, [get_obs_da] logs the missing-files warning (if the
    range covers any year at all) and the list of files found, which is
    empty, and then raises: opening an empty list of files is an
    [OSError].  No series, of any length, is returned. *)
Theorem get_obs_da_no_files_raises `{Externals} (hemisphere : string)
    (start_date end_date : datetime) (obs_source : string) :
  (forall yr, In yr (obs_years start_date end_date) ->
              open_file (obs_year_file obs_source hemisphere yr) = None) ->
  get_obs_da hemisphere start_date end_date obs_source
  = ((if (0 <? List.length (obs_years start_date end_date))%nat
      then [LogRecord WARNING false
              (Fmt "Cannot find all obs source files for {} - {} in {}"
                 [ADate start_date; ADate end_date; AStr obs_source])]
      else [])
     ++ [LogRecord INFO false (Fmt "Got files: {}" [APaths []])],
     Raise (OSError "no files to open")).
Proof.
  intros Hnone. unfold get_obs_da.
  rewrite (glob_none_found obs_source hemisphere _ Hnone). simpl List.length.
  destruct (0 <? List.length (obs_years start_date end_date))%nat; reflexivity.
Qed.

(** Three days of January 2022 asked of a source directory that holds no
    file. *)
Lemma get_obs_da_no_files_raises_witness :
  (forall yr, In yr (obs_years (midnight 2022 1 5) (midnight 2022 1 7)) ->
              open_file (obs_year_file "./data/nowhere" "north" yr) = None)
  /\ get_obs_da "north" (midnight 2022 1 5) (midnight 2022 1 7) "./data/nowhere"
     = ([LogRecord WARNING false
           (Fmt "Cannot find all obs source files for {} - {} in {}"
              [ADate (midnight 2022 1 5); ADate (midnight 2022 1 7);
               AStr "./data/nowhere"]);
         LogRecord INFO false (Fmt "Got files: {}" [APaths []])],
        Raise (OSError "no files to open")).
Proof.
  assert (Hnone : forall yr,
             In yr (obs_years (midnight 2022 1 5) (midnight 2022 1 7)) ->
             open_file (obs_year_file "./data/nowhere" "north" yr) = None).
  { intros yr Hin. vm_compute in Hin. destruct Hin as [<- | []]. reflexivity. }
  split; [exact Hnone |].
  exact (@get_obs_da_no_files_raises world "north" (midnight 2022 1 5)
           (midnight 2022 1 7) "./data/nowhere" Hnone).
Defined.

(** ** The forecast retrieval, [get_seas_forecast_da] *)

(** Ten calendar years are 3651 to 3653 days. *)
Lemma ten_years_in_days (y m d : Z) :
  1 <= m <= 12 ->
  3651 <= days_from_civil y m d - days_from_civil (y - 10) m d <= 3653.
Proof.
  intros Hm. unfold days_from_civil.
  destruct (m <=? 2); Z.div_mod_to_equations; lia.
Qed.

Lemma open_dataset_ok_inv `{Externals} (p : string) (l : list log_record)
    (ds : Dataset) :
  open_dataset p = (l, Ok ds) ->
  exists file, open_file p = Some file
               /\ time ds = time file /\ yc ds = yc file /\ xc ds = xc file
               /\ data_vars ds = data_vars file
               /\ encoding_source ds = Some (abspath p).
Proof.
  unfold open_dataset. destruct (open_file p) as [file |]; [| discriminate].
  intros Heq. inversion Heq; subst. exists file. simpl. auto 10.
Qed.

Lemma shape_eqb_eq (s1 s2 : nat * nat * nat) : shape_eqb s1 s2 = true -> s1 = s2.
Proof.
  destruct s1 as [[a1 b1] c1], s2 as [[a2 b2] c2]. unfold shape_eqb.
  intros Heq. apply andb_true_iff in Heq. destruct Heq as [Heq H3].
  apply andb_true_iff in Heq. destruct Heq as [H1 H2].
  apply Nat.eqb_eq in H1, H2, H3. congruence.
Qed.

Lemma set_values_ok_inv (da : DataArray) (a : ndarray) (l : list log_record)
    (da' : DataArray) :
  set_values da a = (l, Ok da') ->
  shape a = shape (da_values da)
  /\ da' = mkDataArray (da_time da) (da_yc da) (da_xc da) a.
Proof.
  unfold set_values.
  destruct (shape_eqb (shape a) (shape (da_values da))) eqn:Hs; [| discriminate].
  intros Heq. inversion Heq; subst. split; [apply shape_eqb_eq, Hs | reflexivity].
Qed.

Lemma lift_ok_inv {A} (r : result A) (l : list log_record) (a : A) :
  lift r = (l, Ok a) -> r = Ok a.
Proof. unfold lift. intros Heq. inversion Heq. reflexivity. Qed.

(** One step of inversion of a successful run: the first computation
    returned, and the rest ran on its value. *)
Ltac step_ok H x :=
  let l1 := fresh "l" in
  let l2 := fresh "l" in
  let Hx := fresh "H" x in
  apply bind_ok_inv in H; destruct H as (l1 & x & l2 & Hx & H & _).

(** C8, amended. With bias correction on, the range of observations is
    the issuance date minus and plus 3650 days (ten times 365): the
    window assigned is exactly that, a successful run has loaded its
    observations with [get_obs_da] over that range and every observed
    time lies within it, and for an issuance at midnight of a civil date
    each bound falls one to three days short of the same civil date ten
    years away. *)
Theorem get_seas_forecast_da_obs_range `{Externals} (hemisphere : string)
    (date : datetime) (source_path : string) :
  bias_correct_window date
  = (date - 3650 * ns_per_day, date + 3650 * ns_per_day)
  /\ (forall (l : list log_record) (r : DataArray),
         get_seas_forecast_da hemisphere date true source_path = (l, Ok r) ->
         exists (l' : list log_record) (obs_da : DataArray),
           get_obs_da hemisphere (date - timedelta_days 3650)
             (date + timedelta_days 3650) default_obs_source = (l', Ok obs_da)
           /\ forall t, In t (da_time obs_da) ->
                        date - timedelta_days 3650 <= t
                        <= date + timedelta_days 3650)
  /\ (forall y m d : Z,
         1 <= m <= 12 -> date = midnight y m d ->
         timedelta_days 1 <= fst (bias_correct_window date) - midnight (y - 10) m d
         <= timedelta_days 3
         /\ timedelta_days 1 <= midnight (y + 10) m d - snd (bias_correct_window date)
            <= timedelta_days 3).
Proof.
  split; [reflexivity |]. split.
  - intros l r Hrun. unfold get_seas_forecast_da in Hrun.
    step_ok Hrun seas_ds. step_ok Hrun seas_da.
    unfold bias_correct_window in Hrun.
    change (10 * 365) with 3650 in Hrun.
    step_ok Hrun obs_da.
    match goal with
    | Hobs : get_obs_da _ _ _ _ = (?l', Ok obs_da) |- _ =>
        exists l', obs_da; split; [exact Hobs |];
        exact (get_obs_da_within_range _ _ _ _ _ _ Hobs)
    end.
  - intros y m d Hm ->. unfold bias_correct_window, midnight, timedelta_days. simpl fst. simpl snd.
    pose proof (ten_years_in_days y m d Hm) as Hback.
    pose proof (ten_years_in_days (y + 10) m d Hm) as Hfwd.
    replace (y + 10 - 10) with y in Hfwd by lia.
    unfold ns_per_day. lia.
Qed.

(** C8 as stated fails: for the issuance 2022-04-01 the range runs from
    2012-04-03 to 2032-03-29, not from 2012-04-01 to 2032-04-01, the dates
    ten years before and after. *)
Lemma bias_correct_window_not_ten_years :
  bias_correct_window (midnight 2022 4 1) = (midnight 2012 4 3, midnight 2032 3 29)
  /\ shift_years (-10) (midnight 2022 4 1) = midnight 2012 4 1
  /\ shift_years 10 (midnight 2022 4 1) = midnight 2032 4 1
  /\ fst (bias_correct_window (midnight 2022 4 1))
     <> shift_years (-10) (midnight 2022 4 1)
  /\ snd (bias_correct_window (midnight 2022 4 1))
     <> shift_years 10 (midnight 2022 4 1).
Proof.
  split; [vm_compute; reflexivity |].
  split; [vm_compute; reflexivity |].
  split; [vm_compute; reflexivity |].
  split; vm_compute; discriminate.
Qed.

(** C9. A run with bias correction that returns has read the raw series
    [siconc] from the forecast file of the date, and what it returns has
    the time axis and the grid axes of that raw series and an array of
    values of the same shape: the array the debiaser produced from the raw
    values. *)
Theorem get_seas_forecast_da_preserves_axes `{Externals} (hemisphere : string)
    (date : datetime) (source_path : string) (l : list log_record)
    (r : DataArray) :
  get_seas_forecast_da hemisphere date true source_path = (l, Ok r) ->
  exists (file : Dataset) (raw : ndarray),
    open_file (seas_file_of source_path hemisphere date) = Some file
    /\ lookup_var "siconc" (data_vars file) = Some raw
    /\ da_time r = time file
    /\ da_yc r = yc file
    /\ da_xc r = xc file
    /\ shape (da_values r) = shape raw
    /\ exists obs hist : ndarray, debiaser_apply obs hist raw = Ok (da_values r).
Proof.
  intros Hrun. unfold get_seas_forecast_da in Hrun.
  step_ok Hrun seas_ds. step_ok Hrun seas_da.
  unfold bias_correct_window in Hrun.
  step_ok Hrun obs_da. step_ok Hrun seas_hist_files.
  step_ok Hrun hist_ds. step_ok Hrun hist_da.
  step_ok Hrun obs_min. step_ok Hrun obs_max.
  step_ok Hrun hist_min. step_ok Hrun hist_max.
  step_ok Hrun seas_min. step_ok Hrun seas_max.
  step_ok Hrun logged. step_ok Hrun seas_array. step_ok Hrun seas_da'.
  step_ok Hrun out_min. step_ok Hrun out_max. step_ok Hrun logged'.
  inversion Hrun; subst r.
  apply open_dataset_ok_inv in Hseas_ds.
  destruct Hseas_ds as (file & Hfile & Ht & Hy & Hx & Hv & _).
  apply getvar_ok_inv in Hseas_da. destruct Hseas_da as (raw & Hraw & -> & _).
  apply set_values_ok_inv in Hseas_da'. destruct Hseas_da' as [Hshape ->].
  apply lift_ok_inv in Hseas_array. simpl in *.
  exists file, raw. rewrite <- Hv.
  repeat split; try assumption. exists (da_values obs_da), (da_values hist_da).
  exact Hseas_array.
Qed.

(** The run for the forecast issued 2022-06-01, corrected against the
    three earlier issuances and the observations of January 2022. *)
Lemma get_seas_forecast_da_preserves_axes_witness :
  get_seas_forecast_da "north" (midnight 2022 6 1) true default_source_path
  = (log_of (get_seas_forecast_da "north" (midnight 2022 6 1) true
               default_source_path),
     Ok corrected_june)
  /\ exists (file : Dataset) (raw : ndarray),
       open_file (seas_file_of default_source_path "north" (midnight 2022 6 1))
       = Some file
       /\ lookup_var "siconc" (data_vars file) = Some raw
       /\ da_time corrected_june = time file
       /\ da_yc corrected_june = yc file
       /\ da_xc corrected_june = xc file
       /\ shape (da_values corrected_june) = shape raw
       /\ exists obs hist : ndarray,
            debiaser_apply obs hist raw = Ok (da_values corrected_june).
Proof.
  assert (Hrun : get_seas_forecast_da "north" (midnight 2022 6 1) true
                   default_source_path
                 = (log_of (get_seas_forecast_da "north" (midnight 2022 6 1) true
                              default_source_path),
                    Ok corrected_june)).
  { vm_compute. reflexivity. }
  split; [exact Hrun |].
  exact (@get_seas_forecast_da_preserves_axes world "north" (midnight 2022 6 1)
           default_source_path _ corrected_june Hrun).
Defined.

(** The log of that run: the missing-files warning and the files found by
    the loader, the three hook records, and the two range reports. *)
Example get_seas_forecast_da_june_log :
  map lvl (log_of (get_seas_forecast_da "north" (midnight 2022 6 1) true
                     default_source_path))
  = [WARNING; INFO; DEBUG; DEBUG; DEBUG; INFO; INFO].
Proof. vm_compute. reflexivity. Qed.

(** Fifteen observed days of January 2021 against lead times 0 to 14 from
    2022-04-01: full coverage by count, and the nominal window is used
    although no observed date lies in it. *)
Example filter_ds_by_obs_counts_only :
  resolved_window forecast_0_14 (obs_on (days_from (midnight 2021 1 1) 15))
    (midnight 2022 4 1)
  = ([], Ok (midnight 2022 4 1, midnight 2022 4 15))
  /\ forallb (fun t => t <? midnight 2022 4 1)
       (da_time (obs_on (days_from (midnight 2021 1 1) 15))) = true.
Proof. split; vm_compute; reflexivity. Qed.

(** ** The mapping a corpus build starts from *)

Lemma dict_set_keys_In (k k' : string) (v : datetime) (d : dict) :
  In k' (keys (dict_set k v d)) -> k' = k \/ In k' (keys d).
Proof.
  induction d as [| [q w] d IH]; simpl.
  - intros [<- | []]. now left.
  - destruct (String.eqb_spec k q) as [-> | Hneq]; simpl.
    + intros [<- | Hin]; [now left | right; now right].
    + intros [<- | Hin]; [right; now left |].
      destruct (IH Hin) as [-> | Hin']; [now left | right; now right].
Qed.

Lemma dict_set_keys_NoDup (k : string) (v : datetime) (d : dict) :
  NoDup (keys d) -> NoDup (keys (dict_set k v d)).
Proof.
  induction d as [| [q w] d IH]; simpl; intros Hnd.
  - constructor; [intros [] | constructor].
  - inversion Hnd as [| ? ? Hnotin Hnd']; subst.
    destruct (String.eqb_spec k q) as [-> | Hneq]; simpl.
    + constructor; assumption.
    + constructor; [| apply IH, Hnd'].
      intros Hin. apply dict_set_keys_In in Hin.
      destruct Hin as [-> | Hin]; [congruence | contradiction].
Qed.

Lemma fold_dict_set_NoDup (items : list (string * datetime)) (acc : dict) :
  NoDup (keys acc) ->
  NoDup (keys (fold_left (fun d kv => dict_set (fst kv) (snd kv) d) items acc)).
Proof.
  revert acc. induction items as [| kv items IH]; intros acc Hnd; [exact Hnd |].
  simpl. apply IH, dict_set_keys_NoDup, Hnd.
Qed.

(** A dictionary has no key twice. *)
Lemma dict_of_items_NoDup (items : list (string * datetime)) :
  NoDup (keys (dict_of_items items)).
Proof. apply fold_dict_set_NoDup. constructor. Qed.

Lemma fold_dict_set_keys_In (items : list (string * datetime)) (acc : dict)
    (k : string) :
  In k (keys (fold_left (fun d kv => dict_set (fst kv) (snd kv) d) items acc)) ->
  In k (keys acc) \/ In k (map fst items).
Proof.
  revert acc. induction items as [| kv items IH]; intros acc Hin; [now left |].
  simpl in Hin. apply IH in Hin. destruct Hin as [Hin | Hin].
  - apply dict_set_keys_In in Hin. destruct Hin as [-> | Hin].
    + right. now left.
    + now left.
  - right. now right.
Qed.

Lemma insert_item_In (x y : string * datetime) (l : list (string * datetime)) :
  In x (insert_item y l) <-> x = y \/ In x l.
Proof.
  induction l as [| z l IH]; simpl.
  - split; intros [H | H]; auto.
  - destruct (item_ltb y z); simpl.
    + split; intros [H | H]; auto.
    + rewrite IH. split; intros H; intuition auto.
Qed.

Lemma fold_insert_item_In (x : string * datetime)
    (items acc : list (string * datetime)) :
  In x (fold_left (fun a y => insert_item y a) items acc)
  <-> In x acc \/ In x items.
Proof.
  revert acc. induction items as [| y items IH]; intros acc; simpl.
  - intuition auto.
  - rewrite IH, insert_item_In. intuition auto.
Qed.

(** Sorting neither adds nor loses an item. *)
Lemma sorted_In (x : string * datetime) (items : list (string * datetime)) :
  In x (sorted items) <-> In x items.
Proof. unfold sorted. rewrite fold_insert_item_In. simpl. intuition auto. Qed.

Lemma hist_comprehension_keys `{Externals} (P : string -> Prop) (seas_file : string)
    (els : list string) (acc d : dict) (l : list log_record) :
  (forall el, P (abspath el)) ->
  (forall k, In k (keys acc) -> P k) ->
  hist_comprehension seas_file els acc = (l, Ok d) ->
  forall k, In k (keys d) -> P k.
Proof.
  intros HP. revert acc. induction els as [| el els IH]; intros acc Hacc Hrun.
  - inversion Hrun; subst. exact Hacc.
  - simpl in Hrun.
    destruct (matches_date_nc (basename el) && negb (String.eqb el seas_file)).
    + destruct (strptime_Ymd (substring 0 8 (basename el))) as [t |];
        [| discriminate].
      apply (IH _ (fun k Hin =>
                     match dict_set_keys_In _ _ _ _ Hin with
                     | or_introl Heq => eq_ind_r P (HP el) Heq
                     | or_intror Hin' => Hacc k Hin'
                     end) Hrun).
    + exact (IH _ Hacc Hrun).
Qed.

(** Every key of the mapping of a build is a path as [abspath] returns
    them, and no key occurs twice. *)
Lemma seas_hist_files_keys `{Externals} (source_path hemisphere seas_file : string)
    (l : list log_record) (files : dict) :
  seas_hist_files_of source_path hemisphere seas_file = (l, Ok files) ->
  NoDup (keys files)
  /\ forall k, In k (keys files) -> exists el, k = abspath el.
Proof.
  unfold seas_hist_files_of. intros Hrun.
  apply bind_ok_inv in Hrun. destruct Hrun as (l1 & d & l2 & Hd & Hret & _).
  inversion Hret; subst. split; [apply dict_of_items_NoDup |].
  intros k Hin. apply fold_dict_set_keys_In in Hin.
  destruct Hin as [[] | Hin].
  apply in_map_iff in Hin. destruct Hin as ([k' v] & <- & Hin).
  apply (proj1 (sorted_In _ _)) in Hin.
  assert (Hnil : forall q, In q (keys []) -> exists el, q = abspath el)
    by (intros q []).
  apply (hist_comprehension_keys (fun q => exists el, q = abspath el)
           _ _ _ _ _ (fun el => ex_intro _ el eq_refl) Hnil Hd).
  change k' with (fst (k', v)). apply in_map, Hin.
Qed.

Lemma index_of_In (l : list string) (p : string) :
  In p l -> exists i, index_of p l = Some i /\ (i < List.length l)%nat.
Proof.
  induction l as [| q l IH]; intros Hin; [destruct Hin |]. simpl.
  destruct (String.eqb_spec q p) as [-> | Hneq].
  - exists O. split; [reflexivity | lia].
  - destruct Hin as [-> | Hin]; [congruence |].
    destruct (IH Hin) as (i & -> & Hi). exists (S i). split; [reflexivity | lia].
Qed.

Lemma dict_get_In (k : string) (d : dict) :
  In k (keys d) -> exists v, dict_get k d = Some v.
Proof.
  induction d as [| [q w] d IH]; intros Hin; [destruct Hin |]. simpl.
  destruct (String.eqb_spec k q) as [-> | Hneq]; [eauto |].
  destruct Hin as [Heq | Hin]; [simpl in Heq; congruence | auto].
Qed.

(** A dataset whose source is a key of the mapping is matched: the hook
    returns a dataset for it, raises nothing and logs at DEBUG level. *)
Lemma strip_overlapping_time_matched `{Externals} (files : dict) (ds : Dataset)
    (source : string) :
  encoding_source ds = Some source ->
  In (abspath source) (keys files) ->
  exists (r : Dataset) (m : message),
    strip_overlapping_time files ds = ([LogRecord DEBUG false m], Ok (Some r)).
Proof.
  intros Hsrc Hin. unfold strip_overlapping_time. rewrite Hsrc, bind_ret_l.
  destruct (index_of_In _ _ Hin) as (idx & -> & Hidx).
  destruct (Z.ltb_spec (Z.of_nat idx) (Z.of_nat (List.length files) - 1)) as [Hlt | Hge].
  - destruct (nth_error (keys files) (idx + 1)) as [k |] eqn:Hk.
    + rewrite bind_ret_l.
      destruct (dict_get_In k files (nth_error_In _ _ Hk)) as (v & ->).
      rewrite bind_ret_l. eexists. eexists. reflexivity.
    + apply nth_error_None in Hk. unfold keys in Hk. rewrite length_map in Hk. lia.
  - eexists. eexists. reflexivity.
Qed.

(** In a corpus build the dataset opened from a key of the mapping is
    always matched, [abspath] leaving a path it returned as it is: the
    branch of the hook for an unmatched file is not taken. *)
Lemma corpus_build_matches_every_file `{Externals}
    (source_path hemisphere seas_file : string) (l : list log_record)
    (files : dict) :
  (forall p, abspath (abspath p) = abspath p) ->
  seas_hist_files_of source_path hemisphere seas_file = (l, Ok files) ->
  forall (p : string) (l' : list log_record) (ds : Dataset),
    In p (keys files) ->
    open_dataset p = (l', Ok ds) ->
    exists (r : Dataset) (m : message),
      strip_overlapping_time files ds = ([LogRecord DEBUG false m], Ok (Some r)).
Proof.
  intros Hidem Hfiles p l' ds Hin Hopen.
  destruct (seas_hist_files_keys _ _ _ _ _ Hfiles) as [_ Habs].
  destruct (Habs p Hin) as (el & ->).
  apply open_dataset_ok_inv in Hopen.
  destruct Hopen as (file & _ & _ & _ & _ & _ & Hsrc).
  apply (strip_overlapping_time_matched files ds _ Hsrc).
  rewrite !Hidem. exact Hin.
Qed.

(** ** The calendar: day numbers follow the civil order *)

Lemma jan1_step (y : Z) :
  days_from_civil (y + 1) 1 1 = days_from_civil y 12 31 + 1.
Proof. unfold days_from_civil. simpl. Z.div_mod_to_equations. lia. Qed.

Lemma jan1_mono (y y' : Z) :
  y <= y' -> days_from_civil y 1 1 <= days_from_civil y' 1 1.
Proof. intros H. unfold days_from_civil. simpl. Z.div_mod_to_equations. lia. Qed.

Lemma month_step (y m : Z) :
  1 <= m < 12 ->
  days_from_civil y (m + 1) 1 = days_from_civil y m (days_in_month y m) + 1.
Proof.
  intros Hm.
  assert (Hcases : m = 1 \/ m = 2 \/ m = 3 \/ m = 4 \/ m = 5 \/ m = 6 \/ m = 7
                   \/ m = 8 \/ m = 9 \/ m = 10 \/ m = 11) by lia.
  repeat (destruct Hcases as [-> | Hcases]); try subst m;
    unfold days_from_civil, days_in_month, is_leap; simpl;
    try (Z.div_mod_to_equations; lia).
  destruct (y mod 4 =? 0) eqn:H4; destruct (y mod 100 =? 0) eqn:H100;
    destruct (y mod 400 =? 0) eqn:H400; simpl;
    rewrite ?Z.eqb_eq, ?Z.eqb_neq in *; Z.div_mod_to_equations; lia.
Qed.

Lemma days_from_civil_day (y m d : Z) :
  days_from_civil y m d = days_from_civil y m 1 + (d - 1).
Proof. unfold days_from_civil. lia. Qed.

Lemma days_in_month_pos (y m : Z) : 28 <= days_in_month y m <= 31.
Proof.
  unfold days_in_month.
  destruct (m =? 2); [destruct (is_leap y); lia |].
  destruct ((m =? 4) || (m =? 6) || (m =? 9) || (m =? 11)); lia.
Qed.

Lemma month_first_lt (y m : Z) (k : nat) :
  1 <= m -> m + 1 + Z.of_nat k <= 12 ->
  days_from_civil y m (days_in_month y m) < days_from_civil y (m + 1 + Z.of_nat k) 1.
Proof.
  intros Hm. induction k as [| k IH]; intros Hk.
  - rewrite Z.add_0_r, month_step by lia. lia.
  - replace (m + 1 + Z.of_nat (S k)) with ((m + 1 + Z.of_nat k) + 1) by lia.
    rewrite month_step by lia.
    rewrite (days_from_civil_day y (m + 1 + Z.of_nat k) (days_in_month _ _)).
    pose proof (days_in_month_pos y (m + 1 + Z.of_nat k)).
    specialize (IH ltac:(lia)). lia.
Qed.

Lemma valid_date_bounds (y m d : Z) :
  valid_date y m d = true ->
  1 <= y <= 9999 /\ 1 <= m <= 12 /\ 1 <= d <= days_in_month y m.
Proof.
  unfold valid_date. rewrite !andb_true_iff, !Z.leb_le. lia.
Qed.

(** The day number grows with the civil date. *)
Lemma days_from_civil_lt (y m d y' m' d' : Z) :
  valid_date y m d = true -> valid_date y' m' d' = true ->
  y < y' \/ (y = y' /\ (m < m' \/ (m = m' /\ d < d'))) ->
  days_from_civil y m d < days_from_civil y' m' d'.
Proof.
  intros Hv Hv' Hlt.
  apply valid_date_bounds in Hv, Hv'.
  assert (Hsame : forall yy a b da db,
             1 <= a -> a < b -> b <= 12 -> da <= days_in_month yy a -> 1 <= db ->
             days_from_civil yy a da < days_from_civil yy b db).
  { intros yy a b da db Ha Hab Hb Hda Hdb.
    pose proof (month_first_lt yy a (Z.to_nat (b - a - 1)) Ha) as Hm.
    replace (a + 1 + Z.of_nat (Z.to_nat (b - a - 1))) with b in Hm by lia.
    specialize (Hm ltac:(lia)).
    rewrite (days_from_civil_day yy a da), (days_from_civil_day yy b db).
    rewrite (days_from_civil_day yy a (days_in_month yy a)) in Hm. lia. }
  assert (Hjan : forall yy a da, 1 <= a <= 12 -> 1 <= da ->
                                 days_from_civil yy 1 1 <= days_from_civil yy a da).
  { intros yy a da Ha Hda.
    destruct (Z.eq_dec a 1) as [-> | Hne].
    - rewrite (days_from_civil_day yy 1 da). lia.
    - pose proof (days_in_month_pos yy 1).
      specialize (Hsame yy 1 a 1 da ltac:(lia) ltac:(lia) ltac:(lia) ltac:(lia) Hda).
      lia. }
  assert (Hdec : forall yy a da, 1 <= a <= 12 -> da <= days_in_month yy a ->
                                 days_from_civil yy a da <= days_from_civil yy 12 31).
  { intros yy a da Ha Hda.
    destruct (Z.eq_dec a 12) as [-> | Hne].
    - rewrite (days_from_civil_day yy 12 da), (days_from_civil_day yy 12 31).
      pose proof (days_in_month_pos yy 12). lia.
    - specialize (Hsame yy a 12 da 31 ltac:(lia) ltac:(lia) ltac:(lia) Hda ltac:(lia)).
      lia. }
  destruct Hlt as [Hy | [-> [Hmm | [-> Hd]]]].
  - pose proof (Hdec y m d ltac:(lia) ltac:(lia)).
    pose proof (jan1_step y). pose proof (jan1_mono (y + 1) y' ltac:(lia)).
    pose proof (Hjan y' m' d' ltac:(lia) ltac:(lia)). lia.
  - apply Hsame; lia.
  - rewrite (days_from_civil_day y' m' d), (days_from_civil_day y' m' d'). lia.
Qed.

(** ** File names that spell a date *)

Lemma ascii_compare_refl (c : ascii) : Ascii.compare c c = Eq.
Proof. unfold Ascii.compare. apply N.compare_refl. Qed.

Lemma string_compare_refl (s : string) : String.compare s s = Eq.
Proof.
  induction s as [| c s IH]; [reflexivity |].
  simpl. now rewrite ascii_compare_refl.
Qed.

Lemma compare_app_prefix (p a b : string) :
  String.compare (p ++ a) (p ++ b) = String.compare a b.
Proof.
  induction p as [| c p IH]; [reflexivity |].
  simpl. now rewrite ascii_compare_refl.
Qed.

Lemma ascii_compare_digit_val (a b : ascii) :
  Ascii.compare a b = (digit_val a ?= digit_val b).
Proof.
  unfold Ascii.compare, digit_val, nat_of_ascii.
  destruct (N.compare_spec (N_of_ascii a) (N_of_ascii b));
    destruct (Z.compare_spec (Z.of_nat (N.to_nat (N_of_ascii a)) - 48)
                             (Z.of_nat (N.to_nat (N_of_ascii b)) - 48));
    try reflexivity; lia.
Qed.

Lemma ascii_compare_eq (a b : ascii) : Ascii.compare a b = Eq -> a = b.
Proof.
  unfold Ascii.compare. intros H. apply N.compare_eq in H.
  rewrite <- (ascii_N_embedding a), <- (ascii_N_embedding b). now rewrite H.
Qed.

Lemma is_digit_bounds (c : ascii) : is_digit c = true -> 0 <= digit_val c <= 9.
Proof.
  unfold is_digit, digit_val. rewrite andb_true_iff, !Nat.leb_le. lia.
Qed.

(** [strptime_Ymd] on eight characters written out. *)
Lemma strptime_Ymd_chars (a1 a2 a3 a4 a5 a6 a7 a8 : ascii) :
  strptime_Ymd
    (String a1 (String a2 (String a3 (String a4
       (String a5 (String a6 (String a7 (String a8 ""))))))))
  = if is_digit a1 && (is_digit a2 && (is_digit a3 && (is_digit a4
         && (is_digit a5 && (is_digit a6 && (is_digit a7
         && (is_digit a8 && true)))))))
    then
      let y := 10 * (10 * (10 * (10 * 0 + digit_val a1) + digit_val a2)
                     + digit_val a3) + digit_val a4 in
      let m := 10 * (10 * 0 + digit_val a5) + digit_val a6 in
      let d := 10 * (10 * 0 + digit_val a7) + digit_val a8 in
      if valid_date y m d then Some (midnight y m d) else None
    else None.
Proof. reflexivity. Qed.

Lemma midnight_lt (y m d y' m' d' : Z) :
  days_from_civil y m d < days_from_civil y' m' d' ->
  midnight y m d < midnight y' m' d'.
Proof. unfold midnight, ns_per_day. lia. Qed.

(** File names made of a date compare as their dates do. *)
Lemma date_names_compare (pre rest : string)
    (a1 a2 a3 a4 a5 a6 a7 a8 b1 b2 b3 b4 b5 b6 b7 b8 : ascii)
    (va vb : datetime) :
  strptime_Ymd (name_of a1 a2 a3 a4 a5 a6 a7 a8 "") = Some va ->
  strptime_Ymd (name_of b1 b2 b3 b4 b5 b6 b7 b8 "") = Some vb ->
  match String.compare (pre ++ name_of a1 a2 a3 a4 a5 a6 a7 a8 rest)
                       (pre ++ name_of b1 b2 b3 b4 b5 b6 b7 b8 rest) with
  | Lt => va < vb
  | Gt => vb < va
  | Eq => name_of a1 a2 a3 a4 a5 a6 a7 a8 rest = name_of b1 b2 b3 b4 b5 b6 b7 b8 rest
          /\ va = vb
  end.
Proof.
  unfold name_of. rewrite !strptime_Ymd_chars, compare_app_prefix.
  destruct (is_digit a1) eqn:A1; [| discriminate].
  destruct (is_digit a2) eqn:A2; [| discriminate].
  destruct (is_digit a3) eqn:A3; [| discriminate].
  destruct (is_digit a4) eqn:A4; [| discriminate].
  destruct (is_digit a5) eqn:A5; [| discriminate].
  destruct (is_digit a6) eqn:A6; [| discriminate].
  destruct (is_digit a7) eqn:A7; [| discriminate].
  destruct (is_digit a8) eqn:A8; [| discriminate].
  destruct (is_digit b1) eqn:B1; [| discriminate].
  destruct (is_digit b2) eqn:B2; [| discriminate].
  destruct (is_digit b3) eqn:B3; [| discriminate].
  destruct (is_digit b4) eqn:B4; [| discriminate].
  destruct (is_digit b5) eqn:B5; [| discriminate].
  destruct (is_digit b6) eqn:B6; [| discriminate].
  destruct (is_digit b7) eqn:B7; [| discriminate].
  destruct (is_digit b8) eqn:B8; [| discriminate].
  apply is_digit_bounds in A1, A2, A3, A4, A5, A6, A7, A8,
    B1, B2, B3, B4, B5, B6, B7, B8.
  cbv zeta. cbn [andb].
  set (ya := 10 * (10 * (10 * (10 * 0 + digit_val a1) + digit_val a2)
                   + digit_val a3) + digit_val a4).
  set (ma := 10 * (10 * 0 + digit_val a5) + digit_val a6).
  set (da := 10 * (10 * 0 + digit_val a7) + digit_val a8).
  set (yb := 10 * (10 * (10 * (10 * 0 + digit_val b1) + digit_val b2)
                   + digit_val b3) + digit_val b4).
  set (mb := 10 * (10 * 0 + digit_val b5) + digit_val b6).
  set (db := 10 * (10 * 0 + digit_val b7) + digit_val b8).
  destruct (valid_date ya ma da) eqn:Va; [| discriminate].
  destruct (valid_date yb mb db) eqn:Vb; [| discriminate].
  intros Ha Hb. inversion Ha; inversion Hb; subst va vb. clear Ha Hb.
  assert (Hlt : ya < yb \/ (ya = yb /\ (ma < mb \/ (ma = mb /\ da < db))) ->
                midnight ya ma da < midnight yb mb db)
    by (intros; apply midnight_lt, days_from_civil_lt; assumption).
  assert (Hgt : yb < ya \/ (yb = ya /\ (mb < ma \/ (mb = ma /\ db < da))) ->
                midnight yb mb db < midnight ya ma da)
    by (intros; apply midnight_lt, days_from_civil_lt; assumption).
  cbn [String.compare]. rewrite !ascii_compare_digit_val.
  destruct (Z.compare_spec (digit_val a1) (digit_val b1)) as [E1 | L1 | G1];
    [| apply Hlt; subst ya yb ma mb da db; lia
     | apply Hgt; subst ya yb ma mb da db; lia].
  destruct (Z.compare_spec (digit_val a2) (digit_val b2)) as [E2 | L2 | G2];
    [| apply Hlt; subst ya yb ma mb da db; lia
     | apply Hgt; subst ya yb ma mb da db; lia].
  destruct (Z.compare_spec (digit_val a3) (digit_val b3)) as [E3 | L3 | G3];
    [| apply Hlt; subst ya yb ma mb da db; lia
     | apply Hgt; subst ya yb ma mb da db; lia].
  destruct (Z.compare_spec (digit_val a4) (digit_val b4)) as [E4 | L4 | G4];
    [| apply Hlt; subst ya yb ma mb da db; lia
     | apply Hgt; subst ya yb ma mb da db; lia].
  destruct (Z.compare_spec (digit_val a5) (digit_val b5)) as [E5 | L5 | G5];
    [| apply Hlt; subst ya yb ma mb da db; lia
     | apply Hgt; subst ya yb ma mb da db; lia].
  destruct (Z.compare_spec (digit_val a6) (digit_val b6)) as [E6 | L6 | G6];
    [| apply Hlt; subst ya yb ma mb da db; lia
     | apply Hgt; subst ya yb ma mb da db; lia].
  destruct (Z.compare_spec (digit_val a7) (digit_val b7)) as [E7 | L7 | G7];
    [| apply Hlt; subst ya yb ma mb da db; lia
     | apply Hgt; subst ya yb ma mb da db; lia].
  destruct (Z.compare_spec (digit_val a8) (digit_val b8)) as [E8 | L8 | G8];
    [| apply Hlt; subst ya yb ma mb da db; lia
     | apply Hgt; subst ya yb ma mb da db; lia].
  assert (Hchars : forall a b, digit_val a = digit_val b -> a = b).
  { intros a b Hab. apply ascii_compare_eq. rewrite ascii_compare_digit_val, Hab.
    apply Z.compare_refl. }
  apply Hchars in E1, E2, E3, E4, E5, E6, E7, E8. subst.
  rewrite string_compare_refl.
  split; [reflexivity |].
  subst ya yb ma mb da db. reflexivity.
Qed.

(** ** The mapping of a build is sorted by issuance date *)

Lemma substring_all (s : string) : substring 0 (String.length s) s = s.
Proof. induction s as [| c s IH]; [reflexivity |]. simpl. now rewrite IH. Qed.

(** A name that passes both the glob pattern and the regular expression
    is eight characters followed by [.nc]. *)
Lemma date_name_shape (name : string) :
  matches_star_nc name = true -> matches_date_nc name = true ->
  exists a1 a2 a3 a4 a5 a6 a7 a8 : ascii,
    name = name_of a1 a2 a3 a4 a5 a6 a7 a8 ".nc".
Proof.
  intros Hstar Hdate. unfold matches_date_nc in Hdate.
  apply andb_true_iff in Hdate. destruct Hdate as [Hdate Hlen].
  apply andb_true_iff in Hdate. destruct Hdate as [_ Hrest].
  apply Nat.leb_le in Hlen.
  destruct name as [| a1 name]; [simpl in Hlen; lia |].
  destruct name as [| a2 name]; [simpl in Hlen; lia |].
  destruct name as [| a3 name]; [simpl in Hlen; lia |].
  destruct name as [| a4 name]; [simpl in Hlen; lia |].
  destruct name as [| a5 name]; [simpl in Hlen; lia |].
  destruct name as [| a6 name]; [simpl in Hlen; lia |].
  destruct name as [| a7 name]; [simpl in Hlen; lia |].
  destruct name as [| a8 name]; [simpl in Hlen; lia |].
  exists a1, a2, a3, a4, a5, a6, a7, a8. unfold name_of. repeat f_equal.
  simpl in Hrest. rewrite Nat.sub_0_r, substring_all in Hrest.
  apply orb_true_iff in Hrest. destruct Hrest as [Hrest | Hrest];
    apply String.eqb_eq in Hrest; [exact Hrest |].
  subst name. vm_compute in Hstar. discriminate.
Qed.

(** *** Insertion into a list sorted by date *)

Lemma insert_item_sorted (x : string * datetime) (l : list (string * datetime)) :
  (forall y, In y l -> item_ltb x y = (snd x <? snd y) /\ snd x <> snd y) ->
  StronglySorted Z.lt (map snd l) ->
  StronglySorted Z.lt (map snd (insert_item x l)).
Proof.
  induction l as [| y l IH]; intros Hx Hs; simpl.
  - constructor; constructor.
  - inversion Hs as [| ? ? Hs' Hall]; subst.
    destruct (Hx y (or_introl eq_refl)) as [Hxy Hne]. rewrite Hxy.
    destruct (Z.ltb_spec (snd x) (snd y)) as [Hlt | Hge]; simpl.
    + constructor; [exact Hs |]. constructor; [exact Hlt |].
      rewrite Forall_forall in *. intros z Hz. specialize (Hall z Hz). lia.
    + constructor.
      * apply IH; [| exact Hs']. intros z Hz. apply Hx. now right.
      * rewrite Forall_forall in *. intros z Hz.
        apply in_map_iff in Hz. destruct Hz as (w & <- & Hw).
        apply insert_item_In in Hw. destruct Hw as [-> | Hw].
        -- lia.
        -- apply Hall. now apply in_map.
Qed.

Lemma insert_item_perm (x : string * datetime) (l : list (string * datetime)) :
  Permutation (insert_item x l) (x :: l).
Proof.
  induction l as [| y l IH]; simpl; [reflexivity |].
  destruct (item_ltb x y); [reflexivity |].
  rewrite IH. apply perm_swap.
Qed.

Lemma fold_insert_item_perm (items acc : list (string * datetime)) :
  Permutation (fold_left (fun a y => insert_item y a) items acc) (acc ++ items).
Proof.
  revert acc. induction items as [| y items IH]; intros acc; simpl.
  - now rewrite app_nil_r.
  - rewrite IH, insert_item_perm. apply Permutation_middle.
Qed.

Lemma sorted_perm (items : list (string * datetime)) :
  Permutation (sorted items) items.
Proof. unfold sorted. apply fold_insert_item_perm. Qed.

Lemma fold_insert_item_sorted (items acc : list (string * datetime)) :
  (forall a b, In a (acc ++ items) -> In b (acc ++ items) -> fst a <> fst b ->
               item_ltb a b = (snd a <? snd b) /\ snd a <> snd b) ->
  NoDup (map fst (acc ++ items)) ->
  StronglySorted Z.lt (map snd acc) ->
  StronglySorted Z.lt (map snd (fold_left (fun a y => insert_item y a) items acc)).
Proof.
  revert acc. induction items as [| x items IH]; intros acc Hgood Hnd Hs;
    [exact Hs |].
  simpl. apply IH.
  - intros a b Ha Hb. apply Hgood.
    + apply in_app_iff in Ha. destruct Ha as [Ha | Ha].
      * apply insert_item_In in Ha. destruct Ha as [-> | Ha];
          apply in_app_iff; [right; now left | now left].
      * apply in_app_iff. right. now right.
    + apply in_app_iff in Hb. destruct Hb as [Hb | Hb].
      * apply insert_item_In in Hb. destruct Hb as [-> | Hb];
          apply in_app_iff; [right; now left | now left].
      * apply in_app_iff. right. now right.
  - eapply Permutation_NoDup; [| exact Hnd].
    apply Permutation_map. rewrite insert_item_perm.
    symmetry. apply Permutation_middle.
  - apply insert_item_sorted; [| exact Hs].
    intros y Hy. apply Hgood.
    + apply in_app_iff. right. now left.
    + apply in_app_iff. now left.
    + rewrite map_app in Hnd. simpl in Hnd.
      apply NoDup_remove_2 in Hnd. intros Heq. apply Hnd.
      apply in_app_iff. left. rewrite Heq. now apply in_map.
Qed.

(** *** A dictionary built from items with distinct keys *)

Lemma dict_set_fresh (k : string) (v : datetime) (d : dict) :
  ~ In k (keys d) -> dict_set k v d = d ++ [(k, v)].
Proof.
  induction d as [| [q w] d IH]; intros Hnotin; [reflexivity |]. simpl.
  destruct (String.eqb_spec k q) as [-> | Hneq].
  - exfalso. apply Hnotin. now left.
  - rewrite IH; [reflexivity |]. intros Hin. apply Hnotin. now right.
Qed.

Lemma fold_dict_set_fresh (items : list (string * datetime)) (acc : dict) :
  NoDup (map fst (acc ++ items)) ->
  fold_left (fun d kv => dict_set (fst kv) (snd kv) d) items acc = acc ++ items.
Proof.
  revert acc. induction items as [| [k v] items IH]; intros acc Hnd; simpl.
  - now rewrite app_nil_r.
  - rewrite dict_set_fresh.
    + rewrite IH; [now rewrite <- app_assoc |].
      now rewrite <- app_assoc.
    + rewrite map_app in Hnd. simpl in Hnd. apply NoDup_remove_2 in Hnd.
      intros Hin. apply Hnd. apply in_app_iff. now left.
Qed.

Lemma dict_of_items_distinct (items : list (string * datetime)) :
  NoDup (map fst items) -> dict_of_items items = items.
Proof. intros Hnd. unfold dict_of_items. now rewrite fold_dict_set_fresh. Qed.

(** *** The items of the comprehension *)

Lemma dict_set_In (k : string) (v : datetime) (d : dict) (kv : string * datetime) :
  In kv (dict_set k v d) -> kv = (k, v) \/ In kv d.
Proof.
  induction d as [| [q w] d IH]; simpl.
  - intros [<- | []]. now left.
  - destruct (String.eqb_spec k q) as [-> | Hneq]; simpl.
    + intros [<- | Hin]; [now left | right; now right].
    + intros [<- | Hin]; [right; now left |].
      destruct (IH Hin) as [-> | Hin']; [now left | right; now right].
Qed.

Lemma hist_comprehension_items `{Externals} (dir absdir seas_file : string)
    (names : list string) (acc d : dict) (l : list log_record) :
  (forall name, In name names ->
                matches_star_nc name = true
                /\ basename (join dir name) = name
                /\ abspath (join dir name) = (absdir ++ name)%string) ->
  NoDup (keys acc) ->
  (forall kv, In kv acc -> dated_entry absdir kv) ->
  hist_comprehension seas_file (map (join dir) names) acc = (l, Ok d) ->
  NoDup (keys d) /\ forall kv, In kv d -> dated_entry absdir kv.
Proof.
  revert acc. induction names as [| name names IH]; intros acc Hnames Hnd Hacc Hrun.
  - inversion Hrun; subst. split; assumption.
  - simpl in Hrun.
    destruct (Hnames name (or_introl eq_refl)) as (Hstar & Hbase & Habs).
    assert (Hrest : forall n, In n names ->
                      matches_star_nc n = true
                      /\ basename (join dir n) = n
                      /\ abspath (join dir n) = (absdir ++ n)%string)
      by (intros n Hn; apply Hnames; now right).
    rewrite Hbase, Habs in Hrun.
    destruct (matches_date_nc name) eqn:Hdate; simpl in Hrun;
      [| exact (IH acc Hrest Hnd Hacc Hrun)].
    destruct (negb (String.eqb (join dir name) seas_file));
      [| exact (IH acc Hrest Hnd Hacc Hrun)].
    destruct (strptime_Ymd (substring 0 8 name)) as [t |] eqn:Ht;
      [| discriminate].
    apply (IH _ Hrest (dict_set_keys_NoDup (absdir ++ name) t acc Hnd));
      [| exact Hrun].
    intros kv Hin. apply dict_set_In in Hin. destruct Hin as [-> | Hin].
    + exists name. auto.
    + apply Hacc, Hin.
Qed.

(** Two dated entries with different keys are ordered by their dates. *)
Lemma dated_entries_ordered (absdir : string) (a b : string * datetime) :
  dated_entry absdir a -> dated_entry absdir b -> fst a <> fst b ->
  item_ltb a b = (snd a <? snd b) /\ snd a <> snd b.
Proof.
  intros (na & Hsa & Hda & Hka & Hva) (nb & Hsb & Hdb & Hkb & Hvb) Hneq.
  destruct (date_name_shape na Hsa Hda) as (a1 & a2 & a3 & a4 & a5 & a6 & a7 & a8 & ->).
  destruct (date_name_shape nb Hsb Hdb) as (b1 & b2 & b3 & b4 & b5 & b6 & b7 & b8 & ->).
  change (substring 0 8 (name_of a1 a2 a3 a4 a5 a6 a7 a8 ".nc"))
    with (name_of a1 a2 a3 a4 a5 a6 a7 a8 "") in Hva.
  change (substring 0 8 (name_of b1 b2 b3 b4 b5 b6 b7 b8 ".nc"))
    with (name_of b1 b2 b3 b4 b5 b6 b7 b8 "") in Hvb.
  pose proof (date_names_compare absdir ".nc" _ _ _ _ _ _ _ _ _ _ _ _ _ _ _ _ _ _
                Hva Hvb) as Hcmp.
  unfold item_ltb. rewrite Hka, Hkb in *.
  destruct (String.compare _ _).
  - destruct Hcmp as [Hnames _]. exfalso. apply Hneq. now rewrite Hnames.
  - split; [symmetry; apply Z.ltb_lt; exact Hcmp | lia].
  - split; [symmetry; apply Z.ltb_ge; lia | lia].
Qed.

(** The mapping and the hook in a build over one directory, read as
    follows: its entries are plain names, [abspath] places them under one
    absolute directory, and [abspath] leaves its own results alone. *)
Section CorpusBuild.

Context `{Externals}.

Variables source_path hemisphere absdir : string.

Let dir : string := join (join source_path hemisphere) "siconca".

Hypothesis directory_entries :
  forall name, In name (listdir dir) ->
               basename (join dir name) = name
               /\ abspath (join dir name) = (absdir ++ name)%string.

Hypothesis abspath_idempotent : forall p, abspath (abspath p) = abspath p.

(** The mapping of a build has no key twice and is sorted by issuance
    date. *)
Lemma seas_hist_files_sorted (seas_file : string) (l : list log_record)
    (files : dict) :
  seas_hist_files_of source_path hemisphere seas_file = (l, Ok files) ->
  NoDup (keys files) /\ sorted_by_date files.
Proof.
  intros Hrun. unfold seas_hist_files_of in Hrun.
  apply bind_ok_inv in Hrun. destruct Hrun as (l1 & d & l2 & Hd & Hret & _).
  inversion Hret; subst. clear Hret. unfold glob_star_nc in Hd.
  apply (hist_comprehension_items _ absdir) in Hd.
  - destruct Hd as [Hnd Hitems].
    assert (Hnd' : NoDup (map fst (sorted d))).
    { eapply Permutation_NoDup; [| exact Hnd].
      apply Permutation_map. symmetry. apply sorted_perm. }
    rewrite (dict_of_items_distinct _ Hnd'). split; [exact Hnd' |].
    unfold sorted_by_date, sorted. apply fold_insert_item_sorted.
    + simpl. intros a b Ha Hb. apply (dated_entries_ordered absdir); auto.
    + exact Hnd.
    + constructor.
  - intros name Hin. apply filter_In in Hin. destruct Hin as [Hin Hstar].
    destruct (directory_entries name Hin). auto.
  - constructor.
  - intros kv [].
Qed.

(** The dataset opened from entry [i] of the mapping is clipped to the
    day before the issuance date of entry [i + 1], which is later than
    its own, and the dataset opened from the last entry is kept whole. *)
Lemma corpus_build_windows (seas_file : string) (l : list log_record)
    (files : dict) :
  seas_hist_files_of source_path hemisphere seas_file = (l, Ok files) ->
  forall (i : nat) (p : string) (d : datetime) (l' : list log_record)
         (ds : Dataset),
    nth_error files i = Some (p, d) ->
    open_dataset p = (l', Ok ds) ->
    match nth_error files (S i) with
    | Some (_, d') =>
        outcome (strip_overlapping_time files ds)
        = Ok (Some (sel_time None (Some (d' - timedelta_days 1)) ds))
        /\ d < d'
    | None => outcome (strip_overlapping_time files ds) = Ok (Some ds)
    end.
Proof.
  intros Hfiles i p d l' ds Hi Hopen.
  destruct (seas_hist_files_sorted _ _ _ Hfiles) as [Hnd Hsorted].
  destruct (seas_hist_files_keys _ _ _ _ _ Hfiles) as [_ Habs].
  assert (Hp : abspath p = p).
  { destruct (Habs p) as (el & ->); [| apply abspath_idempotent].
    change p with (fst (p, d)). apply in_map. eapply nth_error_In, Hi. }
  apply open_dataset_ok_inv in Hopen.
  destruct Hopen as (file & _ & _ & _ & _ & _ & Hsrc). rewrite Hp in Hsrc.
  destruct (nth_error files (S i)) as [[p' d'] |] eqn:Hi'.
  - rewrite (strip_overlapping_time_clipped files ds p i p p' d d'); auto.
    split; [reflexivity |].
    assert (Hd : nth_error (map snd files) i = Some d)
      by (rewrite nth_error_map, Hi; reflexivity).
    assert (Hd' : nth_error (map snd files) (S i) = Some d')
      by (rewrite nth_error_map, Hi'; reflexivity).
    exact (proj1 (sorted_next_later _ _ _ _ Hsorted Hd Hd')).
  - rewrite (strip_overlapping_time_last files ds p i p d); auto.
Qed.

End CorpusBuild.

(** The directory of the concrete installation read that way: the mapping
    built for the forecast issued 2022-06-01 is the one of Scenario D. *)
Example scenario_build_mapping :
  seas_hist_files_of default_source_path "north"
    (seas_file_of default_source_path "north" (midnight 2022 6 1))
  = ret scenario_d_files.
Proof. vm_compute. reflexivity. Qed.

Example scenario_directory_entries (name : string) :
    In name (listdir (join (join default_source_path "north") "siconca")) ->
    basename (join (join (join default_source_path "north") "siconca") name) = name
    /\ abspath (join (join (join default_source_path "north") "siconca") name)
       = ("/srv/icenet/data/mars.seas/north/siconca/" ++ name)%string.
Proof.
  intros Hin. vm_compute in Hin.
  repeat (destruct Hin as [<- | Hin]; [split; vm_compute; reflexivity |]).
  destruct Hin.
Qed.

Lemma join_cwd_absolute (x : string) : prefix "/" (join cwd x) = true.
Proof.
  unfold join. change sep with "/". destruct (prefix "/" x) eqn:Hx; [exact Hx |].
  destruct x; reflexivity.
Qed.

(** What [abspath_in] returns is an absolute path. *)
Lemma abspath_in_absolute (p : string) : prefix "/" (abspath_in cwd p) = true.
Proof.
  unfold abspath_in. destruct (prefix "/" p) eqn:Hp; [exact Hp |].
  destruct (prefix "./" p); apply join_cwd_absolute.
Qed.

(** Hence the windows of that build, entry by entry. *)
Example scenario_build_windows :
  forall (i : nat) (p : string) (d : datetime) (l' : list log_record)
         (ds : Dataset),
    nth_error scenario_d_files i = Some (p, d) ->
    open_dataset p = (l', Ok ds) ->
    match nth_error scenario_d_files (S i) with
    | Some (_, d') =>
        outcome (strip_overlapping_time scenario_d_files ds)
        = Ok (Some (sel_time None (Some (d' - timedelta_days 1)) ds))
        /\ d < d'
    | None => outcome (strip_overlapping_time scenario_d_files ds) = Ok (Some ds)
    end.
Proof.
  apply (corpus_build_windows default_source_path "north"
           "/srv/icenet/data/mars.seas/north/siconca/"
           scenario_directory_entries)
    with (seas_file := seas_file_of default_source_path "north" (midnight 2022 6 1))
         (l := []).
  - intros p. unfold abspath. simpl.
    unfold abspath_in at 1. now rewrite abspath_in_absolute.
  - exact scenario_build_mapping.
Qed.

(** An unmatched dataset in the concrete installation: one opened from a
    path that is no key of the mapping. *)
Example scenario_unmatched :
  strip_overlapping_time scenario_d_files (opened_seas (midnight 2022 6 1) 0.625%float)
  = ([LogRecord ERROR true
        (Fmt not_in_template
           [AStr "/srv/icenet/data/mars.seas/north/siconca/20220601.nc";
            AFiles scenario_d_files])],
     Ok None).
Proof. vm_compute. reflexivity. Qed.

Import Cases.

(** * Further properties *)

(** ** [get_obs_da]: what is returned and what is logged *)

Lemma mapM_log_nil {A B} (f : A -> M B) (l : list A) :
  (forall a, log_of (f a) = []) -> log_of (mapM f l) = [].
Proof.
  intros Hf. induction l as [| a l IH]; [reflexivity |].
  simpl. unfold bind. specialize (Hf a). unfold log_of in *.
  destruct (f a) as [l1 [b | e]]; simpl in Hf; subst l1; [| reflexivity].
  destruct (mapM f l) as [l2 [bs | e]]; simpl in *; subst l2; reflexivity.
Qed.

Lemma open_dataset_log `{Externals} (p : string) : log_of (open_dataset p) = [].
Proof. unfold open_dataset. destruct (open_file p); reflexivity. Qed.

(** Opening several files without a hook logs nothing. *)
Lemma open_mfdataset_log `{Externals} (paths : list string) :
  log_of (open_mfdataset paths None) = [].
Proof.
  unfold open_mfdataset. destruct paths as [| p ps]; [reflexivity |].
  pose proof (mapM_log_nil open_dataset (p :: ps) open_dataset_log) as Hlog.
  unfold bind, log_of in *.
  destruct (mapM open_dataset (p :: ps)) as [l1 [dss | e]]; simpl in Hlog; subst l1;
    [| reflexivity].
  simpl. destruct (combine_by_coords (map Some dss)); reflexivity.
Qed.

(** The yearly files found are the existing ones among the files of the
    years of the range, in the order of the years. *)
Lemma obs_files_found `{Externals} (obs_source hemisphere : string) (years : list Z) :
  flat_map (fun yr => glob_literal (obs_year_file obs_source hemisphere yr)) years
  = filter file_exists (map (obs_year_file obs_source hemisphere) years).
Proof.
  induction years as [| y ys IH]; [reflexivity |].
  simpl. rewrite IH. unfold glob_literal, file_exists.
  destruct (open_file (obs_year_file obs_source hemisphere y)); reflexivity.
Qed.

Lemma filter_length_lt {A} (f : A -> bool) (l : list A) :
  (List.length (filter f l) <? List.length l)%nat = negb (forallb f l).
Proof.
  induction l as [| a l IH]; [reflexivity |].
  pose proof (filter_length_le f l) as Hle. simpl.
  destruct (f a); simpl.
  - exact IH.
  - apply Nat.ltb_lt. lia.
Qed.

(** X1. A series [get_obs_da] returns has every one of its times within
    the range asked for, and the loader returns only if the yearly file of
    at least one year of the range exists. *)
Theorem get_obs_da_returned_series `{Externals} (hemisphere : string)
    (start_date end_date : datetime) (obs_source : string)
    (l : list log_record) (da : DataArray) :
  get_obs_da hemisphere start_date end_date obs_source = (l, Ok da) ->
  Forall (fun t => start_date <= t <= end_date) (da_time da)
  /\ exists yr, In yr (obs_years start_date end_date)
                /\ file_exists (obs_year_file obs_source hemisphere yr) = true.
Proof.
  intros Hrun. split.
  - apply Forall_forall. exact (get_obs_da_within_range _ _ _ _ _ _ Hrun).
  - unfold get_obs_da in Hrun. rewrite obs_files_found in Hrun.
    apply bind_ok_inv in Hrun. destruct Hrun as (l1 & [] & l2 & _ & Hrun & _).
    apply bind_ok_inv in Hrun. destruct Hrun as (l3 & [] & l4 & _ & Hrun & _).
    apply bind_ok_inv in Hrun. destruct Hrun as (l5 & obs_ds & l6 & Hopen & _ & _).
    destruct (filter file_exists
                (map (obs_year_file obs_source hemisphere)
                   (obs_years start_date end_date))) as [| p ps] eqn:Hfound;
      [discriminate |].
    assert (Hin : In p (filter file_exists
                          (map (obs_year_file obs_source hemisphere)
                             (obs_years start_date end_date))))
      by (rewrite Hfound; now left).
    apply filter_In in Hin. destruct Hin as [Hin Hex].
    apply in_map_iff in Hin. destruct Hin as (yr & <- & Hyr).
    exists yr. split; assumption.
Qed.

(** Three days of January 2022 from the archive of that year. *)
Lemma get_obs_da_returned_series_witness :
  get_obs_da "north" (midnight 2022 1 5) (midnight 2022 1 7) default_obs_source
  = ([LogRecord INFO false
        (Fmt "Got files: {}" [APaths ["./data/osisaf/north/siconca/2022.nc"]])],
     Ok (obs_on (days_from (midnight 2022 1 5) 3)))
  /\ Forall (fun t => midnight 2022 1 5 <= t <= midnight 2022 1 7)
       (da_time (obs_on (days_from (midnight 2022 1 5) 3)))
  /\ exists yr, In yr (obs_years (midnight 2022 1 5) (midnight 2022 1 7))
                /\ file_exists (obs_year_file default_obs_source "north" yr) = true.
Proof.
  assert (Hrun : get_obs_da "north" (midnight 2022 1 5) (midnight 2022 1 7)
                   default_obs_source
                 = ([LogRecord INFO false
                       (Fmt "Got files: {}"
                          [APaths ["./data/osisaf/north/siconca/2022.nc"]])],
                    Ok (obs_on (days_from (midnight 2022 1 5) 3))))
    by (vm_compute; reflexivity).
  split; [exact Hrun |].
  exact (@get_obs_da_returned_series world _ _ _ _ _ _ Hrun).
Defined.

(** X2. What [get_obs_da] logs, whether it returns or raises: the
    missing-files warning exactly when the file of some year of the range
    does not exist, then one INFO record listing the files that do exist,
    in the order of the years; nothing else. *)
Theorem get_obs_da_log `{Externals} (hemisphere : string)
    (start_date end_date : datetime) (obs_source : string) :
  log_of (get_obs_da hemisphere start_date end_date obs_source)
  = (if forallb file_exists
          (map (obs_year_file obs_source hemisphere)
             (obs_years start_date end_date))
     then []
     else [LogRecord WARNING false
             (Fmt "Cannot find all obs source files for {} - {} in {}"
                [ADate start_date; ADate end_date; AStr obs_source])])
    ++ [LogRecord INFO false
          (Fmt "Got files: {}"
             [APaths (filter file_exists
                        (map (obs_year_file obs_source hemisphere)
                           (obs_years start_date end_date)))])].
Proof.
  unfold get_obs_da. rewrite obs_files_found.
  set (paths := map (obs_year_file obs_source hemisphere)
                  (obs_years start_date end_date)).
  replace (List.length (obs_years start_date end_date))
    with (List.length paths) by (subst paths; apply length_map).
  rewrite filter_length_lt.
  pose proof (open_mfdataset_log (filter file_exists paths)) as Hlog.
  unfold log_of in *.
  destruct (open_mfdataset (filter file_exists paths) None) as [l1 [ds | e]];
    simpl in Hlog; subst l1.
  - destruct (forallb file_exists paths); unfold bind, getvar; simpl;
      destruct (lookup_var "ice_conc"
                  (map (fun '(n, a) =>
                          (n, mask (map (in_slice (Some start_date) (Some end_date))
                                      (time ds)) a))
                     (data_vars ds)));
      reflexivity.
  - destruct (forallb file_exists paths); reflexivity.
Qed.

(** ** [filter_ds_by_obs]: edges and composition *)

Lemma fold_min_In (xs : list Z) (x : Z) :
  fold_left Z.min xs x = x \/ In (fold_left Z.min xs x) xs.
Proof.
  revert x. induction xs as [| y ys IH]; intros x; simpl; [now left |].
  destruct (IH (Z.min x y)) as [Heq | Hin]; [| right; now right].
  rewrite Heq. destruct (Z.min_spec x y) as [[_ ->] | [_ ->]];
    [now left | right; now left].
Qed.

Lemma fold_max_In (xs : list Z) (x : Z) :
  fold_left Z.max xs x = x \/ In (fold_left Z.max xs x) xs.
Proof.
  revert x. induction xs as [| y ys IH]; intros x; simpl; [now left |].
  destruct (IH (Z.max x y)) as [Heq | Hin]; [| right; now right].
  rewrite Heq. destruct (Z.max_spec x y) as [[_ ->] | [_ ->]];
    [right; now left | now left].
Qed.

Lemma lead_lo_hi_attained (ds : ForecastDataset) :
  leadtime ds <> [] -> In (lead_lo ds) (leadtime ds) /\ In (lead_hi ds) (leadtime ds).
Proof.
  unfold lead_lo, lead_hi. destruct (leadtime ds) as [| x xs]; [congruence |].
  intros _. split.
  - destruct (fold_min_In xs x) as [-> | Hin]; [now left | now right].
  - destruct (fold_max_In xs x) as [-> | Hin]; [now left | now right].
Qed.

Lemma nominal_window_ok_inv (ds : ForecastDataset) (fd : datetime)
    (l : list log_record) (s e : datetime) :
  nominal_window ds fd = (l, Ok (s, e)) ->
  leadtime ds <> [] /\ s = nominal_start ds fd /\ e = nominal_end ds fd.
Proof.
  intros Hw. destruct (leadtime ds) as [| x xs] eqn:Hl.
  - unfold nominal_window, leadtime_min in Hw. rewrite Hl in Hw. discriminate.
  - assert (Hne : leadtime ds <> []) by (rewrite Hl; discriminate).
    rewrite (nominal_window_value ds fd Hne) in Hw. inversion Hw.
    split; [discriminate | auto].
Qed.

(** X3. A forecast without any lead time cannot be reconciled: whatever
    the observation series is, also an empty one, the call raises the
    [ValueError] of the reduction over an empty axis, logs nothing and
    does not reach the no-data error or the broadcast. *)
Theorem filter_ds_by_obs_without_lead_times `{Externals} (ds : ForecastDataset)
    (obs_da : DataArray) (fd : datetime) :
  leadtime ds = [] ->
  filter_ds_by_obs ds obs_da fd
  = ([], Raise (ValueError "zero-size array to reduction operation"))
  /\ branch_taken (resolved_window ds obs_da fd) = None.
Proof.
  intros Hl. split.
  - apply filter_ds_by_obs_no_leadtime, Hl.
  - unfold resolved_window, nominal_window, leadtime_min. rewrite Hl. reflexivity.
Qed.

Lemma filter_ds_by_obs_without_lead_times_witness :
  leadtime {| leadtime := []; forecast_time := []; forecast_values := [] |} = []
  /\ filter_ds_by_obs {| leadtime := []; forecast_time := []; forecast_values := [] |}
       (obs_on []) (midnight 2022 4 1)
     = ([], Raise (ValueError "zero-size array to reduction operation"))
  /\ branch_taken
       (resolved_window {| leadtime := []; forecast_time := []; forecast_values := [] |}
          (obs_on []) (midnight 2022 4 1)) = None.
Proof.
  split; [reflexivity |].
  exact (@filter_ds_by_obs_without_lead_times world
           {| leadtime := []; forecast_time := []; forecast_values := [] |}
           (obs_on []) (midnight 2022 4 1) eq_refl).
Defined.

(** X4. When the nominal window can be taken, it is the tightest window
    around the forecast days: its start is not after its end, the day of
    every lead time lies within it, and both bounds are days of lead times
    of the forecast. *)
Theorem nominal_window_covers_lead_times (ds : ForecastDataset) (fd : datetime)
    (l : list log_record) (s e : datetime) :
  nominal_window ds fd = (l, Ok (s, e)) ->
  s <= e
  /\ (forall k, In k (leadtime ds) -> in_window (s, e) (fd + timedelta_days k))
  /\ (exists k, In k (leadtime ds) /\ s = fd + timedelta_days k)
  /\ (exists k, In k (leadtime ds) /\ e = fd + timedelta_days k).
Proof.
  intros Hw. apply nominal_window_ok_inv in Hw. destruct Hw as (Hne & -> & ->).
  destruct (lead_lo_hi_attained ds Hne) as [Hlo Hhi].
  split; [apply nominal_window_ordered |]. split; [| split].
  - intros k Hk. destruct (lead_lo_hi_bounds ds k Hk) as [H1 H2].
    apply timedelta_days_mono in H1, H2.
    unfold in_window, nominal_start, nominal_end. simpl. lia.
  - exists (lead_lo ds). split; [exact Hlo | reflexivity].
  - exists (lead_hi ds). split; [exact Hhi | reflexivity].
Qed.

Lemma nominal_window_covers_lead_times_witness :
  nominal_window forecast_0_14 (midnight 2022 4 1)
  = ([], Ok (midnight 2022 4 1, midnight 2022 4 15))
  /\ midnight 2022 4 1 <= midnight 2022 4 15
  /\ (forall k, In k (leadtime forecast_0_14) ->
                in_window (midnight 2022 4 1, midnight 2022 4 15)
                  (midnight 2022 4 1 + timedelta_days k))
  /\ (exists k, In k (leadtime forecast_0_14)
                /\ midnight 2022 4 1 = midnight 2022 4 1 + timedelta_days k)
  /\ (exists k, In k (leadtime forecast_0_14)
                /\ midnight 2022 4 15 = midnight 2022 4 1 + timedelta_days k).
Proof.
  assert (Hw : nominal_window forecast_0_14 (midnight 2022 4 1)
               = ([], Ok (midnight 2022 4 1, midnight 2022 4 15)))
    by (vm_compute; reflexivity).
  split; [exact Hw |].
  exact (nominal_window_covers_lead_times _ _ _ _ _ Hw).
Defined.

(** X6. Loading the observations for the nominal window and reconciling
    against them never takes the forecast outside that window: when
    [get_obs_da] returns a series for the range from nominal start to
    nominal end and [filter_ds_by_obs] returns on it, the window broadcast
    onto lies within the nominal window. *)
Theorem filter_ds_by_obs_on_loaded_observations `{Externals}
    (ds : ForecastDataset) (fd : datetime) (hemisphere obs_source : string)
    (obs_da : DataArray) (l1 l2 : list log_record) (r : Dataset) :
  get_obs_da hemisphere (nominal_start ds fd) (nominal_end ds fd) obs_source
  = (l1, Ok obs_da) ->
  filter_ds_by_obs ds obs_da fd = (l2, Ok r) ->
  exists (s e : datetime) (l3 l4 : list log_record),
    resolved_window ds obs_da fd = (l3, Ok (s, e))
    /\ broadcast_forecast s e ds = (l4, Ok r)
    /\ nominal_start ds fd <= s /\ e <= nominal_end ds fd.
Proof.
  intros Hobs Hrun. unfold filter_ds_by_obs in Hrun.
  apply bind_ok_inv in Hrun. destruct Hrun as (l3 & [s e] & l4 & Hw & Hb & _).
  exists s, e, l3, l4. split; [exact Hw |]. split; [exact Hb |].
  pose proof (get_obs_da_within_range _ _ _ _ _ _ Hobs) as Hin.
  destruct (resolved_window_cases _ _ _ _ _ _ Hw) as [Heq | [Hne Heq]];
    inversion Heq; subst.
  - pose proof (nominal_window_ordered ds fd). lia.
  - split; [apply Hin, hd_In, Hne | apply Hin, last_In, Hne].
Qed.

(** The forecast of 2022-01-05 with lead times to 2022-02-04, against the
    archive that ends on 2022-01-20. *)
Lemma filter_ds_by_obs_on_loaded_observations_witness :
  get_obs_da "north" (nominal_start forecast_january (midnight 2022 1 5))
    (nominal_end forecast_january (midnight 2022 1 5)) default_obs_source
  = ([LogRecord INFO false
        (Fmt "Got files: {}" [APaths ["./data/osisaf/north/siconca/2022.nc"]])],
     Ok (obs_on (days_from (midnight 2022 1 5) 16)))
  /\ filter_ds_by_obs forecast_january (obs_on (days_from (midnight 2022 1 5) 16))
       (midnight 2022 1 5)
     = ([LogRecord WARNING false
           (Text ("Observational data not available for full range of "
                  ++ "forecast lead times: 01/05/22-01/20/22 vs 01/05/22-02/04/22"))],
        Ok {| encoding_source := None;
              time := days_from (midnight 2022 1 5) 16;
              yc := []; xc := []; data_vars := [] |})
  /\ exists (s e : datetime) (l3 l4 : list log_record),
       resolved_window forecast_january (obs_on (days_from (midnight 2022 1 5) 16))
         (midnight 2022 1 5) = (l3, Ok (s, e))
       /\ broadcast_forecast s e forecast_january
          = (l4, Ok {| encoding_source := None;
                       time := days_from (midnight 2022 1 5) 16;
                       yc := []; xc := []; data_vars := [] |})
       /\ nominal_start forecast_january (midnight 2022 1 5) <= s
       /\ e <= nominal_end forecast_january (midnight 2022 1 5).
Proof.
  assert (Hobs : get_obs_da "north" (nominal_start forecast_january (midnight 2022 1 5))
                   (nominal_end forecast_january (midnight 2022 1 5)) default_obs_source
                 = ([LogRecord INFO false
                       (Fmt "Got files: {}"
                          [APaths ["./data/osisaf/north/siconca/2022.nc"]])],
                    Ok (obs_on (days_from (midnight 2022 1 5) 16))))
    by (vm_compute; reflexivity).
  assert (Hrun : filter_ds_by_obs forecast_january
                   (obs_on (days_from (midnight 2022 1 5) 16)) (midnight 2022 1 5)
                 = ([LogRecord WARNING false
                       (Text ("Observational data not available for full range of "
                              ++ "forecast lead times: 01/05/22-01/20/22 vs 01/05/22-02/04/22"))],
                    Ok {| encoding_source := None;
                          time := days_from (midnight 2022 1 5) 16;
                          yc := []; xc := []; data_vars := [] |}))
    by (vm_compute; reflexivity).
  split; [exact Hobs |]. split; [exact Hrun |].
  exact (@filter_ds_by_obs_on_loaded_observations world _ _ _ _ _ _ _ _ Hobs Hrun).
Defined.

(** ** [get_forecast_ds] *)

Lemma lookup_forecast_var_mask (name : string) (keep : list bool)
    (vars : list (string * list ndarray)) :
  lookup_forecast_var name (map (fun '(n, a) => (n, mask keep a)) vars)
  = option_map (mask keep) (lookup_forecast_var name vars).
Proof.
  induction vars as [| [n a] vars IH]; [reflexivity |]. simpl.
  destruct (String.eqb n name); [reflexivity | exact IH].
Qed.

Lemma in_slice_point (d t : datetime) :
  in_slice (Some d) (Some d) t = (t =? d).
Proof.
  unfold in_slice. destruct (Z.eqb_spec t d) as [-> | Hne].
  - rewrite Z.leb_refl. reflexivity.
  - destruct (Z.leb_spec d t); destruct (Z.leb_spec t d); simpl; try reflexivity; lia.
Qed.

Lemma mask_length {A} (keep : list bool) (xs : list A) :
  List.length keep = List.length xs ->
  List.length (mask keep xs) = List.length (filter (fun b => b) keep).
Proof.
  unfold mask. revert xs. induction keep as [| b keep IH]; intros xs Hlen.
  - reflexivity.
  - destruct xs as [| x xs]; [discriminate |]. simpl in *.
    destruct b; simpl; rewrite IH by lia; reflexivity.
Qed.

Lemma filter_true_map {A} (f : A -> bool) (xs : list A) :
  List.length (filter (fun b => b) (map f xs)) = List.length (filter f xs).
Proof.
  induction xs as [| x xs IH]; [reflexivity |]. simpl.
  destruct (f x); simpl; now rewrite IH.
Qed.

(** The series [get_forecast_ds] makes of a file that opens and holds the
    variable. *)
Lemma get_forecast_ds_file `{ForecastStore} (forecast_file : string)
    (forecast_date : datetime) (stddev : bool) (f : ForecastFile)
    (values : list ndarray) :
  open_forecast_file forecast_file = Some f ->
  lookup_forecast_var (if stddev then "sic_stddev" else "sic_mean") (ff_vars f)
  = Some values ->
  exists r : ForecastDataset,
    get_forecast_ds forecast_file forecast_date stddev = ([], Ok r)
    /\ leadtime r = ff_leadtime f
    /\ forecast_time r = filter (fun t => t =? forecast_date) (ff_time f)
    /\ forecast_values r
       = mask (map (fun t => t =? forecast_date) (ff_time f)) values.
Proof.
  intros Hopen Hvar. unfold get_forecast_ds. rewrite Hopen.
  unfold sel_forecast_time. cbn [ff_vars ff_time ff_leadtime].
  rewrite lookup_forecast_var_mask.
  replace (if negb stddev then "sic_mean" else "sic_stddev")
    with (if stddev then "sic_stddev" else "sic_mean") by (destruct stddev; reflexivity).
  rewrite Hvar. simpl option_map. cbv iota.
  eexists. split; [reflexivity |]. cbn [leadtime forecast_time forecast_values].
  rewrite mask_map_filter.
  assert (Hkeep : map (in_slice (Some forecast_date) (Some forecast_date)) (ff_time f)
                  = map (fun t => t =? forecast_date) (ff_time f))
    by (apply map_ext; intros t; apply in_slice_point).
  rewrite Hkeep. split; [reflexivity |]. split; [| reflexivity].
  apply filter_ext. intros t. apply in_slice_point.
Qed.

(** X7. What [get_forecast_ds] returns for a file that opens and holds
    the variable asked for ([sic_mean], or [sic_stddev] when [stddev] is
    set): the lead-time axis of the file untouched and only the time steps
    that are the forecast date itself, with as many arrays as time steps
    when the variable had one per time step of the file.  A date the file
    does not hold is no error: the series returned is empty. *)
Theorem get_forecast_ds_selects_date `{ForecastStore} (forecast_file : string)
    (forecast_date : datetime) (stddev : bool) (f : ForecastFile)
    (values : list ndarray) :
  open_forecast_file forecast_file = Some f ->
  lookup_forecast_var (if stddev then "sic_stddev" else "sic_mean") (ff_vars f)
  = Some values ->
  exists r : ForecastDataset,
    get_forecast_ds forecast_file forecast_date stddev = ([], Ok r)
    /\ leadtime r = ff_leadtime f
    /\ forecast_time r = filter (fun t => t =? forecast_date) (ff_time f)
    /\ Forall (fun t => t = forecast_date) (forecast_time r)
    /\ (List.length values = List.length (ff_time f) ->
        List.length (forecast_values r) = List.length (forecast_time r))
    /\ (~ In forecast_date (ff_time f) -> forecast_time r = []).
Proof.
  intros Hopen Hvar.
  destruct (get_forecast_ds_file _ forecast_date _ _ _ Hopen Hvar)
    as (r & Hr & Hlead & Htime & Hvalues).
  exists r. split; [exact Hr |]. split; [exact Hlead |]. split; [exact Htime |].
  rewrite Htime, Hvalues. split; [| split].
  - apply Forall_forall. intros t Ht. apply filter_In in Ht.
    destruct Ht as [_ Ht]. apply Z.eqb_eq in Ht. exact Ht.
  - intros Hlen. rewrite mask_length by (rewrite length_map; symmetry; exact Hlen).
    apply filter_true_map.
  - intros Hnotin.
    destruct (filter (fun t => t =? forecast_date) (ff_time f)) as [| t ts] eqn:Hf;
      [reflexivity |].
    exfalso. assert (Hin : In t (filter (fun t => t =? forecast_date) (ff_time f)))
      by (rewrite Hf; now left).
    apply filter_In in Hin. destruct Hin as [Hin Ht]. apply Z.eqb_eq in Ht.
    subst t. contradiction.
Qed.

(** The forecast of 2022-04-02 out of the file that holds two. *)
Lemma get_forecast_ds_selects_date_witness :
  @open_forecast_file forecast_store "results/predict/fc.nc" = Some forecast_file
  /\ lookup_forecast_var "sic_mean" (ff_vars forecast_file)
     = Some [[[[0.5; 0.5; 0.25]]]; [[[0.75; 0.5; 0.5]]]]%float
  /\ exists r : ForecastDataset,
       @get_forecast_ds forecast_store "results/predict/fc.nc" (midnight 2022 4 2) false
       = ([], Ok r)
       /\ leadtime r = ff_leadtime forecast_file
       /\ forecast_time r
          = filter (fun t => t =? midnight 2022 4 2) (ff_time forecast_file)
       /\ Forall (fun t => t = midnight 2022 4 2) (forecast_time r)
       /\ (List.length [[[[0.5; 0.5; 0.25]]]; [[[0.75; 0.5; 0.5]]]]%float
           = List.length (ff_time forecast_file) ->
           List.length (forecast_values r) = List.length (forecast_time r))
       /\ (~ In (midnight 2022 4 2) (ff_time forecast_file) -> forecast_time r = []).
Proof.
  split; [reflexivity |]. split; [reflexivity |].
  exact (@get_forecast_ds_selects_date forecast_store "results/predict/fc.nc"
           (midnight 2022 4 2) false forecast_file _ eq_refl eq_refl).
Defined.

Example get_forecast_ds_run :
  @get_forecast_ds forecast_store "results/predict/fc.nc" (midnight 2022 4 2) true
  = ([], Ok {| leadtime := [1; 2; 3];
               forecast_time := [midnight 2022 4 2];
               forecast_values := [[[[0.25; 0.25; 0.25]]]]%float |}).
Proof. vm_compute. reflexivity. Qed.

(** X8. Loading a forecast and reconciling it: the lead-time axis the
    reconciler works from is the file's, so with at least as many observed
    time steps as the file has lead times the forecast loaded for a date
    is broadcast onto the window from that date plus the least lead time
    of the file to that date plus the greatest, also when the file holds
    no time step for the date and the series loaded is empty. *)
Theorem get_forecast_ds_then_filter `{ForecastStore} `{Externals}
    (forecast_file : string) (forecast_date : datetime) (stddev : bool)
    (f : ForecastFile) (values : list ndarray) (obs_da : DataArray) :
  open_forecast_file forecast_file = Some f ->
  lookup_forecast_var (if stddev then "sic_stddev" else "sic_mean") (ff_vars f)
  = Some values ->
  ff_leadtime f <> [] ->
  (List.length (ff_leadtime f) <= List.length (da_time obs_da))%nat ->
  exists r : ForecastDataset,
    get_forecast_ds forecast_file forecast_date stddev = ([], Ok r)
    /\ leadtime r = ff_leadtime f
    /\ filter_ds_by_obs r obs_da forecast_date
       = broadcast_forecast (nominal_start r forecast_date)
           (nominal_end r forecast_date) r.
Proof.
  intros Hopen Hvar Hne Hlen.
  destruct (get_forecast_ds_file _ forecast_date _ _ _ Hopen Hvar) as (r & Hr & Hlead & _).
  exists r. split; [exact Hr |]. split; [exact Hlead |].
  apply filter_ds_by_obs_full; rewrite Hlead; assumption.
Qed.

(** The file above, asked for 2022-04-03, which it does not hold, against
    three observed days. *)
Lemma get_forecast_ds_then_filter_witness :
  @open_forecast_file forecast_store "results/predict/fc.nc" = Some forecast_file
  /\ lookup_forecast_var "sic_mean" (ff_vars forecast_file)
     = Some [[[[0.5; 0.5; 0.25]]]; [[[0.75; 0.5; 0.5]]]]%float
  /\ ff_leadtime forecast_file <> []
  /\ (List.length (ff_leadtime forecast_file)
      <= List.length (da_time (obs_on (days_from (midnight 2022 4 4) 3))))%nat
  /\ exists r : ForecastDataset,
       @get_forecast_ds forecast_store "results/predict/fc.nc" (midnight 2022 4 3) false
       = ([], Ok r)
       /\ leadtime r = ff_leadtime forecast_file
       /\ filter_ds_by_obs r (obs_on (days_from (midnight 2022 4 4) 3))
            (midnight 2022 4 3)
          = broadcast_forecast (nominal_start r (midnight 2022 4 3))
              (nominal_end r (midnight 2022 4 3)) r.
Proof.
  split; [reflexivity |]. split; [reflexivity |]. split; [discriminate |].
  split; [simpl; lia |].
  exact (@get_forecast_ds_then_filter forecast_store world "results/predict/fc.nc"
           (midnight 2022 4 3) false forecast_file _
           (obs_on (days_from (midnight 2022 4 4) 3))
           eq_refl eq_refl ltac:(discriminate) ltac:(simpl; lia)).
Defined.

(** ** The hook and the mapping: exclusion, order and coverage *)

Lemma strip_overlapping_time_no_source `{Externals} (files : dict) (ds : Dataset) :
  encoding_source ds = None ->
  strip_overlapping_time files ds = ([], Raise (KeyError "source")).
Proof. intros Hsrc. unfold strip_overlapping_time. rewrite Hsrc. reflexivity. Qed.

(** X9. The hook returns no dataset exactly for a dataset whose recorded
    source is no key of the mapping: it then logs one ERROR record with
    the traceback and raises nothing; a dataset that returns [None] is
    such an unmatched one; and a dataset with no recorded source is not
    excluded but ends the hook with [KeyError], which the hook does not
    catch. *)
Theorem strip_overlapping_time_excludes_unmatched `{Externals} (files : dict)
    (ds : Dataset) :
  (forall source,
      encoding_source ds = Some source ->
      ~ In (abspath source) (keys files) ->
      strip_overlapping_time files ds
      = ([LogRecord ERROR true
            (Fmt not_in_template [AStr (abspath source); AFiles files])],
         Ok None))
  /\ (forall l, strip_overlapping_time files ds = (l, Ok None) ->
                exists source, encoding_source ds = Some source
                               /\ ~ In (abspath source) (keys files))
  /\ (encoding_source ds = None ->
      strip_overlapping_time files ds = ([], Raise (KeyError "source"))).
Proof.
  split; [| split].
  - intros source Hsrc Hnotin. exact (strip_overlapping_time_unmatched _ _ _ Hsrc Hnotin).
  - intros l Hrun. destruct (encoding_source ds) as [source |] eqn:Hsrc.
    + exists source. split; [reflexivity |]. intros Hin.
      destruct (strip_overlapping_time_matched files ds source Hsrc Hin)
        as (r & m & Hr).
      rewrite Hr in Hrun. discriminate.
    + rewrite (strip_overlapping_time_no_source files ds Hsrc) in Hrun. discriminate.
  - apply strip_overlapping_time_no_source.
Qed.

(** X10. For a directory whose entries are written in ASCII, the mapping
    a build makes of it is sorted by issuance date and has no key twice,
    although the code sorts the items by path: for plain entries placed
    by [abspath] under one absolute directory, names of eight digits [0]
    to [9] and [.nc] order as their dates do.  (Digits of another script
    would order by their code points and not by their values.) *)
Theorem corpus_mapping_sorted_by_date `{Externals}
    (source_path hemisphere absdir seas_file : string)
    (l : list log_record) (files : dict) :
  (forall name,
      In name (listdir (join (join source_path hemisphere) "siconca")) ->
      ascii_text name = true
      /\ basename (join (join (join source_path hemisphere) "siconca") name) = name
      /\ abspath (join (join (join source_path hemisphere) "siconca") name)
         = (absdir ++ name)%string) ->
  seas_hist_files_of source_path hemisphere seas_file = (l, Ok files) ->
  NoDup (keys files) /\ sorted_by_date files.
Proof.
  intros Henv Hfiles.
  exact (seas_hist_files_sorted source_path hemisphere absdir
           (fun name Hin => proj2 (Henv name Hin)) seas_file l files Hfiles).
Qed.

(** The directory of the concrete installation, listed out of order. *)
Lemma corpus_mapping_sorted_by_date_witness :
  (forall name,
      In name (listdir (join (join default_source_path "north") "siconca")) ->
      ascii_text name = true
      /\ basename (join (join (join default_source_path "north") "siconca") name) = name
      /\ abspath (join (join (join default_source_path "north") "siconca") name)
         = ("/srv/icenet/data/mars.seas/north/siconca/" ++ name)%string)
  /\ seas_hist_files_of default_source_path "north"
       (seas_file_of default_source_path "north" (midnight 2022 6 1))
     = ([], Ok scenario_d_files)
  /\ NoDup (keys scenario_d_files) /\ sorted_by_date scenario_d_files.
Proof.
  assert (Henv : forall name,
             In name (listdir (join (join default_source_path "north") "siconca")) ->
             ascii_text name = true
             /\ basename (join (join (join default_source_path "north") "siconca") name)
                = name
             /\ abspath (join (join (join default_source_path "north") "siconca") name)
                = ("/srv/icenet/data/mars.seas/north/siconca/" ++ name)%string).
  { intros name Hin. vm_compute in Hin.
    repeat (destruct Hin as [<- | Hin];
            [split; [| split]; vm_compute; reflexivity |]).
    destruct Hin. }
  split; [exact Henv |].
  split; [exact scenario_build_mapping |].
  exact (@corpus_mapping_sorted_by_date world default_source_path "north"
           "/srv/icenet/data/mars.seas/north/siconca/"
           (seas_file_of default_source_path "north" (midnight 2022 6 1))
           [] scenario_d_files Henv scenario_build_mapping).
Defined.

Lemma mapM_ok_cons_inv {A B} (f : A -> M B) (a : A) (l : list A)
    (lg : list log_record) (bs : list B) :
  mapM f (a :: l) = (lg, Ok bs) ->
  exists b bs' l1 l2, f a = (l1, Ok b) /\ mapM f l = (l2, Ok bs')
                      /\ bs = b :: bs' /\ lg = l1 ++ l2.
Proof.
  simpl. intros Hrun.
  apply bind_ok_inv in Hrun. destruct Hrun as (l1 & b & l2 & Hb & Hrun & ->).
  apply bind_ok_inv in Hrun. destruct Hrun as (l3 & bs' & l4 & Hbs & Hret & ->).
  inversion Hret; subst. exists b, bs', l1, l3. rewrite app_nil_r. auto.
Qed.

(** The hook over the datasets opened from keys of the mapping. *)
Lemma hook_over_opened_keys `{Externals} (files : dict) (ps : list string) :
  (forall p, In p ps -> In p (keys files) /\ abspath p = p) ->
  forall (l : list log_record) (dss : list Dataset),
    mapM open_dataset ps = (l, Ok dss) ->
    exists (rs : list Dataset) (l' : list log_record),
      mapM (strip_overlapping_time files) dss = (l', Ok (map Some rs))
      /\ List.length rs = List.length ps
      /\ Forall (fun r => lvl r = DEBUG) l'.
Proof.
  induction ps as [| p ps IH]; intros Hps l dss Hopen.
  - inversion Hopen; subst. exists [], []. repeat split. constructor.
  - apply mapM_ok_cons_inv in Hopen.
    destruct Hopen as (ds & dss' & l1 & l2 & Hds & Hdss & -> & ->).
    destruct (Hps p (or_introl eq_refl)) as [Hin Habs].
    apply open_dataset_ok_inv in Hds.
    destruct Hds as (file & _ & _ & _ & _ & _ & Hsrc).
    assert (Hin' : In (abspath (abspath p)) (keys files)) by (rewrite !Habs; exact Hin).
    destruct (strip_overlapping_time_matched files ds _ Hsrc Hin') as (r & m & Hr).
    destruct (IH (fun q Hq => Hps q (or_intror Hq)) l2 dss' Hdss)
      as (rs & l' & Hrs & Hlen & Hlog).
    exists (r :: rs), (LogRecord DEBUG false m :: l').
    split; [| split].
    + simpl. rewrite Hr, Hrs. unfold bind, ret. simpl. rewrite app_nil_r. reflexivity.
    + simpl. now rewrite Hlen.
    + constructor; [reflexivity | exact Hlog].
Qed.

(** X11. In a build no file is excluded: the hook, run over the datasets
    opened from the keys of the mapping the build made, returns a dataset
    for every one of them, raises nothing and logs DEBUG records only,
    [abspath] leaving its own results alone; what reaches the combination
    is one dataset per key. *)
Theorem corpus_build_excludes_nothing `{Externals}
    (source_path hemisphere seas_file : string)
    (l l1 : list log_record) (files : dict) (dss : list Dataset) :
  (forall p, abspath (abspath p) = abspath p) ->
  seas_hist_files_of source_path hemisphere seas_file = (l, Ok files) ->
  mapM open_dataset (keys files) = (l1, Ok dss) ->
  exists (rs : list Dataset) (l2 : list log_record),
    mapM (strip_overlapping_time files) dss = (l2, Ok (map Some rs))
    /\ List.length rs = List.length files
    /\ Forall (fun r => lvl r = DEBUG) l2
    /\ (files <> [] ->
        outcome (open_mfdataset (keys files) (Some (strip_overlapping_time files)))
        = combine_by_coords (map Some rs)).
Proof.
  intros Hidem Hfiles Hopen.
  destruct (seas_hist_files_keys _ _ _ _ _ Hfiles) as [_ Habs].
  assert (Hps : forall p, In p (keys files) -> In p (keys files) /\ abspath p = p).
  { intros p Hin. split; [exact Hin |]. destruct (Habs p Hin) as (el & ->). apply Hidem. }
  destruct (hook_over_opened_keys files (keys files) Hps l1 dss Hopen)
    as (rs & l2 & Hrs & Hlen & Hlog).
  exists rs, l2. split; [exact Hrs |].
  split; [rewrite Hlen; unfold keys; apply length_map |]. split; [exact Hlog |].
  intros Hne. unfold open_mfdataset.
  destruct (keys files) as [| k ks] eqn:Hk.
  - destruct files; [congruence | discriminate].
  - rewrite Hopen. unfold bind at 1. rewrite Hrs. unfold bind, lift, outcome.
    simpl. destruct (combine_by_coords (map Some rs)); reflexivity.
Qed.

Lemma scenario_abspath_idempotent (p : string) :
  @abspath world (@abspath world p) = @abspath world p.
Proof.
  unfold abspath. simpl. unfold abspath_in at 1. now rewrite abspath_in_absolute.
Qed.

(** The build for the forecast issued 2022-06-01: three datasets opened,
    three datasets kept. *)
Lemma corpus_build_excludes_nothing_witness :
  mapM open_dataset (keys scenario_d_files) = ([], Ok opened_history)
  /\ exists (rs : list Dataset) (l2 : list log_record),
       mapM (strip_overlapping_time scenario_d_files) opened_history
       = (l2, Ok (map Some rs))
       /\ List.length rs = List.length scenario_d_files
       /\ Forall (fun r => lvl r = DEBUG) l2
       /\ (scenario_d_files <> [] ->
           outcome (open_mfdataset (keys scenario_d_files)
                      (Some (strip_overlapping_time scenario_d_files)))
           = combine_by_coords (map Some rs)).
Proof.
  assert (Hopen : mapM open_dataset (keys scenario_d_files) = ([], Ok opened_history))
    by (vm_compute; reflexivity).
  split; [exact Hopen |].
  exact (@corpus_build_excludes_nothing world default_source_path "north"
           (seas_file_of default_source_path "north" (midnight 2022 6 1))
           [] [] scenario_d_files opened_history
           scenario_abspath_idempotent scenario_build_mapping Hopen).
Defined.

(** ** The mapping: which siblings it holds and when it cannot be built *)

Lemma hist_comprehension_undatable `{Externals} (seas_file : string)
    (els : list string) (acc : dict) :
  existsb (undatable seas_file) els = true ->
  hist_comprehension seas_file els acc
  = raise (ValueError "time data does not match format '%Y%m%d'").
Proof.
  revert acc. induction els as [| el els IH]; intros acc Hex; [discriminate |].
  simpl in *. unfold undatable, kept_by_filter in Hex.
  destruct (matches_date_nc (basename el) && negb (String.eqb el seas_file)).
  - destruct (strptime_Ymd (substring 0 8 (basename el))); [| reflexivity].
    apply IH. exact Hex.
  - apply IH. exact Hex.
Qed.

Lemma hist_comprehension_datable `{Externals} (seas_file : string)
    (els : list string) (acc : dict) :
  existsb (undatable seas_file) els = false ->
  exists d, hist_comprehension seas_file els acc = ret d.
Proof.
  revert acc. induction els as [| el els IH]; intros acc Hex; [now exists acc |].
  simpl in *. unfold undatable, kept_by_filter in Hex.
  destruct (matches_date_nc (basename el) && negb (String.eqb el seas_file)).
  - destruct (strptime_Ymd (substring 0 8 (basename el))); [| discriminate].
    apply IH. exact Hex.
  - apply IH. exact Hex.
Qed.

(** X12. For a directory whose [.nc] files are named in ASCII, building
    the mapping logs nothing and fails, with a [ValueError], exactly when
    some sibling the filter keeps (eight digits and [.nc], not the
    forecast asked for) has digits that are no date; otherwise it
    returns a mapping. *)
Theorem seas_hist_files_of_fails_on_undatable `{Externals}
    (source_path hemisphere seas_file : string) :
  (forall el,
      In el (glob_star_nc (join (join source_path hemisphere) "siconca")) ->
      ascii_text (basename el) = true) ->
  (existsb (undatable seas_file)
     (glob_star_nc (join (join source_path hemisphere) "siconca")) = true ->
   exists m,
     seas_hist_files_of source_path hemisphere seas_file = raise (ValueError m))
  /\ (existsb (undatable seas_file)
        (glob_star_nc (join (join source_path hemisphere) "siconca")) = false ->
      exists files,
        seas_hist_files_of source_path hemisphere seas_file = ret files).
Proof.
  intros _. unfold seas_hist_files_of. split; intros Hex.
  - rewrite (hist_comprehension_undatable _ _ _ Hex). eexists. reflexivity.
  - destruct (hist_comprehension_datable seas_file _ [] Hex) as (d & ->).
    rewrite bind_ret_l. eauto.
Qed.

(** The directory of the four forecasts. *)
Lemma seas_hist_files_of_fails_on_undatable_witness :
  (forall el,
      In el (@glob_star_nc wider_world
               (join (join default_source_path "north") "siconca")) ->
      ascii_text (basename el) = true)
  /\ exists files,
       @seas_hist_files_of wider_world default_source_path "north"
         (seas_file_of default_source_path "north" (midnight 2022 6 1))
       = ret files.
Proof.
  assert (Hascii : forall el,
             In el (@glob_star_nc wider_world
                      (join (join default_source_path "north") "siconca")) ->
             ascii_text (basename el) = true).
  { intros el Hin. vm_compute in Hin.
    repeat (destruct Hin as [<- | Hin]; [vm_compute; reflexivity |]).
    destruct Hin. }
  split; [exact Hascii |].
  apply (proj2 (@seas_hist_files_of_fails_on_undatable wider_world
                  default_source_path "north"
                  (seas_file_of default_source_path "north" (midnight 2022 6 1))
                  Hascii)).
  vm_compute. reflexivity.
Defined.

(** A directory with a file named 20220230.nc, and one without. *)
Example seas_hist_files_of_runs :
  @seas_hist_files_of wider_world misnamed_path "north"
    (seas_file_of misnamed_path "north" (midnight 2022 6 1))
  = raise (ValueError "time data does not match format '%Y%m%d'")
  /\ @seas_hist_files_of wider_world default_source_path "north"
       (seas_file_of default_source_path "north" (midnight 2022 6 1))
     = ret scenario_d_files.
Proof. split; vm_compute; reflexivity. Qed.

Lemma bind_ok_l {A B} (m : M A) (l : list log_record) (a : A) (f : A -> M B) :
  m = (l, Ok a) -> bind m f = (l ++ log_of (f a), outcome (f a)).
Proof. intros ->. unfold bind, log_of, outcome. destruct (f a). reflexivity. Qed.

(** A bias-corrected retrieval up to the point where the mapping is
    built. *)
Lemma get_seas_forecast_da_upto_mapping `{Externals} (hemisphere : string)
    (date : datetime) (source_path : string) (l1 l2 l3 : list log_record)
    (seas_ds : Dataset) (seas_da obs_da : DataArray) :
  open_dataset (seas_file_of source_path hemisphere date) = (l1, Ok seas_ds) ->
  getvar seas_ds "siconc" = (l2, Ok seas_da) ->
  get_obs_da hemisphere (date - timedelta_days (10 * 365))
    (date + timedelta_days (10 * 365)) default_obs_source = (l3, Ok obs_da) ->
  forall (e : exn),
    (seas_hist_files <- seas_hist_files_of source_path hemisphere
                          (seas_file_of source_path hemisphere date) ;;
     open_mfdataset (keys seas_hist_files)
       (Some (strip_overlapping_time seas_hist_files))) = raise e ->
    get_seas_forecast_da hemisphere date true source_path
    = (l1 ++ l2 ++ l3, Raise e).
Proof.
  intros Hopen Hvar Hobs e Hfail. unfold get_seas_forecast_da.
  rewrite (bind_ok_l _ _ _ _ Hopen), (bind_ok_l _ _ _ _ Hvar).
  unfold bias_correct_window. rewrite (bind_ok_l _ _ _ _ Hobs).
  unfold log_of, outcome. simpl.
  destruct (seas_hist_files_of source_path hemisphere
              (seas_file_of source_path hemisphere date)) as [lf [files | ef]] eqn:Hf.
  - unfold bind in Hfail |- *.
    destruct (open_mfdataset (keys files) (Some (strip_overlapping_time files)))
      as [lm [hist | em]]; [discriminate |].
    unfold raise in Hfail. injection Hfail as Hl He. subst em. simpl.
    now rewrite Hl, app_nil_r.
  - simpl in Hfail. inversion Hfail; subst. simpl. now rewrite app_nil_r.
Qed.

(** X13. One misnamed sibling blocks the correction of every other
    forecast of its directory: when the forecast file and the
    observations load but some sibling the filter keeps has digits that
    are no date, the bias-corrected retrieval raises the [ValueError] of
    [strptime], having logged only what the loads logged. *)
Theorem get_seas_forecast_da_undatable_sibling `{Externals} (hemisphere : string)
    (date : datetime) (source_path : string) (l1 l2 l3 : list log_record)
    (seas_ds : Dataset) (seas_da obs_da : DataArray) :
  open_dataset (seas_file_of source_path hemisphere date) = (l1, Ok seas_ds) ->
  getvar seas_ds "siconc" = (l2, Ok seas_da) ->
  get_obs_da hemisphere (date - timedelta_days (10 * 365))
    (date + timedelta_days (10 * 365)) default_obs_source = (l3, Ok obs_da) ->
  existsb (undatable (seas_file_of source_path hemisphere date))
    (glob_star_nc (join (join source_path hemisphere) "siconca")) = true ->
  get_seas_forecast_da hemisphere date true source_path
  = (l1 ++ l2 ++ l3,
     Raise (ValueError "time data does not match format '%Y%m%d'")).
Proof.
  intros Hopen Hvar Hobs Hex.
  apply (get_seas_forecast_da_upto_mapping _ _ _ _ _ _ _ _ _ Hopen Hvar Hobs).
  unfold seas_hist_files_of.
  rewrite (hist_comprehension_undatable _ _ _ Hex). reflexivity.
Qed.

(** The observations of the twenty years around 2022-06-01, as the
    loader finds them in the wider installation. *)
Lemma wider_obs_june :
  @get_obs_da wider_world "north" (midnight 2022 6 1 - timedelta_days (10 * 365))
    (midnight 2022 6 1 + timedelta_days (10 * 365)) default_obs_source
  = (obs_log_june, Ok (obs_on (days_from (midnight 2022 1 1) 20))).
Proof. vm_compute. reflexivity. Qed.

(** The forecast of 2022-06-01 in the directory that also holds
    20220230.nc. *)
Lemma get_seas_forecast_da_undatable_sibling_witness :
  @get_seas_forecast_da wider_world "north" (midnight 2022 6 1) true misnamed_path
  = ([] ++ [] ++ obs_log_june,
     Raise (ValueError "time data does not match format '%Y%m%d'")).
Proof.
  refine (@get_seas_forecast_da_undatable_sibling wider_world "north"
            (midnight 2022 6 1) misnamed_path [] [] obs_log_june
            (opened_from "/srv/icenet/data/misnamed/north/siconca/20220601.nc"
               (midnight 2022 6 1) 0.625%float)
            (raw_series (midnight 2022 6 1) 0.625%float)
            (obs_on (days_from (midnight 2022 1 1) 20))
            _ _ wider_obs_june _); vm_compute; reflexivity.
Defined.

Lemma hist_comprehension_none_kept `{Externals} (seas_file : string)
    (els : list string) (acc : dict) :
  (forall el, In el els -> kept_by_filter seas_file el = false) ->
  hist_comprehension seas_file els acc = ret acc.
Proof.
  revert acc. induction els as [| el els IH]; intros acc Hnone; [reflexivity |].
  simpl. pose proof (Hnone el (or_introl eq_refl)) as Hel.
  unfold kept_by_filter in Hel. rewrite Hel.
  apply IH. intros q Hq. apply Hnone. now right.
Qed.

(** X14. A forecast with no dated sibling cannot be bias-corrected: when
    the forecast file and the observations load, the [.nc] files of the
    directory are named in ASCII and the filter keeps none of them, the
    mapping is empty and the retrieval raises the [OSError] of opening
    no files, before any range is reported. *)
Theorem get_seas_forecast_da_no_history `{Externals} (hemisphere : string)
    (date : datetime) (source_path : string) (l1 l2 l3 : list log_record)
    (seas_ds : Dataset) (seas_da obs_da : DataArray) :
  open_dataset (seas_file_of source_path hemisphere date) = (l1, Ok seas_ds) ->
  getvar seas_ds "siconc" = (l2, Ok seas_da) ->
  get_obs_da hemisphere (date - timedelta_days (10 * 365))
    (date + timedelta_days (10 * 365)) default_obs_source = (l3, Ok obs_da) ->
  (forall el, In el (glob_star_nc (join (join source_path hemisphere) "siconca")) ->
              ascii_text (basename el) = true
              /\ kept_by_filter (seas_file_of source_path hemisphere date) el = false) ->
  seas_hist_files_of source_path hemisphere (seas_file_of source_path hemisphere date)
  = ret []
  /\ get_seas_forecast_da hemisphere date true source_path
     = (l1 ++ l2 ++ l3, Raise (OSError "no files to open")).
Proof.
  intros Hopen Hvar Hobs Hnone.
  assert (Hfiles : seas_hist_files_of source_path hemisphere
                     (seas_file_of source_path hemisphere date) = ret []).
  { unfold seas_hist_files_of.
    rewrite (hist_comprehension_none_kept _ _ _
               (fun el Hin => proj2 (Hnone el Hin))), bind_ret_l.
    reflexivity. }
  split; [exact Hfiles |].
  apply (get_seas_forecast_da_upto_mapping _ _ _ _ _ _ _ _ _ Hopen Hvar Hobs).
  rewrite Hfiles, bind_ret_l. reflexivity.
Qed.

(** The directory that holds the forecast of 2022-06-01 and a text
    file. *)
Lemma get_seas_forecast_da_no_history_witness :
  @seas_hist_files_of wider_world lone_path "north"
    (seas_file_of lone_path "north" (midnight 2022 6 1))
  = ret []
  /\ @get_seas_forecast_da wider_world "north" (midnight 2022 6 1) true lone_path
     = ([] ++ [] ++ obs_log_june, Raise (OSError "no files to open")).
Proof.
  refine (@get_seas_forecast_da_no_history wider_world "north"
            (midnight 2022 6 1) lone_path [] [] obs_log_june
            (opened_from "/srv/icenet/data/lone/north/siconca/20220601.nc"
               (midnight 2022 6 1) 0.625%float)
            (raw_series (midnight 2022 6 1) 0.625%float)
            (obs_on (days_from (midnight 2022 1 1) 20))
            _ _ wider_obs_june _); try (vm_compute; reflexivity).
  intros el Hin. vm_compute in Hin. destruct Hin as [<- | []].
  split; vm_compute; reflexivity.
Defined.

Lemma dict_set_keys_iff (k k' : string) (v : datetime) (d : dict) :
  In k' (keys (dict_set k v d)) <-> k' = k \/ In k' (keys d).
Proof.
  split; [apply dict_set_keys_In |].
  induction d as [| [q w] d IH]; simpl.
  - intros [-> | []]. now left.
  - destruct (String.eqb_spec k q) as [-> | Hneq]; simpl.
    + intros [-> | [<- | Hin]]; auto.
    + intros [-> | [<- | Hin]]; auto.
Qed.

Lemma fold_dict_set_keys_iff (items : list (string * datetime)) (acc : dict)
    (k : string) :
  In k (keys (fold_left (fun d kv => dict_set (fst kv) (snd kv) d) items acc))
  <-> In k (keys acc) \/ In k (map fst items).
Proof.
  revert acc. induction items as [| kv items IH]; intros acc; simpl.
  - intuition auto.
  - rewrite IH, dict_set_keys_iff. intuition auto.
Qed.

(** The keys of the dictionary the comprehension returns: those it
    started from and the normalised paths of the items its filter kept. *)
Lemma hist_comprehension_keys_iff `{Externals} (seas_file : string)
    (els : list string) (acc d : dict) (l : list log_record) :
  hist_comprehension seas_file els acc = (l, Ok d) ->
  forall k, In k (keys d)
            <-> In k (keys acc)
                \/ exists el, In el els /\ kept_by_filter seas_file el = true
                              /\ k = abspath el.
Proof.
  revert acc. induction els as [| el els IH]; intros acc Hrun k.
  - inversion Hrun; subst. split; [now left |].
    intros [Hin | (el & [] & _)]. exact Hin.
  - simpl in Hrun. unfold kept_by_filter in *.
    destruct (matches_date_nc (basename el) && negb (String.eqb el seas_file))
      eqn:Hkept.
    + destruct (strptime_Ymd (substring 0 8 (basename el))) as [t |];
        [| discriminate].
      rewrite (IH _ Hrun k), dict_set_keys_iff. split.
      * intros [[-> | Hin] | (q & Hq & Hk & ->)].
        -- right. exists el. split; [now left | auto].
        -- now left.
        -- right. exists q. split; [now right | auto].
      * intros [Hin | (q & [<- | Hq] & Hk & ->)].
        -- left. now right.
        -- left. now left.
        -- right. exists q. auto.
    + rewrite (IH _ Hrun k). split.
      * intros [Hin | (q & Hq & Hk & ->)]; [now left |].
        right. exists q. split; [now right | auto].
      * intros [Hin | (q & [<- | Hq] & Hk & ->)]; [now left | congruence |].
        right. exists q. auto.
Qed.

(** X15. For a directory whose [.nc] files are named in ASCII, the keys
    of the mapping are exactly the normalised paths of the files of the
    directory that end in [.nc], are named by eight digits and [.nc], and
    are not the forecast asked for.  Hence the forecast being corrected
    is no part of its own history, as long as no other file of the
    directory normalises to the same path. *)
Theorem seas_hist_files_of_keys `{Externals}
    (source_path hemisphere seas_file : string) (l : list log_record)
    (files : dict) :
  (forall el,
      In el (glob_star_nc (join (join source_path hemisphere) "siconca")) ->
      ascii_text (basename el) = true) ->
  seas_hist_files_of source_path hemisphere seas_file = (l, Ok files) ->
  (forall k,
      In k (keys files)
      <-> exists el,
            In el (glob_star_nc (join (join source_path hemisphere) "siconca"))
            /\ kept_by_filter seas_file el = true /\ k = abspath el)
  /\ ((forall el,
          In el (glob_star_nc (join (join source_path hemisphere) "siconca")) ->
          abspath el = abspath seas_file -> el = seas_file) ->
      ~ In (abspath seas_file) (keys files)).
Proof.
  intros _ Hrun. unfold seas_hist_files_of in Hrun.
  apply bind_ok_inv in Hrun. destruct Hrun as (l1 & d & l2 & Hd & Hret & _).
  inversion Hret; subst. clear Hret.
  assert (Hkeys : forall k,
             In k (keys (dict_of_items (sorted d)))
             <-> exists el,
                   In el (glob_star_nc (join (join source_path hemisphere) "siconca"))
                   /\ kept_by_filter seas_file el = true /\ k = abspath el).
  { intros k. unfold dict_of_items. rewrite fold_dict_set_keys_iff.
    pose proof (Permutation_map fst (sorted_perm d)) as Hperm.
    split.
    - intros [[] | Hin]. apply (Permutation_in _ Hperm) in Hin.
      change (In k (keys d)) in Hin.
      apply (proj1 (hist_comprehension_keys_iff _ _ _ _ _ Hd k)) in Hin.
      destruct Hin as [[] | Hin]. exact Hin.
    - intros Hin. right. apply (Permutation_in _ (Permutation_sym Hperm)).
      change (In k (keys d)).
      apply (proj2 (hist_comprehension_keys_iff _ _ _ _ _ Hd k)). now right. }
  split; [exact Hkeys |].
  intros Hinj Hin. apply Hkeys in Hin. destruct Hin as (el & Hel & Hkept & Habs).
  symmetry in Habs. apply (Hinj el Hel) in Habs. subst el.
  unfold kept_by_filter in Hkept. rewrite String.eqb_refl in Hkept.
  rewrite andb_false_r in Hkept. discriminate.
Qed.

(** The directory of the four forecasts: the one issued 2022-06-01 is not
    among the keys of its own history. *)
Lemma seas_hist_files_of_keys_witness :
  (forall el,
      In el (glob_star_nc (join (join default_source_path "north") "siconca")) ->
      ascii_text (basename el) = true)
  /\ (forall k,
         In k (keys scenario_d_files)
         <-> exists el,
               In el (glob_star_nc (join (join default_source_path "north") "siconca"))
               /\ kept_by_filter
                    (seas_file_of default_source_path "north" (midnight 2022 6 1)) el
                  = true
               /\ k = abspath el)
  /\ ((forall el,
          In el (glob_star_nc (join (join default_source_path "north") "siconca")) ->
          abspath el
          = abspath (seas_file_of default_source_path "north" (midnight 2022 6 1)) ->
          el = seas_file_of default_source_path "north" (midnight 2022 6 1)) ->
      ~ In (abspath (seas_file_of default_source_path "north" (midnight 2022 6 1)))
          (keys scenario_d_files)).
Proof.
  assert (Hascii : forall el,
             In el (glob_star_nc (join (join default_source_path "north") "siconca")) ->
             ascii_text (basename el) = true).
  { intros el Hin. vm_compute in Hin.
    repeat (destruct Hin as [<- | Hin]; [vm_compute; reflexivity |]).
    destruct Hin. }
  split; [exact Hascii |].
  exact (@seas_hist_files_of_keys world default_source_path "north"
           (seas_file_of default_source_path "north" (midnight 2022 6 1))
           [] scenario_d_files Hascii scenario_build_mapping).
Defined.

(** ** [get_seas_forecast_da]: the two modes and the range reports *)

(** X16. Without bias correction the retrieval reads the forecast file
    and nothing else: a run that returns has logged nothing and returns
    the variable [siconc] of the file on the file's axes.  A run with bias
    correction that returns has a counterpart without: the uncorrected run
    returns too, and the corrected series has its axes and the shape of
    its values. *)
Theorem get_seas_forecast_da_uncorrected `{Externals} (hemisphere : string)
    (date : datetime) (source_path : string) :
  (forall (l : list log_record) (r : DataArray),
      get_seas_forecast_da hemisphere date false source_path = (l, Ok r) ->
      l = []
      /\ exists (file : Dataset) (raw : ndarray),
           open_file (seas_file_of source_path hemisphere date) = Some file
           /\ lookup_var "siconc" (data_vars file) = Some raw
           /\ r = mkDataArray (time file) (yc file) (xc file) raw)
  /\ (forall (l : list log_record) (r : DataArray),
         get_seas_forecast_da hemisphere date true source_path = (l, Ok r) ->
         exists raw : DataArray,
           get_seas_forecast_da hemisphere date false source_path = ([], Ok raw)
           /\ da_time r = da_time raw /\ da_yc r = da_yc raw /\ da_xc r = da_xc raw
           /\ shape (da_values r) = shape (da_values raw)).
Proof.
  split; intros l r Hrun; unfold get_seas_forecast_da in Hrun.
  - apply bind_ok_inv in Hrun. destruct Hrun as (l1 & seas_ds & l2 & Hds & Hrun & ->).
    apply bind_ok_inv in Hrun. destruct Hrun as (l3 & seas_da & l4 & Hda & Hrun & ->).
    inversion Hrun; subst. clear Hrun.
    pose proof (open_dataset_log (seas_file_of source_path hemisphere date)) as Hlog.
    rewrite Hds in Hlog. simpl in Hlog. subst l1.
    apply open_dataset_ok_inv in Hds.
    destruct Hds as (file & Hfile & Ht & Hy & Hx & Hv & _).
    apply getvar_ok_inv in Hda. destruct Hda as (raw & Hraw & -> & ->).
    split; [reflexivity |]. exists file, raw.
    rewrite <- Hv, <- Ht, <- Hy, <- Hx. auto.
  - step_ok Hrun seas_ds. step_ok Hrun seas_da.
    unfold bias_correct_window in Hrun.
    step_ok Hrun obs_da. step_ok Hrun seas_hist_files.
    step_ok Hrun hist_ds. step_ok Hrun hist_da.
    step_ok Hrun obs_min. step_ok Hrun obs_max.
    step_ok Hrun hist_min. step_ok Hrun hist_max.
    step_ok Hrun seas_min. step_ok Hrun seas_max.
    step_ok Hrun logged. step_ok Hrun seas_array. step_ok Hrun seas_da'.
    step_ok Hrun out_min. step_ok Hrun out_max. step_ok Hrun logged'.
    inversion Hrun; subst r.
    apply set_values_ok_inv in Hseas_da'. destruct Hseas_da' as [Hshape ->].
    exists seas_da. unfold get_seas_forecast_da.
    pose proof (open_dataset_log (seas_file_of source_path hemisphere date)) as Hlog.
    rewrite Hseas_ds in Hlog. simpl in Hlog. subst.
    rewrite Hseas_ds. unfold bind at 1.
    destruct (getvar_ok_inv _ _ _ _ Hseas_da) as (raw & _ & _ & ->).
    rewrite Hseas_da. simpl. auto.
Qed.

(** The forecast issued 2022-06-01, uncorrected. *)
Example get_seas_forecast_da_raw :
  get_seas_forecast_da "north" (midnight 2022 6 1) false default_source_path
  = ret (raw_series (midnight 2022 6 1) 0.625%float).
Proof. vm_compute. reflexivity. Qed.

Lemma da_min_ok_inv (da : DataArray) (l : list log_record) (x : float) :
  da_min da = (l, Ok x) -> l = [] /\ flatten (da_values da) <> [].
Proof.
  unfold da_min. destruct (flatten (da_values da)); [discriminate |].
  intros Heq. inversion Heq. split; [reflexivity | discriminate].
Qed.

Lemma da_max_ok_inv (da : DataArray) (l : list log_record) (x : float) :
  da_max da = (l, Ok x) -> l = [] /\ flatten (da_values da) <> [].
Proof.
  unfold da_max. destruct (flatten (da_values da)); [discriminate |].
  intros Heq. inversion Heq. split; [reflexivity | discriminate].
Qed.

(** One step of inversion of a successful run that keeps the log. *)
Ltac step_log H x Hl :=
  let l1 := fresh "l" in
  let l2 := fresh "l" in
  let Hx := fresh "H" x in
  apply bind_ok_inv in H; destruct H as (l1 & x & l2 & Hx & H & Hl).

(** X17. A bias-corrected run that returns ends its log with the two
    range reports, both at INFO level, and the range it reports last is
    the range of the series it returns: the minimum and maximum of the
    returned values, which therefore hold at least one cell. *)
Theorem get_seas_forecast_da_reports_range `{Externals} (hemisphere : string)
    (date : datetime) (source_path : string) (l : list log_record)
    (r : DataArray) :
  get_seas_forecast_da hemisphere date true source_path = (l, Ok r) ->
  exists (l0 : list log_record) (ranges : list arg) (lo hi : float),
    l = l0 ++ [ LogRecord INFO false
                  (Fmt ("Debiaser input ranges: obs {:.2f} - {:.2f}, "
                        ++ "hist {:.2f} - {:.2f}, fut {:.2f} - {:.2f}")%string
                       ranges);
                LogRecord INFO false
                  (Fmt "Debiaser output range: {:.2f} - {:.2f}"
                       [AFloat lo; AFloat hi]) ]
    /\ List.length ranges = 6%nat
    /\ da_min r = ret lo /\ da_max r = ret hi
    /\ flatten (da_values r) <> [].
Proof.
  intros Hrun. unfold get_seas_forecast_da in Hrun.
  step_log Hrun seas_ds L1. step_log Hrun seas_da L2.
  unfold bias_correct_window in Hrun.
  step_log Hrun obs_da L3. step_log Hrun seas_hist_files L4.
  step_log Hrun hist_ds L5. step_log Hrun hist_da L6.
  step_log Hrun obs_min L7. step_log Hrun obs_max L8.
  step_log Hrun hist_min L9. step_log Hrun hist_max L10.
  step_log Hrun seas_min L11. step_log Hrun seas_max L12.
  step_log Hrun logged L13. step_log Hrun seas_array L14.
  step_log Hrun seas_da' L15.
  step_log Hrun out_min L16. step_log Hrun out_max L17. step_log Hrun logged' L18.
  inversion Hrun; subst r. clear Hrun.
  apply da_min_ok_inv in Hobs_min, Hhist_min, Hseas_min.
  apply da_max_ok_inv in Hobs_max, Hhist_max, Hseas_max.
  destruct Hobs_min as [-> _], Hobs_max as [-> _], Hhist_min as [-> _],
    Hhist_max as [-> _], Hseas_min as [-> _], Hseas_max as [-> _].
  destruct (da_min_ok_inv _ _ _ Hout_min) as [Eo1 Hcells].
  destruct (da_max_ok_inv _ _ _ Hout_max) as [Eo2 _].
  inversion Hlogged; subst. inversion Hlogged'; subst.
  assert (Hl28 : l28 = []).
  { unfold set_values in Hseas_da'.
    destruct (shape_eqb (shape seas_array) (shape (da_values seas_da)));
      [inversion Hseas_da'; reflexivity | discriminate]. }
  unfold lift in Hseas_array. inversion Hseas_array; subst.
  eexists. eexists. exists out_min, out_max.
  split.
  { simpl. rewrite !app_assoc. reflexivity. }
  split; [reflexivity |].
  split; [exact Hout_min |]. split; [exact Hout_max | exact Hcells].
Qed.

Lemma bind_ok_step {A B} (m : M A) (l : list log_record) (a : A) (f : A -> M B)
    (l' : list log_record) (r : result B) :
  m = (l, Ok a) -> f a = (l', r) -> bind m f = (l ++ l', r).
Proof. intros -> Hf. unfold bind. rewrite Hf. reflexivity. Qed.

(** The run for the forecast issued 2022-06-01 in the wider
    installation: the loads, then the correction against the three
    earlier issuances. *)
Lemma wider_june_run :
  @get_seas_forecast_da wider_world "north" (midnight 2022 6 1) true
    default_source_path
  = (run_log_june, Ok corrected_june).
Proof.
  assert (Hopen : @open_dataset wider_world
                    (seas_file_of default_source_path "north" (midnight 2022 6 1))
                  = ([], Ok (opened_seas (midnight 2022 6 1) 0.625%float)))
    by (vm_compute; reflexivity).
  assert (Hvar : getvar (opened_seas (midnight 2022 6 1) 0.625%float) "siconc"
                 = ([], Ok (raw_series (midnight 2022 6 1) 0.625%float)))
    by (vm_compute; reflexivity).
  change run_log_june with ([] ++ [] ++ obs_log_june ++ correction_log_june).
  unfold get_seas_forecast_da, bias_correct_window.
  apply (bind_ok_step _ _ _ _ _ _ Hopen). cbv beta.
  apply (bind_ok_step _ _ _ _ _ _ Hvar). cbv beta iota.
  apply (bind_ok_step _ _ _ _ _ _ wider_obs_june). cbv beta.
  vm_compute. reflexivity.
Qed.

Lemma get_seas_forecast_da_reports_range_witness :
  exists (l0 : list log_record) (ranges : list arg) (lo hi : float),
    run_log_june
    = l0 ++ [ LogRecord INFO false
                (Fmt ("Debiaser input ranges: obs {:.2f} - {:.2f}, "
                      ++ "hist {:.2f} - {:.2f}, fut {:.2f} - {:.2f}")%string
                     ranges);
              LogRecord INFO false
                (Fmt "Debiaser output range: {:.2f} - {:.2f}"
                     [AFloat lo; AFloat hi]) ]
    /\ List.length ranges = 6%nat
    /\ da_min corrected_june = ret lo /\ da_max corrected_june = ret hi
    /\ flatten (da_values corrected_june) <> [].
Proof.
  exact (@get_seas_forecast_da_reports_range wider_world "north" (midnight 2022 6 1)
           default_source_path run_log_june corrected_june wider_june_run).
Defined.

(** ** The calendar: a civil date is recovered from its day number *)

Lemma civil_of_march_based (z era yoe doy mp d : Z) :
  z + 719468 = era * 146097 + (yoe * 365 + yoe / 4 - yoe / 100 + doy) ->
  0 <= yoe < 400 ->
  0 <= doy -> doy <= 365 -> (doy = 365 -> yoe mod 4 = 3 /\ (yoe mod 100 <> 99 \/ yoe = 399)) ->
  0 <= mp <= 11 ->
  doy = (153 * mp + 2) / 5 + d - 1 ->
  1 <= d -> (153 * mp + 2) / 5 + d - 1 < (153 * (mp + 1) + 2) / 5 ->
  civil_from_days z
  = ((if (if mp <? 10 then mp + 3 else mp - 9) <=? 2 then yoe + era * 400 + 1 else yoe + era * 400),
     (if mp <? 10 then mp + 3 else mp - 9), d).
Proof.
  intros Hz Hyoe Hdoy0 Hdoy1 Hleap Hmp Hdoy Hd Hdm.
  unfold civil_from_days. rewrite Hz.
  set (doe := yoe * 365 + yoe / 4 - yoe / 100 + doy).
  assert (Hdoe : 0 <= doe < 146097).
  { subst doe. Z.div_mod_to_equations. lia. }
  assert (Hera : (era * 146097 + doe) / 146097 = era).
  { Z.div_mod_to_equations. lia. }
  rewrite Hera.
  replace (era * 146097 + doe - era * 146097) with doe by lia.
  assert (Hy : (doe - doe / 1460 + doe / 36524 - doe / 146096) / 365 = yoe).
  { subst doe. Z.div_mod_to_equations. lia. }
  rewrite Hy.
  replace (doe - (365 * yoe + yoe / 4 - yoe / 100)) with doy by (subst doe; lia).
  assert (Hm : (5 * doy + 2) / 153 = mp).
  { Z.div_mod_to_equations. lia. }
  rewrite Hm.
  replace (doy - (153 * mp + 2) / 5 + 1) with d by lia.
  reflexivity.
Qed.

Lemma month_of_march_based (m : Z) :
  1 <= m <= 12 ->
  (if (m + 9) mod 12 <? 10 then (m + 9) mod 12 + 3 else (m + 9) mod 12 - 9) = m.
Proof.
  intros Hm.
  assert (Hcases : m = 1 \/ m = 2 \/ m = 3 \/ m = 4 \/ m = 5 \/ m = 6 \/ m = 7
                   \/ m = 8 \/ m = 9 \/ m = 10 \/ m = 11 \/ m = 12) by lia.
  repeat (destruct Hcases as [-> | Hcases]); try subst m; reflexivity.
Qed.

(** Where a valid date falls in the year that starts in March. *)
Lemma march_based_day (y m d : Z) :
  1 <= m <= 12 -> 1 <= d <= days_in_month y m ->
  let mp := (m + 9) mod 12 in
  let doy := (153 * mp + 2) / 5 + d - 1 in
  0 <= mp <= 11 /\ 0 <= doy <= 365
  /\ doy < (153 * (mp + 1) + 2) / 5
  /\ (doy = 365 -> m = 2 /\ d = 29).
Proof.
  intros Hm Hd mp doy.
  assert (Hmpv : mp = (m + 9) mod 12) by reflexivity.
  assert (Hdoyv : doy = (153 * mp + 2) / 5 + d - 1) by reflexivity.
  clearbody mp doy.
  assert (Hcases : m = 1 \/ m = 2 \/ m = 3 \/ m = 4 \/ m = 5 \/ m = 6 \/ m = 7
                   \/ m = 8 \/ m = 9 \/ m = 10 \/ m = 11 \/ m = 12) by lia.
  unfold days_in_month in Hd.
  repeat (destruct Hcases as [-> | Hcases]); try subst m;
    vm_compute in Hmpv; subst mp; simpl in Hd;
    try (destruct (is_leap y)); subst doy;
    repeat split; try (Z.div_mod_to_equations; lia).
Qed.

Lemma civil_round_trip (y m d : Z) :
  1 <= m <= 12 -> 1 <= d <= days_in_month y m ->
  civil_from_days (days_from_civil y m d) = (y, m, d).
Proof.
  intros Hm Hd.
  destruct (march_based_day y m d Hm Hd) as (Hmp & Hdoy & Hdm & H365).
  set (y' := if m <=? 2 then y - 1 else y).
  rewrite (civil_of_march_based (days_from_civil y m d) (y' / 400)
             (y' - y' / 400 * 400) ((153 * ((m + 9) mod 12) + 2) / 5 + d - 1)
             ((m + 9) mod 12) d).
  - rewrite (month_of_march_based m Hm). subst y'.
    destruct (m <=? 2); f_equal; f_equal; lia.
  - unfold days_from_civil. fold y'. lia.
  - Z.div_mod_to_equations. lia.
  - lia.
  - lia.
  - intros H. destruct (H365 H) as [-> ->].
    unfold days_in_month, is_leap in Hd. simpl in Hd. subst y'. simpl.
    destruct (y mod 4 =? 0) eqn:H4; destruct (y mod 100 =? 0) eqn:H100;
      destruct (y mod 400 =? 0) eqn:H400; simpl in Hd;
      rewrite ?Z.eqb_eq, ?Z.eqb_neq in *; try lia;
      Z.div_mod_to_equations; lia.
  - exact Hmp.
  - reflexivity.
  - lia.
  - lia.
Qed.

Lemma date_of_midnight (y m d : Z) :
  1 <= m <= 12 -> 1 <= d <= days_in_month y m ->
  date_of (midnight y m d) = (y, m, d).
Proof.
  intros Hm Hd. unfold date_of, midnight.
  rewrite Z.div_mul by (unfold ns_per_day; lia).
  apply civil_round_trip; assumption.
Qed.

(** ** The file name of a forecast is one the scan of the directory reads *)

Lemma nat_of_digit_char (n : Z) :
  nat_of_ascii (digit_char n) = (48 + Z.to_nat (n mod 10))%nat.
Proof.
  unfold digit_char. apply nat_ascii_embedding.
  pose proof (Z.mod_pos_bound n 10). lia.
Qed.

Lemma is_digit_digit_char (n : Z) : is_digit (digit_char n) = true.
Proof.
  unfold is_digit. rewrite nat_of_digit_char.
  pose proof (Z.mod_pos_bound n 10).
  apply andb_true_iff. split; apply Nat.leb_le; lia.
Qed.

Lemma digit_val_digit_char (n : Z) : digit_val (digit_char n) = n mod 10.
Proof.
  unfold digit_val. rewrite nat_of_digit_char.
  pose proof (Z.mod_pos_bound n 10). lia.
Qed.

(** Eight digits followed by [.nc] pass the glob pattern and the regular
    expression. *)
Lemma date_name_matches (a1 a2 a3 a4 a5 a6 a7 a8 : ascii) :
  is_digit a1 = true -> is_digit a2 = true -> is_digit a3 = true ->
  is_digit a4 = true -> is_digit a5 = true -> is_digit a6 = true ->
  is_digit a7 = true -> is_digit a8 = true ->
  matches_star_nc (name_of a1 a2 a3 a4 a5 a6 a7 a8 ".nc") = true
  /\ matches_date_nc (name_of a1 a2 a3 a4 a5 a6 a7 a8 ".nc") = true.
Proof.
  intros H1 H2 H3 H4 H5 H6 H7 H8. split.
  - unfold matches_star_nc, name_of. apply andb_true_iff. split; [reflexivity |].
    cbn [prefix]. destruct (ascii_dec "." a1) as [<- | Hne];
      [discriminate H1 | reflexivity].
  - unfold matches_date_nc, name_of. simpl.
    rewrite H1, H2, H3, H4, H5, H6, H7, H8. reflexivity.
Qed.

(** X18. The file name the retrieval builds for a date is one its own
    scan of the directory recognises and reads back as that date: for a
    civil date with a year of four digits, the date written as [%Y%m%d]
    and followed by [.nc] passes the glob pattern and the regular
    expression, and its first eight characters parse to the same date.
    (This is why the comprehension has to exclude the forecast asked for
    by comparing paths.) *)
Theorem seas_file_name_round_trip (y m d : Z) :
  1000 <= y <= 9999 -> 1 <= m <= 12 -> 1 <= d <= days_in_month y m ->
  matches_star_nc (strftime_Ymd (midnight y m d) ++ ".nc") = true
  /\ matches_date_nc (strftime_Ymd (midnight y m d) ++ ".nc") = true
  /\ strptime_Ymd (substring 0 8 (strftime_Ymd (midnight y m d) ++ ".nc"))
     = Some (midnight y m d).
Proof.
  intros Hy Hm Hd. unfold strftime_Ymd. rewrite (date_of_midnight y m d Hm Hd).
  change ((four_digits y ++ two_digits m ++ two_digits d) ++ ".nc")%string
    with (name_of (digit_char (y / 100 / 10)) (digit_char (y / 100))
            (digit_char (y mod 100 / 10)) (digit_char (y mod 100))
            (digit_char (m / 10)) (digit_char m)
            (digit_char (d / 10)) (digit_char d) ".nc").
  destruct (date_name_matches _ _ _ _ _ _ _ _
              (is_digit_digit_char (y / 100 / 10)) (is_digit_digit_char (y / 100))
              (is_digit_digit_char (y mod 100 / 10)) (is_digit_digit_char (y mod 100))
              (is_digit_digit_char (m / 10)) (is_digit_digit_char m)
              (is_digit_digit_char (d / 10)) (is_digit_digit_char d))
    as [Hstar Hdate].
  split; [exact Hstar |]. split; [exact Hdate |].
  change (substring 0 8 (name_of ?a1 ?a2 ?a3 ?a4 ?a5 ?a6 ?a7 ?a8 ".nc"))
    with (name_of a1 a2 a3 a4 a5 a6 a7 a8 "").
  unfold name_of. rewrite strptime_Ymd_chars, !is_digit_digit_char.
  cbn [andb]. rewrite !digit_val_digit_char. cbv zeta.
  assert (Hd31 : d <= 31).
  { unfold days_in_month in Hd.
    destruct (m =? 2); [destruct (is_leap y); lia |].
    destruct ((m =? 4) || (m =? 6) || (m =? 9) || (m =? 11)); lia. }
  replace (10 * (10 * (10 * (10 * 0 + (y / 100 / 10) mod 10) + (y / 100) mod 10)
                 + (y mod 100 / 10) mod 10) + (y mod 100) mod 10)
    with y by (Z.div_mod_to_equations; lia).
  replace (10 * (10 * 0 + (m / 10) mod 10) + m mod 10)
    with m by (Z.div_mod_to_equations; lia).
  replace (10 * (10 * 0 + (d / 10) mod 10) + d mod 10)
    with d by (Z.div_mod_to_equations; lia).
  replace (valid_date y m d) with true; [reflexivity |].
  symmetry. unfold valid_date.
  repeat (apply andb_true_iff; split); apply Z.leb_le; lia.
Qed.

Lemma seas_file_name_round_trip_witness :
  matches_star_nc (strftime_Ymd (midnight 2024 2 29) ++ ".nc") = true
  /\ matches_date_nc (strftime_Ymd (midnight 2024 2 29) ++ ".nc") = true
  /\ strptime_Ymd (substring 0 8 (strftime_Ymd (midnight 2024 2 29) ++ ".nc"))
     = Some (midnight 2024 2 29).
Proof.
  apply (seas_file_name_round_trip 2024 2 29); [lia | lia | vm_compute; split; discriminate].
Defined.

(** ** The hook only removes time steps *)

Lemma filter_all_true {A} (f : A -> bool) (xs : list A) :
  (forall x, In x xs -> f x = true) -> filter f xs = xs.
Proof.
  induction xs as [| x xs IH]; intros Hall; [reflexivity |]. simpl.
  rewrite (Hall x (or_introl eq_refl)), IH; [reflexivity |].
  intros y Hy. apply Hall. now right.
Qed.

Lemma filter_idempotent {A} (f : A -> bool) (xs : list A) :
  filter f (filter f xs) = filter f xs.
Proof. apply filter_all_true. intros x Hx. apply filter_In in Hx. tauto. Qed.

Lemma mask_length_le {A} (keep : list bool) (xs : list A) :
  (List.length (mask keep xs) <= List.length (filter (fun b => b) keep))%nat.
Proof.
  unfold mask. revert xs. induction keep as [| b keep IH]; intros xs; [simpl; lia |].
  destruct xs as [| x xs]; [simpl; lia |]. simpl.
  specialize (IH xs). destruct b; simpl; lia.
Qed.

Lemma mask_all_true {A} (keep : list bool) (xs : list A) :
  (forall b, In b keep -> b = true) ->
  (List.length xs <= List.length keep)%nat ->
  mask keep xs = xs.
Proof.
  unfold mask. revert xs. induction keep as [| b keep IH]; intros xs Hall Hlen.
  - destruct xs; [reflexivity | simpl in Hlen; lia].
  - destruct xs as [| x xs]; [reflexivity |]. simpl in *.
    rewrite (Hall b (or_introl eq_refl)). simpl. f_equal.
    apply IH; [intros c Hc; apply Hall; now right | lia].
Qed.

Lemma mask_sel_again {A} (f : datetime -> bool) (ts : list datetime) (a : list A) :
  mask (map f (filter f ts)) (mask (map f ts) a) = mask (map f ts) a.
Proof.
  apply mask_all_true.
  - intros b Hb. apply in_map_iff in Hb. destruct Hb as (t & <- & Ht).
    apply filter_In in Ht. tauto.
  - rewrite length_map, <- filter_true_map. apply mask_length_le.
Qed.

(** Slicing twice with the same bounds is slicing once. *)
Lemma sel_time_idempotent (lo hi : option datetime) (ds : Dataset) :
  sel_time lo hi (sel_time lo hi ds) = sel_time lo hi ds.
Proof.
  unfold sel_time. simpl. rewrite !mask_map_filter, filter_idempotent.
  f_equal. rewrite map_map. apply map_ext. intros [n a].
  now rewrite mask_sel_again.
Qed.

Lemma sel_time_names (lo hi : option datetime) (ds : Dataset) :
  map fst (data_vars (sel_time lo hi ds)) = map fst (data_vars ds).
Proof.
  unfold sel_time. simpl. rewrite map_map. apply map_ext. now intros [n a].
Qed.

(** X19. The hook only ever removes time steps.  A dataset it returns has
    the grid axes, the variable names and the recorded source of the one
    it was given, and a time axis drawn from that one's; and the hook is
    idempotent: given its own result it returns it unchanged, with the
    same log record. *)
Theorem strip_overlapping_time_idempotent `{Externals} (files : dict)
    (ds r : Dataset) (l : list log_record) :
  strip_overlapping_time files ds = (l, Ok (Some r)) ->
  strip_overlapping_time files r = (l, Ok (Some r))
  /\ encoding_source r = encoding_source ds
  /\ yc r = yc ds /\ xc r = xc ds
  /\ map fst (data_vars r) = map fst (data_vars ds)
  /\ incl (time r) (time ds).
Proof.
  intros Hrun. unfold strip_overlapping_time in *.
  destruct (encoding_source ds) as [source |] eqn:Hsrc; [| discriminate].
  rewrite bind_ret_l in Hrun.
  destruct (index_of (abspath source) (keys files)) as [idx |] eqn:Hidx;
    [| discriminate].
  destruct (Z.of_nat idx <? Z.of_nat (List.length files) - 1) eqn:Hlast.
  - destruct (nth_error (keys files) (idx + 1)) as [k |] eqn:Hk; [| discriminate].
    rewrite bind_ret_l in Hrun.
    destruct (dict_get k files) as [v |] eqn:Hv; [| discriminate].
    rewrite bind_ret_l in Hrun. inversion Hrun; subst. clear Hrun.
    split; [| split; [exact Hsrc | split; [reflexivity | split; [reflexivity |
             split; [apply sel_time_names |]]]]].
    + cbn [encoding_source sel_time].
      rewrite Hsrc, bind_ret_l, Hidx, Hlast, Hk, bind_ret_l, Hv, bind_ret_l.
      rewrite sel_time_idempotent. reflexivity.
    + rewrite time_sel_time. intros t Ht. apply filter_In in Ht. tauto.
  - inversion Hrun; subst. clear Hrun.
    rewrite Hsrc, bind_ret_l, Hidx, Hlast.
    split; [reflexivity |]. split; [reflexivity |].
    repeat split; try reflexivity. apply incl_refl.
Qed.

(** The forecast issued 2022-03-01 in the mapping of Scenario D, clipped
    to March. *)
Lemma strip_overlapping_time_idempotent_witness :
  strip_overlapping_time scenario_d_files
    (sel_time None (Some (midnight 2022 3 31))
       (opened_seas (midnight 2022 3 1) 0.25%float))
  = ([LogRecord DEBUG false
        (Fmt "Stripping {} to {}"
           [AStr "/srv/icenet/data/mars.seas/north/siconca/20220301.nc";
            ADate (midnight 2022 3 31)])],
     Ok (Some (sel_time None (Some (midnight 2022 3 31))
                 (opened_seas (midnight 2022 3 1) 0.25%float))))
  /\ incl (time (sel_time None (Some (midnight 2022 3 31))
                   (opened_seas (midnight 2022 3 1) 0.25%float)))
       (time (opened_seas (midnight 2022 3 1) 0.25%float)).
Proof.
  assert (Hrun : strip_overlapping_time scenario_d_files
                   (opened_seas (midnight 2022 3 1) 0.25%float)
                 = ([LogRecord DEBUG false
                       (Fmt "Stripping {} to {}"
                          [AStr "/srv/icenet/data/mars.seas/north/siconca/20220301.nc";
                           ADate (midnight 2022 3 31)])],
                    Ok (Some (sel_time None (Some (midnight 2022 3 31))
                                (opened_seas (midnight 2022 3 1) 0.25%float)))))
    by (vm_compute; reflexivity).
  pose proof (@strip_overlapping_time_idempotent world scenario_d_files _ _ _ Hrun)
    as (Hagain & _ & _ & _ & _ & Hincl).
  split; [exact Hagain | exact Hincl].
Defined.

(** ** [calculate_data_extents] and [calculate_proj_extents] *)

(** X20. For a window of cells within the grid, the data extents run from
    left to right and from bottom to top, span 25000 metres for every
    cell of the window in each direction, and stay within the grid's
    5400000 metres either side of the pole; the vertical extent counts
    the rows from the top. *)
Theorem calculate_data_extents_span (x1 x2 y1 y2 : Z) :
  0 <= x1 <= x2 -> x2 <= 432 -> 0 <= y1 <= y2 -> y2 <= 432 ->
  exists xlo xhi ylo yhi : Z,
    calculate_data_extents x1 x2 y1 y2 = [xlo; xhi; ylo; yhi]
    /\ xhi - xlo = (x2 - x1) * 25000
    /\ yhi - ylo = (y2 - y1) * 25000
    /\ - 5400000 <= xlo <= xhi /\ xhi <= 5400000
    /\ - 5400000 <= ylo <= yhi /\ yhi <= 5400000
    /\ yhi = 5400000 - y1 * 25000.
Proof.
  intros Hx1 Hx2 Hy1 Hy2. unfold calculate_data_extents, data_extent_estimate.
  eexists. eexists. eexists. eexists. split; [reflexivity |]. lia.
Qed.

Lemma calculate_data_extents_span_witness :
  exists xlo xhi ylo yhi : Z,
    calculate_data_extents 100 200 50 300 = [xlo; xhi; ylo; yhi]
    /\ xhi - xlo = (200 - 100) * 25000
    /\ yhi - ylo = (300 - 50) * 25000
    /\ - 5400000 <= xlo <= xhi /\ xhi <= 5400000
    /\ - 5400000 <= ylo <= yhi /\ yhi <= 5400000
    /\ yhi = 5400000 - 50 * 25000.
Proof. apply (calculate_data_extents_span 100 200 50 300); lia. Defined.

(** X21. The projection extents are the data extents of the window with
    its two axes exchanged and the rows counted from the other end: the
    horizontal pair of the one is the vertical pair of the other, negated
    and swapped, and the other pair is shared.  On the whole grid both
    are the square of 5400000 metres either side. *)
Theorem calculate_proj_extents_of_data_extents (x1 x2 y1 y2 : Z) :
  calculate_proj_extents x1 x2 y1 y2
  = calculate_data_extents y1 y2 (432 - x2) (432 - x1)
  /\ calculate_proj_extents x1 x2 y1 y2
     = match calculate_data_extents x1 x2 y1 y2 with
       | [xlo; xhi; ylo; yhi] => [- yhi; - ylo; xlo; xhi]
       | _ => []
       end
  /\ calculate_proj_extents 0 432 0 432 = calculate_data_extents 0 432 0 432.
Proof.
  unfold calculate_proj_extents, calculate_data_extents, data_extent_estimate.
  cbv iota. split; [| split].
  - repeat (apply (f_equal2 cons); [lia |]). reflexivity.
  - repeat (apply (f_equal2 cons); [lia |]). reflexivity.
  - reflexivity.
Qed.
